(** * keylime/tpm/tpm_main.py: the quote-acceptance pipeline of class [Tpm]

    A shallow embedding of [Tpm.check_quote], [Tpm.check_quote_timing],
    [Tpm.check_pcrs], [Tpm.sim_extend] and the event-log enrichment passes
    ([__stringify_pcr_keys], [__add_boot_aggregate], [__unescape_eventlog],
    [parse_mb_bootlog]).

    Conventions of the embedding:
    - a Python [str] is a Rocq [string] (its UTF-8 bytes), [bytes] is
      [list byte], a Python [int] is [Z] (unbounded, no wrap-around);
    - a raised exception is the [Raise] result of the [Exc] monad;
    - [Dict[int, str]] is [gmap Z string], [Set[int]] is [gset Z]; iterating a
      set visits [elements s];
    - a log document (the YAML of tpm2_eventlog) is the tree [Doc], whose
      dicts are association lists in insertion order;
    - logger calls have no effect on any result and are left out. *)

From Stdlib Require Import ZArith String Ascii List Lia Bool DecimalString.
From stdpp Require Import base option list gmap strings.

Local Open Scope string_scope.
Local Open Scope Z_scope.

#[local] Set Warnings "-register-all,-clear-no-such-hyp".

(** ** Exceptions *)

Inductive Exc (A : Type) : Type :=
| Ret (a : A)
| Raise (e : string).
Arguments Ret {A} a.
Arguments Raise {A} e.

#[global] Instance Exc_ret : MRet Exc := fun A a => Ret a.
#[global] Instance Exc_bind : MBind Exc := fun A B f m =>
  match m with
  | Ret a => f a
  | Raise e => Raise e
  end.

Definition returns {A} (m : Exc A) : Prop := exists a, m = Ret a.

Abbreviation bytes := (list Byte.byte).

(** ** Log documents *)

(** A dict key of the decoded YAML: a string, or a native integer. *)
Inductive Key : Type :=
| KStr (s : string)
| KInt (z : Z).

(** The tree the YAML of tpm2_eventlog loads to. Scalar leaves are None,
    booleans, integers and strings; a dict keeps its insertion order. The tree
    has no sharing between subtrees (the decoder output has no YAML anchors). *)
Inductive Doc : Type :=
| DNone
| DBool (b : bool)
| DInt (z : Z)
| DStr (s : string)
| DList (l : list Doc)
| DDict (kv : list (Key * Doc)).

(** ** keylime.failure *)

Module failure.

Inductive Component : Type :=
| QUOTE_VALIDATION
| PCR_VALIDATION
| MEASURED_BOOT
| IMA
| INTERNAL
| DEFAULT.

(** The values the source puts into an event context: a message, or a dict
    literal whose entries are strings, allowlist entries, index lists or a
    piece of a log document. *)
Inductive CtxVal : Type :=
| VStr (s : string)
| VStrs (l : list string)
| VInts (l : list Z)
| VDoc (d : Doc).

Inductive Context : Type :=
| CtxStr (s : string)
| CtxDict (kv : list (string * CtxVal)).

(** keylime/failure.py is not among the sources. An event is a name and a
    context scoped to the component (and sub-path) of the Failure it was added
    to, with the third positional argument of [add_event], stored as given:
    it is the flag [recoverable] of keylime. [check_quote] passes False and
    comments the failure as irrecoverable; every event of [check_pcrs] and of
    the log parser gets True. *)
Record Event : Type := mkEvent {
  component : Component;
  sub_components : list string;
  event_id : string;
  context : Context;
  recoverable : bool
}.

(** What the spec calls a fatal event: one that is not recoverable. *)
Definition fatal (e : Event) : bool := negb (recoverable e).

(** Modelled from the spec: a Failure is a component-scoped accumulator of
    events; merging is concatenation, truthiness is having an event. *)
Record Failure : Type := mkFailure {
  f_component : Component;
  f_sub_components : list string;
  events : list Event
}.

Definition new (c : Component) (sub : list string) : Failure :=
  mkFailure c sub [].

Definition add_event (f : Failure) (name : string) (ctx : Context)
    (flag : bool) : Failure :=
  mkFailure (f_component f) (f_sub_components f)
    (events f ++ [mkEvent (f_component f) (f_sub_components f) name ctx flag]).

Definition merge (f other : Failure) : Failure :=
  mkFailure (f_component f) (f_sub_components f) (events f ++ events other).

(** [bool(failure)] *)
Definition truthy (f : Failure) : bool :=
  match events f with
  | [] => false
  | _ :: _ => true
  end.

End failure.
Import failure.

(** ** Builtins of Python the source relies on *)

Module Py.

(** [s[0]] *)
Definition index0 (s : string) : Exc ascii :=
  match s with
  | EmptyString => Raise "IndexError"
  | String c _ => Ret c
  end.

(** [s[1:]] *)
Definition tail (s : string) : string :=
  match s with
  | EmptyString => EmptyString
  | String _ t => t
  end.

(** [s.split(sep)] for a one-character separator: never empty. *)
Fixpoint split (sep : ascii) (s : string) : list string :=
  match s with
  | EmptyString => [EmptyString]
  | String c t =>
      if Ascii.eqb c sep then EmptyString :: split sep t
      else match split sep t with
           | [] => [String c EmptyString]
           | w :: ws => String c w :: ws
           end
  end.

(** The value of [a and b] on integers, and the truth value of an integer. *)
Definition and_ (a b : Z) : Z := if a =? 0 then a else b.
Definition truth (z : Z) : bool := negb (z =? 0).

(** Truth value of an [Optional[str]]. *)
Definition truth_optstr (o : option string) : bool :=
  match o with
  | None | Some EmptyString => false
  | Some (String _ _) => true
  end.

(** [str(n)] for an integer. *)
Definition str_int (z : Z) : string := NilZero.string_of_int (Z.to_int z).

(** [s.startswith(c)] and [s.endswith(c)] for a one-character [c]. *)
Definition startswith_char (c : ascii) (s : string) : bool :=
  match s with
  | EmptyString => false
  | String a _ => Ascii.eqb a c
  end.

Fixpoint endswith_char (c : ascii) (s : string) : bool :=
  match s with
  | EmptyString => false
  | String a EmptyString => Ascii.eqb a c
  | String _ t => endswith_char c t
  end.

(** [s[:-1]] *)
Fixpoint drop_last (s : string) : string :=
  match s with
  | EmptyString => EmptyString
  | String _ EmptyString => EmptyString
  | String a t => String a (drop_last t)
  end.

(** [s[1:-1]] *)
Definition slice_1_m1 (s : string) : string := drop_last (tail s).

(** [s.lstrip(c)] and [s.rstrip(c)] for a one-character [c]. *)
Fixpoint lstrip (c : ascii) (s : string) : string :=
  match s with
  | EmptyString => EmptyString
  | String a t => if Ascii.eqb a c then lstrip c t else s
  end.

Fixpoint rstrip (c : ascii) (s : string) : string :=
  match s with
  | EmptyString => EmptyString
  | String a t =>
      match rstrip c t with
      | EmptyString => if Ascii.eqb a c then EmptyString else String a EmptyString
      | t' => String a t'
      end
  end.

(** [s.startswith(p)] *)
Fixpoint startswith (p s : string) : bool :=
  match p with
  | EmptyString => true
  | String a p' =>
      match s with
      | EmptyString => false
      | String b s' => Ascii.eqb a b && startswith p' s'
      end
  end.

(** [s.replace(old, new)]: occurrences are taken from the left and do not
    overlap; [skip] counts the characters of a matched occurrence still to be
    passed over. An empty [old] puts [new] around every character. *)
Fixpoint replace_from (old new : string) (skip : nat) (s : string) : string :=
  match s with
  | EmptyString => EmptyString
  | String c t =>
      match skip with
      | S k => replace_from old new k t
      | O =>
          if startswith old s
          then new +:+ replace_from old new (String.length old - 1) t
          else String c (replace_from old new 0 t)
      end
  end.

Fixpoint intersperse (new : string) (s : string) : string :=
  match s with
  | EmptyString => new
  | String c t => new +:+ String c (intersperse new t)
  end.

Definition replace (old new : string) (s : string) : string :=
  match old with
  | EmptyString => intersperse new s
  | String _ _ => replace_from old new 0 s
  end.

(** [needle in hay] on strings. *)
Fixpoint contains (needle hay : string) : bool :=
  startswith needle hay ||
  match hay with
  | EmptyString => false
  | String _ t => contains needle t
  end.

(** Lower-case hexadecimal digits. *)
Definition hex_digit (d : Z) : ascii :=
  if d <? 10 then ascii_of_N (Z.to_N (48 + d)) else ascii_of_N (Z.to_N (87 + d)).

Fixpoint hex_digits_from (fuel : nat) (n : Z) (acc : string) : string :=
  match fuel with
  | O => acc
  | S f =>
      let acc' := String (hex_digit (n mod 16)) acc in
      if n / 16 =? 0 then acc' else hex_digits_from f (n / 16) acc'
  end.

(** The digits of a non-negative integer, without prefix ("0" for zero). *)
Definition hex_digits (n : Z) : string :=
  hex_digits_from (S (Z.to_nat (Z.log2 n))) n EmptyString.

(** [hex(n)] *)
Definition hex (n : Z) : string :=
  if n <? 0 then "-0x" +:+ hex_digits (- n) else "0x" +:+ hex_digits n.

(** [s[2:]] *)
Definition drop2 (s : string) : string := tail (tail s).

Fixpoint zeros (n : nat) : string :=
  match n with
  | O => EmptyString
  | S k => String "0"%char (zeros k)
  end.

Definition zfill (width : nat) (s : string) : string :=
  zeros (width - String.length s) +:+ s.

(** [f"{n:0{width}x}"]: sign first, then zeros up to the width. *)
Definition format_0x (width : nat) (n : Z) : string :=
  if n <? 0 then String "-"%char (zfill (width - 1) (hex_digits (- n)))
  else zfill width (hex_digits n).

Definition hexval (c : ascii) : option Z :=
  let n := Z.of_N (N_of_ascii c) in
  if (48 <=? n) && (n <=? 57) then Some (n - 48)
  else if (97 <=? n) && (n <=? 102) then Some (n - 87)
  else if (65 <=? n) && (n <=? 70) then Some (n - 55)
  else None.

Definition is_space (c : ascii) : bool :=
  let n := Z.of_N (N_of_ascii c) in
  (n =? 32) || ((9 <=? n) && (n <=? 13)).

Definition byte_of_Z (n : Z) : Byte.byte := byte_of_ascii (ascii_of_N (Z.to_N n)).

(** [bytes.fromhex(s)]: pairs of hex digits, ASCII whitespace between pairs
    is skipped; [None] stands for the ValueError. *)
Fixpoint fromhex (s : string) : option bytes :=
  match s with
  | EmptyString => Some []
  | String a t =>
      if is_space a then fromhex t
      else match t with
           | EmptyString => None
           | String b t' =>
               hi ← hexval a; lo ← hexval b; rest ← fromhex t';
               Some (byte_of_Z (16 * hi + lo) :: rest)
           end
  end.

(** [b.hex()] *)
Definition byte_hex (b : Byte.byte) : string :=
  let n := Z.of_N (Byte.to_N b) in
  String (hex_digit (n / 16)) (String (hex_digit (n mod 16)) EmptyString).

Definition bytes_hex (b : bytes) : string :=
  fold_right (fun x acc => byte_hex x +:+ acc) EmptyString b.

(** [s.encode("utf-8")]: a [str] is kept as its UTF-8 bytes. A [str] holding
    a lone surrogate, on which [encode] raises UnicodeEncodeError, has no
    UTF-8 bytes and so no counterpart among these strings. *)
Definition encode_utf8 (s : string) : bytes := list_byte_of_string s.

End Py.

(** ** keylime.agentstates *)

(** Modelled from the spec: keylime/agentstates.py is not among the sources.
    ClockInfo is [{clock, reset_count, restart_count, safe}]; the source reads
    the attributes [clock], [resetcount], [restartcount] and [safe], and
    compares [safe] with the integer 1. *)
Record TPMClockInfo : Type := mkClockInfo {
  clock : Z;
  resetcount : Z;
  restartcount : Z;
  safe : Z
}.

(** The part of AgentAttestState the pipeline touches. *)
Record AgentAttestState : Type := mkAgent {
  agent_id : string;
  tpm_clockinfo : TPMClockInfo
}.

Definition get_tpm_clockinfo (a : AgentAttestState) : TPMClockInfo := tpm_clockinfo a.
Definition set_tpm_clockinfo (a : AgentAttestState) (ci : TPMClockInfo) : AgentAttestState :=
  mkAgent (agent_id a) ci.

(** The dict of TPMS_CLOCK_INFO fields handed from the decoder to
    [TPMClockInfo.from_dict]. *)
Abbreviation ClockDict := (list (string * Z)).

(** ** Collaborators of the clock checker (tpm2_objects, base64, zlib) *)

Record ClockDecoder : Type := mkClockDecoder {
  (** [base64.b64decode]; [None] when it raises *)
  b64decode : string -> option bytes;
  (** [zlib.decompress]; [None] when it raises *)
  zlib_decompress : bytes -> option bytes;
  (** [tpm2_objects.get_tpms_attest_clock_info]; [None] when it raises *)
  get_tpms_attest_clock_info : bytes -> option ClockDict;
  (** [TPMClockInfo.from_dict] *)
  from_dict : ClockDict -> TPMClockInfo
}.

Section ClockChecker.

Context (dec : ClockDecoder).

Definition of_option {A} (e : string) (o : option A) : Exc A :=
  match o with
  | Some a => Ret a
  | None => Raise e
  end.

Definition _tpm2_clock_info_from_quote (quote : string) (compressed : bool)
    : Exc ClockDict :=
  q0 ← Py.index0 quote;
  if negb (Ascii.eqb q0 "r"%char) then Raise "Invalid quote type"
  else
    let quote := Py.tail quote in
    let quote_tokens := Py.split ":"%char quote in
    if (Z.of_nat (List.length quote_tokens) <? 3) then Raise "Quote is not compound!"
    else
      quoteblob ← of_option "binascii.Error" (b64decode dec (List.nth 0 quote_tokens EmptyString));
      quoteblob ← (if compressed
                   then of_option "zlib.error" (zlib_decompress dec quoteblob)
                   else Ret quoteblob);
      match get_tpms_attest_clock_info dec quoteblob with
      | Some d => Ret d
      | None => Ret []
      end.

Definition check_quote_timing (previous_clockinfo : TPMClockInfo)
    (quote : string) (compressed : bool)
    : Exc (option string * option TPMClockInfo) :=
  let current_clockinfo : option TPMClockInfo := None in
  clock_info_dict ← _tpm2_clock_info_from_quote quote compressed;
  match clock_info_dict with
  | [] => Ret (Some "_tpm2_clock_info_from_quote failed ", current_clockinfo)
  | _ :: _ =>
    let tentative_current_clockinfo := from_dict dec clock_info_dict in
    let resetdiff :=
      resetcount tentative_current_clockinfo - resetcount previous_clockinfo in
    let restartdiff :=
      restartcount tentative_current_clockinfo - restartcount previous_clockinfo in
    if resetdiff <? 0 then
      Ret (Some "resetCount value decreased on TPM between two consecutive quotes",
           current_clockinfo)
    else if restartdiff <? 0 then
      Ret (Some "restartCount value decreased on TPM between two consecutive quotes",
           current_clockinfo)
    else if negb (safe tentative_current_clockinfo =? 1) then
      Ret (Some "clock safe flag is disabled", current_clockinfo)
    else if negb (Py.truth (Py.and_ resetdiff restartdiff)) then
      if clock tentative_current_clockinfo - clock previous_clockinfo <=? 0 then
        Ret (Some "clock timestamp did issued by TPM did not increase between two consecutive quotes",
             current_clockinfo)
      else
        let current_clockinfo := Some tentative_current_clockinfo in
        Ret (None, current_clockinfo)
    else Ret (None, current_clockinfo)
  end.

(** Clock extraction succeeded: the decoder returned a non-empty dict that
    [from_dict] reads as [cur]. *)
Definition extracted (quote : string) (compressed : bool) (cur : TPMClockInfo) : Prop :=
  exists d, _tpm2_clock_info_from_quote quote compressed = Ret d
            /\ d <> [] /\ from_dict dec d = cur.

Definition rejects (r : Exc (option string * option TPMClockInfo)) : Prop :=
  exists msg, r = Ret (Some msg, None) /\ msg <> EmptyString.

Definition accepts (r : Exc (option string * option TPMClockInfo)) : Prop :=
  exists ci, r = Ret (None, ci).

End ClockChecker.

(** ** Operations on log documents *)

Definition key_eqb (a b : Key) : bool :=
  match a, b with
  | KStr x, KStr y => String.eqb x y
  | KInt x, KInt y => x =? y
  | _, _ => false
  end.

(** [d[k]] / [k in d] on the entries of a dict. *)
Fixpoint dict_get (k : Key) (kv : list (Key * Doc)) : option Doc :=
  match kv with
  | [] => None
  | (k', v) :: rest => if key_eqb k' k then Some v else dict_get k rest
  end.

(** [d[k] = v]: an existing key keeps its place, a new one goes last. *)
Fixpoint dict_set (k : Key) (v : Doc) (kv : list (Key * Doc)) : list (Key * Doc) :=
  match kv with
  | [] => [(k, v)]
  | (k', v') :: rest =>
      if key_eqb k' k then (k', v) :: rest else (k', v') :: dict_set k v rest
  end.

(** [str(k)] of a key. *)
Definition key_str (k : Key) : string :=
  match k with
  | KStr s => s
  | KInt z => Py.str_int z
  end.

(** [d[k]] with a string key on any document: only a dict holding the key
    answers, everything else raises (KeyError, TypeError). *)
Definition subscript (d : Doc) (k : Key) : option Doc :=
  match d with
  | DDict kv => dict_get k kv
  | _ => None
  end.

(** The integer behind a value that integer formatting accepts. *)
Definition as_int (d : Doc) : option Z :=
  match d with
  | DInt z => Some z
  | DBool b => Some (if b then 1 else 0)
  | _ => None
  end.

(** [bool(d)] *)
Definition doc_truthy (d : Doc) : bool :=
  match d with
  | DNone => false
  | DBool b => b
  | DInt z => negb (z =? 0)
  | DStr EmptyString => false
  | DStr _ => true
  | DList [] => false
  | DList _ => true
  | DDict [] => false
  | DDict _ => true
  end.

Definition is_dict (d : Doc) : bool :=
  match d with
  | DDict _ => true
  | _ => false
  end.

(** [d.get(k)]: None for a missing key, AttributeError off a dict. *)
Definition doc_get (d : Doc) (k : Key) : Exc Doc :=
  match d with
  | DDict kv => Ret (default DNone (dict_get k kv))
  | _ => Raise "AttributeError"
  end.

(** ** hashlib *)

(** A constructor of hashlib: a fresh state, its streaming update, the hex
    digest of a state and the digest size in bytes. *)
Record HashClass : Type := mkHashClass {
  hc_state : Type;
  hc_new : hc_state;
  hc_update : hc_state -> bytes -> hc_state;
  hc_hexdigest : hc_state -> string;
  hc_digest_size : nat
}.

(** [getattr(hashlib, name)()]; [None] when the lookup or the call raises. *)
Abbreviation Hashlib := (string -> option HashClass).

(** ** Event-log enrichment passes *)

Section Enrichment.

Context (hashlib : Hashlib).

Definition __stringify_pcr_keys (log : Doc) : Doc :=
  match log with
  | DDict kv =>
      match dict_get (KStr "pcrs") kv with
      | Some (DDict old_pcrs) =>
          let new_pcrs :=
            fold_left
              (fun new_pcrs '(hash_alg, cells) =>
                 match cells with
                 | DDict cs =>
                     dict_set hash_alg
                       (DDict (fold_left (fun d '(index, val) =>
                                            dict_set (KStr (key_str index)) val d) cs []))
                       new_pcrs
                 | _ => dict_set hash_alg cells new_pcrs
                 end)
              old_pcrs [] in
          DDict (dict_set (KStr "pcrs") (DDict new_pcrs) kv)
      | _ => log
      end
  | _ => log
  end.

(** One pass of the loop over [range(0, maxpcr)]: [None] is any exception
    that the [except Exception] swallows. *)
Definition boot_aggregate_update (hc : HashClass) (pcrs : Doc) (hashalg : Key)
    (h : option (hc_state hc)) (pcrno : nat) : option (hc_state hc) :=
  h ← h;
  cells ← subscript pcrs hashalg;
  pcrstrg ← subscript cells (KStr (Py.str_int (Z.of_nat pcrno)));
  n ← as_int pcrstrg;
  let pcrhex := Py.format_0x (hc_digest_size hc * 2) n in
  b ← Py.fromhex pcrhex;
  Some (hc_update hc h b).

(** The body of the [try] for one (hashalg, maxpcr) combination. *)
Definition boot_aggregate (pcrs : Doc) (hashalg : Key) (maxpcr : nat) : option string :=
  match hashalg with
  | KStr name =>
      hc ← hashlib name;
      h ← fold_left (boot_aggregate_update hc pcrs hashalg) (seq 0 maxpcr) (Some (hc_new hc));
      Some (hc_hexdigest hc h)
  | KInt _ => None
  end.

Definition __add_boot_aggregate (log : Doc) : Exc Doc :=
  match log with
  | DDict kv =>
      match dict_get (KStr "pcrs") kv with
      | None => Ret log
      | Some pcrs =>
          let kv := dict_set (KStr "boot_aggregates") (DDict []) kv in
          match pcrs with
          | DDict by_alg =>
              let aggregates :=
                fold_left
                  (fun aggs hashalg =>
                     dict_set hashalg
                       (DList (omap (fun maxpcr => DStr <$> boot_aggregate pcrs hashalg maxpcr)
                                    [8%nat; 10%nat]))
                       aggs)
                  (map fst by_alg) [] in
              Ret (DDict (dict_set (KStr "boot_aggregates") (DDict aggregates) kv))
          | _ => Raise "AttributeError"
          end
      end
  | _ => Ret log
  end.

Definition NUL : ascii := "000"%char.
Definition DQUOTE : ascii := "034"%char.
Definition BACKSLASH : ascii := "092"%char.

Definition chr (c : ascii) : string := String c EmptyString.
Definition esc (c : ascii) : string := String BACKSLASH (String c EmptyString).

(** The pairs (original, escaped), in the order of the source. *)
Definition escaped_chars : list (string * string) :=
  [ (chr NUL, esc "0");
    (chr "007", esc "a");
    (chr "008", esc "b");
    (chr "009", esc "t");
    (chr "011", esc "v");
    (chr "012", esc "f");
    (chr "013", esc "r");
    (chr "027", esc "e");
    (chr "039", esc "039");
    (chr BACKSLASH, esc BACKSLASH) ].

(** What [recursive_unescape] does to a string leaf. *)
Definition unescape_str (data : string) : string :=
  if Py.startswith_char DQUOTE data && Py.endswith_char DQUOTE data then
    let data := Py.slice_1_m1 data in
    let data := fold_left (fun data '(orig, escaped) => Py.replace escaped orig data)
                          escaped_chars data in
    Py.rstrip NUL data
  else data.

Fixpoint recursive_unescape (data : Doc) : Doc :=
  match data with
  | DStr s => DStr (unescape_str s)
  | DDict kv => DDict (map (fun e => let '(key, value) := e in (key, recursive_unescape value)) kv)
  | DList l => DList (map recursive_unescape l)
  | _ => data
  end.

(** [tools_version] is the class attribute [Tpm.tools_version] the gate
    reads. The result of the top-level call is dropped, so only a dict or a
    list, which are updated in place, can change. *)
Definition __unescape_eventlog (tools_version : string) (log : Doc) : Doc :=
  if existsb (String.eqb tools_version) ["3.2"; "4.0"; "4.2"] then log
  else match log with
       | DDict _ | DList _ => recursive_unescape log
       | _ => log
       end.

End Enrichment.

(** Modelled from the spec: the escaping of tpm2-tools that the unescape pass
    reverses is not part of the sources. Each character of the escape set
    becomes its two-character escape, and the result is surrounded by double
    quotes. *)
Definition escape_char (c : ascii) : string :=
  let n := N_of_ascii c in
  if (n =? 0)%N then esc "0"
  else if (n =? 7)%N then esc "a"
  else if (n =? 8)%N then esc "b"
  else if (n =? 9)%N then esc "t"
  else if (n =? 11)%N then esc "v"
  else if (n =? 12)%N then esc "f"
  else if (n =? 13)%N then esc "r"
  else if (n =? 27)%N then esc "e"
  else if (n =? 39)%N then esc "039"
  else if (n =? 92)%N then esc BACKSLASH
  else chr c.

Fixpoint escape_body (s : string) : string :=
  match s with
  | EmptyString => EmptyString
  | String c t => escape_char c +:+ escape_body t
  end.

Definition escape (s : string) : string :=
  String DQUOTE (escape_body s +:+ chr DQUOTE).

(** The characters of the escape set. *)
Definition in_escape_set (c : ascii) : bool :=
  existsb (N.eqb (N_of_ascii c)) [0; 7; 8; 9; 11; 12; 13; 27; 39; 92]%N.

Fixpoint over_escape_set (s : string) : bool :=
  match s with
  | EmptyString => true
  | String c t => in_escape_set c && over_escape_set t
  end.

(** ** keylime.config and keylime.common.algorithms *)

(** The constants of keylime.config the pipeline reads; their values are
    not part of the sources and stay parameters. *)
Record Config : Type := mkConfig {
  TPM_DATA_PCR : Z;
  IMA_PCR : Z;
  MEASUREDBOOT_PCRS : list Z;
  LIBEFIVAR : string
}.

(** Modelled from the spec: a hash algorithm gives its one-way function, its
    initial PCR value and its name ([str(hash_alg)]). *)
Record Hash : Type := mkHash {
  hash_name : string;
  hash : bytes -> bytes;
  get_start_hash : bytes
}.

(** ** Policy documents *)

(** A value of the tpm_policy dict: the mask string, or a list of digests. *)
Inductive PolicyVal : Type :=
| PStr (s : string)
| PList (l : list string).

Abbreviation PolicyDict := (list (string * PolicyVal)).

(** [tpm_policy : Union[str, Dict[str, Any]]] *)
Inductive TpmPolicy : Type :=
| PolicyJson (s : string)
| PolicyDict_ (d : PolicyDict).

(** [x in v] *)
Definition policy_contains (v : PolicyVal) (x : string) : bool :=
  match v with
  | PList l => existsb (String.eqb x) l
  | PStr s => Py.contains x s
  end.

Definition policy_ctx (v : PolicyVal) : CtxVal :=
  match v with
  | PList l => VStrs l
  | PStr s => VStr s
  end.

(** ** Collaborators of the PCR evaluator and of the orchestrator *)

Record Collaborators (ImaKeyrings RuntimePolicyType MbPolicy : Type) : Type := mkCollaborators {
  clock_decoder : ClockDecoder;
  (** [json.loads] of a policy string *)
  json_loads : string -> Exc PolicyDict;
  (** the builtin [int] on a policy key *)
  int_of_str : string -> Exc Z;
  (** [measured_boot.get_policy]: policy, policy name, reference data *)
  get_policy : option string -> Exc (MbPolicy * string * Doc);
  (** [measured_boot.evaluate_policy] *)
  evaluate_policy : MbPolicy -> string -> Doc -> Doc -> gset Z -> string -> Exc Failure;
  (** the failure that [ima.process_measurement_list] returns *)
  process_measurement_list :
    AgentAttestState -> list string -> RuntimePolicyType -> string ->
    option ImaKeyrings -> option Doc -> Hash -> Exc Failure;
  EMPTY_RUNTIME_POLICY : RuntimePolicyType;
  (** [base64.b64decode(.., validate=True)]; [None] is binascii.Error *)
  b64decode_validate : string -> option bytes;
  (** [self.__run(["tpm2_eventlog", ..])]: (retout, reterr), [None] when it raises *)
  run_tpm2_eventlog : bytes -> option (string * string);
  (** [config.yaml_to_dict] *)
  yaml_to_dict : string -> option Doc;
  (** importing keylime.tpm_bootlog_enrich gives [enrich], or raises [str(e)] *)
  import_enrich : Exc (Doc -> Doc);
  hashlib_ : Hashlib;
  (** the public key of [aikTpmFromRegistrar] in PEM form *)
  aik_public_bytes : string -> Exc bytes;
  (** [tpm_util.checkquote]: the PCRs of the quote, or [str(e)] of the exception *)
  checkquote : bytes -> string -> bytes -> bytes -> bytes -> string -> string + gmap Z string
}.
Arguments clock_decoder {_ _ _}.
Arguments json_loads {_ _ _}.
Arguments int_of_str {_ _ _}.
Arguments get_policy {_ _ _}.
Arguments evaluate_policy {_ _ _}.
Arguments process_measurement_list {_ _ _}.
Arguments EMPTY_RUNTIME_POLICY {_ _ _}.
Arguments b64decode_validate {_ _ _}.
Arguments run_tpm2_eventlog {_ _ _}.
Arguments yaml_to_dict {_ _ _}.
Arguments import_enrich {_ _ _}.
Arguments hashlib_ {_ _ _}.
Arguments aik_public_bytes {_ _ _}.
Arguments checkquote {_ _ _}.

Section Tpm.

Context {ImaKeyrings RuntimePolicyType MbPolicy : Type}.
Context (config : Config).
Context (ext : Collaborators ImaKeyrings RuntimePolicyType MbPolicy).
(** The class attribute [Tpm.tools_version] that [__unescape_eventlog] reads
    ([__get_tpm2_tools] assigns [self.tools_version], the attribute of the
    instance). *)
Context (tools_version : string).

(** ** Parsing the measured boot log *)

Definition parse_binary_bootlog (log_bin : bytes) : Exc (Failure * option Doc) :=
  let failure := failure.new MEASURED_BOOT ["parser"] in
  match run_tpm2_eventlog ext log_bin with
  | None =>
      Ret (add_event failure "tpm2_eventlog" (CtxStr "running tpm2_eventlog failed") true, None)
  | Some (retout, reterr) =>
      if (0 <? String.length reterr)%nat then
        Ret (add_event failure "tpm2_eventlog.warning"
               (CtxDict [("context", VStr "tpm2_eventlog exited with warnings");
                         ("data", VStr reterr)]) true, None)
      else
        match yaml_to_dict ext retout with
        | None =>
            Ret (add_event failure "yaml"
                   (CtxStr "yaml output of tpm2_eventlog could not be parsed!") true, None)
        | Some log_parsed_data =>
            match import_enrich ext with
            | Raise e =>
                Ret (add_event failure "bootlog_enrich"
                       (CtxStr ("Could not load tpm_bootlog_enrich (which depends on "
                                +:+ LIBEFIVAR config +:+ "): " +:+ e)) true, None)
            | Ret enrich =>
                let log_parsed_data := enrich log_parsed_data in
                let log_parsed_data := __stringify_pcr_keys log_parsed_data in
                log_parsed_data ← __add_boot_aggregate (hashlib_ ext) log_parsed_data;
                let log_parsed_data := __unescape_eventlog tools_version log_parsed_data in
                Ret (failure, Some log_parsed_data)
            end
        end
  end.

Definition _parse_mb_bootlog (log_b64 : string) : Exc (Failure * option Doc) :=
  let failure := failure.new MEASURED_BOOT ["parser"] in
  match b64decode_validate ext log_b64 with
  | None =>
      Ret (add_event failure "log.base64decode"
             (CtxStr "Measured boot log could not be decoded") true, None)
  | Some log_bin =>
      '(failure_mb, result) ← parse_binary_bootlog log_bin;
      if truthy failure_mb then Ret (merge failure failure_mb, None)
      else Ret (failure, result)
  end.

(** The four results: PCR hashes, boot aggregates, log document, failure. *)
Definition parse_mb_bootlog (mb_measurement_list : option string) (hash_alg : Hash)
    : Exc (list (Key * Doc) * option Doc * Doc * Failure) :=
  let failure := failure.new MEASURED_BOOT ["parser"] in
  match mb_measurement_list with
  | Some (String _ _ as mb_measurement_list) =>
      '(failure_mb, mb_measurement_data) ← _parse_mb_bootlog mb_measurement_list;
      match mb_measurement_data with
      | None => Ret ([], None, DDict [], merge failure failure_mb)
      | Some mb_measurement_data =>
          if negb (doc_truthy mb_measurement_data)
          then Ret ([], None, DDict [], merge failure failure_mb)
          else
            log_pcrs ← doc_get mb_measurement_data (KStr "pcrs");
            if negb (is_dict log_pcrs) then
              Ret ([], None, DDict [],
                   add_event failure "invalid_pcrs" (CtxDict [("got", VDoc log_pcrs)]) true)
            else
              pcr_hashes ← doc_get log_pcrs (KStr (hash_name hash_alg));
              match pcr_hashes with
              | DDict ((_ :: _) as hashes) =>
                  boot_aggregates ← doc_get mb_measurement_data (KStr "boot_aggregates");
                  match boot_aggregates with
                  | DDict (_ :: _) =>
                      Ret (hashes, Some boot_aggregates, mb_measurement_data, failure)
                  | _ =>
                      Ret ([], None, DDict [],
                           add_event failure "invalid_boot_aggregates"
                             (CtxDict [("got", VDoc boot_aggregates)]) true)
                  end
              | _ =>
                  Ret ([], None, DDict [],
                       add_event failure "invalid_pcrs_hashes"
                         (CtxDict [("got", VDoc pcr_hashes)]) true)
              end
      end
  | _ => Ret ([], None, DDict [], failure)
  end.

(** ** The digest/extend primitive *)

Definition sim_extend (hashval_1 : string) (hash_alg : Hash) : string :=
  let hdata := hash hash_alg (Py.encode_utf8 hashval_1) in
  let hext := hash hash_alg (get_start_hash hash_alg ++ hdata)%list in
  Py.bytes_hex hext.

End Tpm.

(** ** The PCR policy evaluator *)

(** The two objects [check_pcrs] updates as it goes: [failure] and the set
    [pcrs_in_quote] of indices already used for some validation. *)
Record PcrState : Type := mkPcrState {
  st_failure : Failure;
  pcrs_in_quote : gset Z
}.

(** What [parse_mb_bootlog] and [measured_boot.get_policy] hand to the later
    steps. *)
Record MbEvidence (MbPolicy : Type) : Type := mkMbEvidence {
  mb_policy : MbPolicy;
  mb_policy_name : string;
  mb_refstate_data : Doc;
  mb_pcrs_hashes : list (Key * Doc);
  boot_aggregates : option Doc;
  mb_measurement_data : Doc;
  mb_failure : Failure
}.
Arguments mkMbEvidence {_}.
Arguments mb_policy {_}.
Arguments mb_policy_name {_}.
Arguments mb_refstate_data {_}.
Arguments mb_pcrs_hashes {_}.
Arguments boot_aggregates {_}.
Arguments mb_measurement_data {_}.
Arguments mb_failure {_}.

(** The states [check_pcrs] goes through, one after each of its steps. *)
Record PcrTrace : Type := mkPcrTrace {
  pcr_allowlist : gmap Z PolicyVal;
  after_parse : PcrState;
  after_data : PcrState;
  after_ima : PcrState;
  after_mb : PcrState;
  after_residual : PcrState;
  after_missing : PcrState;
  after_policy : PcrState
}.

(** [None], or the empty string. *)
Definition optstr_truthy (o : option string) : bool :=
  match o with
  | Some (String _ _) => true
  | _ => false
  end.

Definition pcr_name (prefix : string) (n : Z) : string := prefix +:+ Py.str_int n.

(** The state of the measured-boot loop: [failure], [mb_pcr_failure] and
    [pcrs_in_quote]. *)
Record MbLoopState : Type := mkMbLoop {
  mbl_failure : Failure;
  mbl_pcr_failure : Failure;
  mbl_claimed : gset Z
}.

(** [for x in l: st = body(st, x)] with a body that may raise. *)
Fixpoint for_each {A S : Type} (body : S -> A -> Exc S) (l : list A) (st : S) : Exc S :=
  match l with
  | [] => Ret st
  | x :: rest => st' ← body st x; for_each body rest st'
  end.

Section PcrEvaluator.

Context {ImaKeyrings RuntimePolicyType MbPolicy : Type}.
Context (config : Config).
Context (ext : Collaborators ImaKeyrings RuntimePolicyType MbPolicy).
Context (tools_version : string).

(** [pcr_allowlist]: the policy without its mask, keys turned to integers. *)
Definition normalize_policy (tpm_policy : TpmPolicy) : Exc (gmap Z PolicyVal) :=
  tpm_policy_dict ← match tpm_policy with
                    | PolicyJson s => json_loads ext s
                    | PolicyDict_ d => Ret d
                    end;
  let pcr_allowlist :=
    List.filter (fun kv => negb (String.eqb (fst kv) "mask")) tpm_policy_dict in
  for_each (fun (m : gmap Z PolicyVal) '(k, v) => i ← int_of_str ext k; Ret (<[i := v]> m))
           pcr_allowlist ∅.

(** Validate data PCR *)
Definition data_pcr_step (hash_alg : Hash) (pcrs_dict : gmap Z string)
    (data : option string) (st : PcrState) : PcrState :=
  match pcrs_dict !! TPM_DATA_PCR config, data with
  | Some quoted, Some data =>
      let expectedval := sim_extend data hash_alg in
      let failure :=
        if negb (String.eqb expectedval quoted) then
          add_event (st_failure st) (pcr_name "invalid_pcr_" (TPM_DATA_PCR config))
            (CtxDict [("got", VStr quoted); ("expected", VStr expectedval)]) true
        else st_failure st in
      mkPcrState failure ({[TPM_DATA_PCR config]} ∪ pcrs_in_quote st)
  | _, _ =>
      mkPcrState
        (add_event (st_failure st) (pcr_name "missing_pcr_" (TPM_DATA_PCR config))
           (CtxStr ("Data PCR " +:+ Py.str_int (TPM_DATA_PCR config)
                    +:+ " is missing in quote, but is required")) true)
        (pcrs_in_quote st)
  end.

Definition __check_ima (agentAttestState : AgentAttestState) (pcrval : string)
    (ima_measurement_list : string) (runtime_policy : RuntimePolicyType)
    (ima_keyrings : option ImaKeyrings) (boot_aggregates : option Doc)
    (hash_alg : Hash) : Exc Failure :=
  let failure := failure.new IMA [] in
  ima_failure ← process_measurement_list ext agentAttestState
                  (Py.split "010"%char ima_measurement_list) runtime_policy pcrval
                  ima_keyrings boot_aggregates hash_alg;
  Ret (merge failure ima_failure).

(** Check for ima PCR *)
Definition ima_pcr_step (agentAttestState : AgentAttestState) (hash_alg : Hash)
    (pcrs_dict : gmap Z string) (ima_measurement_list : option string)
    (runtime_policy : RuntimePolicyType) (ima_keyrings : option ImaKeyrings)
    (boot_aggregates : option Doc) (st : PcrState) : Exc PcrState :=
  match pcrs_dict !! IMA_PCR config with
  | Some pcrval =>
      failure ← match ima_measurement_list with
                | None =>
                    Ret (add_event (st_failure st) (pcr_name "unused_pcr_" (IMA_PCR config))
                           (CtxStr "IMA PCR in policy, but no measurement list provided") true)
                | Some l =>
                    ima_failure ← __check_ima agentAttestState pcrval l runtime_policy
                                    ima_keyrings boot_aggregates hash_alg;
                    Ret (merge (st_failure st) ima_failure)
                end;
      Ret (mkPcrState failure ({[IMA_PCR config]} ∪ pcrs_in_quote st))
  | None => Ret st
  end.

(** The body of the loop over the measured boot PCRs of the quote. *)
Definition mb_pcr_body (pcrs_dict : gmap Z string) (pcr_allowlist : gmap Z PolicyVal)
    (mb_measurement_list : option string) (ev : MbEvidence MbPolicy)
    (st : MbLoopState) (pcr_num : Z) : Exc MbLoopState :=
  if doc_truthy (mb_refstate_data ev) then
    if negb (optstr_truthy mb_measurement_list) then
      Ret (mkMbLoop
             (add_event (mbl_failure st) (pcr_name "unused_pcr_" pcr_num)
                (CtxStr ("Measured Boot PCR " +:+ Py.str_int pcr_num
                         +:+ " in policy, but no measurement list provided")) true)
             (mbl_pcr_failure st) (mbl_claimed st))
    else
      val_from_log_int ←
        of_option "TypeError"
          (as_int (default (DInt 0)
                     (dict_get (KStr (Py.str_int pcr_num)) (mb_pcrs_hashes ev))));
      let val_from_log_hex := Py.drop2 (Py.hex val_from_log_int) in
      let val_from_log_hex_stripped := Py.lstrip "0"%char val_from_log_hex in
      quoted ← of_option "KeyError" (pcrs_dict !! pcr_num);
      let pcrval_stripped := Py.lstrip "0"%char quoted in
      let mb_pcr_failure :=
        if negb (String.eqb val_from_log_hex_stripped pcrval_stripped) then
          add_event (mbl_pcr_failure st) (pcr_name "invalid_pcr_" pcr_num)
            (CtxDict [("context", VStr "SHA256 boot event log PCR value does not match");
                      ("got", VStr quoted);
                      ("expected", VStr val_from_log_hex)]) true
        else mbl_pcr_failure st in
      let failure :=
        match pcr_allowlist !! pcr_num with
        | Some allowed =>
            if negb (policy_contains allowed quoted) then
              add_event (mbl_failure st) (pcr_name "invalid_pcr_" pcr_num)
                (CtxDict [("context", VStr "PCR value is not in allowlist");
                          ("got", VStr quoted);
                          ("expected", policy_ctx allowed)]) true
            else mbl_failure st
        | None => mbl_failure st
        end in
      Ret (mkMbLoop failure mb_pcr_failure ({[pcr_num]} ∪ mbl_claimed st))
  else Ret st.

(** Handle measured boot PCRs only if the parsing worked. Python iterates
    the set in an order of its own; [elements] stands for one such order, and
    only what does not depend on the order carries over to the program. *)
Definition mb_pcrs_step (pcrs_dict : gmap Z string) (pcr_allowlist : gmap Z PolicyVal)
    (mb_measurement_list : option string) (ev : MbEvidence MbPolicy)
    (st : PcrState) : Exc PcrState :=
  let mb_pcr_failure := failure.new MEASURED_BOOT [] in
  let start := mkMbLoop (st_failure st) mb_pcr_failure (pcrs_in_quote st) in
  loop ← (if negb (truthy (mb_failure ev)) then
            for_each (mb_pcr_body pcrs_dict pcr_allowlist mb_measurement_list ev)
              (elements (list_to_set (MEASUREDBOOT_PCRS config) ∩ dom pcrs_dict : gset Z))
              start
          else Ret start);
  Ret (mkPcrState (merge (mbl_failure loop) (mbl_pcr_failure loop)) (mbl_claimed loop)).

(** The body of the loop over the PCRs of the quote not validated so far. *)
Definition residual_body (pcrs_dict : gmap Z string) (pcr_allowlist : gmap Z PolicyVal)
    (st : PcrState) (pcr_num : Z) : Exc PcrState :=
  match pcr_allowlist !! pcr_num with
  | None => Ret st
  | Some allowed =>
      quoted ← of_option "KeyError" (pcrs_dict !! pcr_num);
      let failure :=
        if negb (policy_contains allowed quoted) then
          add_event (st_failure st) (pcr_name "invalid_pcr_" pcr_num)
            (CtxDict [("context", VStr "PCR value is not in allowlist");
                      ("got", VStr quoted);
                      ("expected", policy_ctx allowed)]) true
        else st_failure st in
      Ret (mkPcrState failure ({[pcr_num]} ∪ pcrs_in_quote st))
  end.

(** Check the remaining non validated PCRs, in the order of [elements] (see
    [mb_pcrs_step]). *)
Definition residual_step (pcrs_dict : gmap Z string) (pcr_allowlist : gmap Z PolicyVal)
    (st : PcrState) : Exc PcrState :=
  for_each (residual_body pcrs_dict pcr_allowlist)
           (elements (dom pcrs_dict ∖ pcrs_in_quote st)) st.

(** [list(missing)] is the missing indices in the order of [elements] (see
    [mb_pcrs_step]): each once, in an order that is not the program's. *)
Definition missing_step (pcr_allowlist : gmap Z PolicyVal) (st : PcrState) : PcrState :=
  let missing : gset Z := dom pcr_allowlist ∖ pcrs_in_quote st in
  if (0 <? size missing)%nat then
    mkPcrState
      (add_event (st_failure st) "missing_pcrs"
         (CtxDict [("context", VStr "PCRs are missing in quote");
                   ("data", VInts (elements missing))]) true)
      (pcrs_in_quote st)
  else st.

Definition mb_policy_step (agentAttestState : AgentAttestState)
    (ev : MbEvidence MbPolicy) (st : PcrState) : Exc PcrState :=
  if negb (truthy (mb_failure ev)) && doc_truthy (mb_refstate_data ev) then
    mb_policy_failure ← evaluate_policy ext (mb_policy ev) (mb_policy_name ev)
                          (mb_refstate_data ev) (mb_measurement_data ev)
                          (pcrs_in_quote st) (agent_id agentAttestState);
    Ret (mkPcrState (merge (st_failure st) mb_policy_failure) (pcrs_in_quote st))
  else Ret st.

Definition check_pcrs_trace (agentAttestState : AgentAttestState) (tpm_policy : TpmPolicy)
    (pcrs_dict : gmap Z string) (data : option string)
    (ima_measurement_list : option string) (runtime_policy : RuntimePolicyType)
    (ima_keyrings : option ImaKeyrings) (mb_measurement_list : option string)
    (mb_refstate_str : option string) (hash_alg : Hash) : Exc PcrTrace :=
  let failure := failure.new PCR_VALIDATION [] in
  pcr_allowlist ← normalize_policy tpm_policy;
  '(mb_policy, mb_policy_name, mb_refstate_data) ← get_policy ext mb_refstate_str;
  '(mb_pcrs_hashes, boot_aggregates, mb_measurement_data, mb_failure) ←
    parse_mb_bootlog config ext tools_version mb_measurement_list hash_alg;
  let ev := mkMbEvidence mb_policy mb_policy_name mb_refstate_data mb_pcrs_hashes
              boot_aggregates mb_measurement_data mb_failure in
  let st0 := mkPcrState (merge failure mb_failure) ∅ in
  let st1 := data_pcr_step hash_alg pcrs_dict data st0 in
  st2 ← ima_pcr_step agentAttestState hash_alg pcrs_dict ima_measurement_list
          runtime_policy ima_keyrings boot_aggregates st1;
  st3 ← mb_pcrs_step pcrs_dict pcr_allowlist mb_measurement_list ev st2;
  st4 ← residual_step pcrs_dict pcr_allowlist st3;
  let st5 := missing_step pcr_allowlist st4 in
  st6 ← mb_policy_step agentAttestState ev st5;
  Ret (mkPcrTrace pcr_allowlist st0 st1 st2 st3 st4 st5 st6).

Definition check_pcrs (agentAttestState : AgentAttestState) (tpm_policy : TpmPolicy)
    (pcrs_dict : gmap Z string) (data : option string)
    (ima_measurement_list : option string) (runtime_policy : RuntimePolicyType)
    (ima_keyrings : option ImaKeyrings) (mb_measurement_list : option string)
    (mb_refstate_str : option string) (hash_alg : Hash) : Exc Failure :=
  trace ← check_pcrs_trace agentAttestState tpm_policy pcrs_dict data
            ima_measurement_list runtime_policy ima_keyrings mb_measurement_list
            mb_refstate_str hash_alg;
  Ret (st_failure (after_policy trace)).

End PcrEvaluator.

(** ** The quote verification orchestrator *)

(** The last step [check_quote] completed before it returned. *)
Inductive Stage : Type :=
| received
| signature_checked
| clock_checked
| pcr_evaluated.

(** What a call of [check_quote] leaves behind: the report it returns, the
    agent state (whose clock info it may have replaced), and how far it
    went. *)
Record QuoteOutcome : Type := mkOutcome {
  report : Failure;
  agent_after : AgentAttestState;
  stage : Stage
}.

Section Orchestrator.

Context {ImaKeyrings RuntimePolicyType MbPolicy : Type}.
Context (config : Config).
Context (ext : Collaborators ImaKeyrings RuntimePolicyType MbPolicy).
Context (tools_version : string).

Definition _tpm2_checkquote (aikTpmFromRegistrar quote nonce hash_alg : string)
    (compressed : bool) : Exc (gmap Z string * string) :=
  let dec := clock_decoder ext in
  aikFromRegistrar ← aik_public_bytes ext aikTpmFromRegistrar;
  q0 ← Py.index0 quote;
  if negb (Ascii.eqb q0 "r"%char) then Raise "Invalid quote type"
  else
    let quote := Py.tail quote in
    let quote_tokens := Py.split ":"%char quote in
    if (Z.of_nat (List.length quote_tokens) <? 3) then Raise "Quote is not compound!"
    else
      quoteblob ← of_option "binascii.Error" (b64decode dec (List.nth 0 quote_tokens EmptyString));
      sigblob ← of_option "binascii.Error" (b64decode dec (List.nth 1 quote_tokens EmptyString));
      pcrblob ← of_option "binascii.Error" (b64decode dec (List.nth 2 quote_tokens EmptyString));
      '(quoteblob, sigblob, pcrblob) ←
        (if compressed then
           quoteblob ← of_option "zlib.error" (zlib_decompress dec quoteblob);
           sigblob ← of_option "zlib.error" (zlib_decompress dec sigblob);
           pcrblob ← of_option "zlib.error" (zlib_decompress dec pcrblob);
           Ret (quoteblob, sigblob, pcrblob)
         else Ret (quoteblob, sigblob, pcrblob));
      match checkquote ext aikFromRegistrar nonce sigblob quoteblob pcrblob hash_alg with
      | inl e => Ret (∅, e)
      | inr pcrs_dict => Ret (pcrs_dict, EmptyString)
      end.

Definition check_quote (agentAttestState : AgentAttestState) (nonce : string)
    (data : option string) (quote : string) (aikTpmFromRegistrar : string)
    (tpm_policy : option TpmPolicy) (ima_measurement_list : option string)
    (runtime_policy : option RuntimePolicyType) (hash_alg : option Hash)
    (ima_keyrings : option ImaKeyrings) (mb_measurement_list : option string)
    (mb_refstate : option string) (compressed : bool) : Exc QuoteOutcome :=
  let tpm_policy := default (PolicyDict_ []) tpm_policy in
  let runtime_policy := default (EMPTY_RUNTIME_POLICY ext) runtime_policy in
  let failure := failure.new QUOTE_VALIDATION [] in
  match hash_alg with
  | None =>
      Ret (mkOutcome
             (add_event failure "hash_alg_missing"
                (CtxStr "Hash algorithm cannot be empty") false)
             agentAttestState received)
  | Some hash_alg =>
      (* First and foremost, the quote needs to be validated *)
      '(pcrs_dict, err) ← _tpm2_checkquote aikTpmFromRegistrar quote nonce
                             (hash_name hash_alg) compressed;
      match err with
      | String _ _ =>
          Ret (mkOutcome
                 (add_event failure "quote_validation"
                    (CtxDict [("message", VStr "Quote data validation");
                              ("error", VStr err)]) false)
                 agentAttestState received)
      | EmptyString =>
          '(clock_failure, current_clock_info) ←
            check_quote_timing (clock_decoder ext)
              (get_tpm_clockinfo agentAttestState) quote compressed;
          match clock_failure with
          | Some (String _ _ as clock_failure) =>
              Ret (mkOutcome
                     (add_event failure "quote_validation"
                        (CtxDict [("message",
                                   VStr "Validation of clockinfo from quote using tpm2-tools");
                                  ("data", VStr clock_failure)]) false)
                     agentAttestState signature_checked)
          | _ =>
              let agentAttestState :=
                match current_clock_info with
                | Some ci => set_tpm_clockinfo agentAttestState ci
                | None => agentAttestState
                end in
              result ← check_pcrs config ext tools_version agentAttestState tpm_policy
                         pcrs_dict data ima_measurement_list runtime_policy ima_keyrings
                         mb_measurement_list mb_refstate hash_alg;
              Ret (mkOutcome result agentAttestState pcr_evaluated)
          end
      end
  end.

End Orchestrator.

(** The [n] low bytes of [v], most significant first, as [bytes.fromhex]
    builds them from pairs of hex digits. *)
Fixpoint be_bytes (n : nat) (v : Z) : bytes :=
  match n with
  | O => []
  | S k => (be_bytes k (v / 256) ++ [Py.byte_of_Z (v mod 256)])%list
  end.

(** ** Boot aggregates in the words of the spec *)

(** The byte of a value from 0 to 255. *)
Definition byte_of_value (n : Z) : Byte.byte := default Byte.x00 (Byte.of_N (Z.to_N n)).

(** The [k] low bytes of [v], most significant first. *)
Fixpoint big_endian (k : nat) (v : Z) : bytes :=
  match k with
  | O => []
  | S k' => (big_endian k' (v / 256) ++ [byte_of_value (v mod 256)])%list
  end.

(** The number of hex digits of a non-negative integer. *)
Definition hex_length (v : Z) : nat := S (Z.to_nat (Z.log2 v / 4)).

(** The bytes of a PCR value written in hex and zero-padded to [2 * ds]
    characters: the value on as many bytes as that takes. A negative value,
    or one whose padded spelling has an odd number of characters, has none. *)
Definition pcr_value_bytes (ds : nat) (v : Z) : option bytes :=
  if v <? 0 then None
  else
    let w := Nat.max (2 * ds) (hex_length v) in
    if Nat.even w then Some (big_endian (Nat.div2 w) v) else None.

(** PCR [i] is missing from the cells [cs], or what [cs] holds for it is
    malformed: not an integer, or an integer without bytes. *)
Definition pcr_missing_or_malformed (ds : nat) (cs : list (Key * Doc)) (i : nat) : Prop :=
  ~ In (KStr (Py.str_int (Z.of_nat i))) (map fst cs)
  \/ exists d,
       In (KStr (Py.str_int (Z.of_nat i)), d) cs
       /\ match d with
          | DInt v => pcr_value_bytes ds v = None
          | DBool _ => False
          | _ => True
          end.

(** [v] written with exactly [w] hex digits, least significant last. *)
Fixpoint hex_fixed (w : nat) (v : Z) : string :=
  match w with
  | O => EmptyString
  | S k => hex_fixed k (v / 16) +:+ String (Py.hex_digit (v mod 16)) EmptyString
  end.

(** The place (1 to 10) of a character in [escaped_chars], 0 for any other. *)
Definition escape_rank (c : ascii) : nat :=
  let n := N_of_ascii c in
  if (n =? 0)%N then 1
  else if (n =? 7)%N then 2
  else if (n =? 8)%N then 3
  else if (n =? 9)%N then 4
  else if (n =? 11)%N then 5
  else if (n =? 12)%N then 6
  else if (n =? 13)%N then 7
  else if (n =? 27)%N then 8
  else if (n =? 39)%N then 9
  else if (n =? 92)%N then 10
  else 0.

(** The escaped body of [s] after the first [k] replacements of the unescape
    pass: the characters of rank up to [k] are back, the others still
    escaped. *)
Fixpoint partly_unescaped (k : nat) (s : string) : string :=
  match s with
  | EmptyString => EmptyString
  | String c t =>
      (if (escape_rank c <=? k)%nat then chr c else escape_char c)
      +:+ partly_unescaped k t
  end.

(** [st'] was reached from [st] by adding events and claiming indices. *)
Definition extends_state (st st' : PcrState) : Prop :=
  (exists more, events (st_failure st') = (events (st_failure st) ++ more)%list)
  /\ f_component (st_failure st') = f_component (st_failure st)
  /\ f_sub_components (st_failure st') = f_sub_components (st_failure st)
  /\ pcrs_in_quote st ⊆ pcrs_in_quote st'.

(** The event is named after PCR [n]: its name is some prefix followed by the
    index, as in [invalid_pcr_<n>], [unused_pcr_<n>], [missing_pcr_<n>]. *)
Definition names_index (e : Event) (n : Z) : Prop :=
  exists prefix, event_id e = pcr_name prefix n.

(** A toy hashlib for examples: "sha256" accumulates what it is fed and
    prints it in hex, with a digest size of two bytes. *)
Definition example_sha256 : HashClass :=
  mkHashClass bytes [] (fun h b => (h ++ b)%list) Py.bytes_hex 2.

Definition example_hashlib : Hashlib := fun name =>
  if String.eqb name "sha256" then Some example_sha256 else None.

(** A log for examples: PCRs 0 to 8 of "sha256" hold 256 to 264. *)
Definition example_cells : list (Key * Doc) :=
  map (fun i => (KStr (Py.str_int (Z.of_nat i)), DInt (256 + Z.of_nat i))) (seq 0 9).

Definition example_pcrs : list (Key * Doc) := [(KStr "sha256", DDict example_cells)].

Definition example_log : list (Key * Doc) :=
  [(KStr "pcrs", DDict example_pcrs); (KStr "EventCount", DInt 1)].

(** A decoder for examples: every blob decodes to the dict [d]. *)
Definition example_from_dict (d : ClockDict) : TPMClockInfo :=
  let get k := default 0 (snd <$> List.find (fun kv => String.eqb (fst kv) k) d) in
  mkClockInfo (get "clock") (get "resetCount") (get "restartCount") (get "safe").

Definition example_decoder (d : ClockDict) : ClockDecoder :=
  mkClockDecoder (fun _ => Some []) (fun b => Some b) (fun _ => Some d) example_from_dict.

Definition example_clock (c rs rt sf : Z) : ClockDict :=
  [("clock", c); ("resetCount", rs); ("restartCount", rt); ("safe", sf)].

Definition example_config : Config :=
  mkConfig 16 10 [0; 1; 2; 3; 4; 5; 6; 7; 8; 9; 11; 12; 13; 14; 15] "libefivar".

(** A toy hash algorithm for examples: it appends one byte to its input. *)
Definition example_hash : Hash :=
  mkHash "sha256" (fun b => (b ++ [Byte.x01])%list) [Byte.x00; Byte.x00].

Definition example_int (s : string) : Exc Z :=
  match NilZero.int_of_string s with
  | Some i => Ret (Z.of_int i)
  | None => Raise "ValueError"
  end.

(** Collaborators for examples: the quote check answers [cq], the clock
    decoder answers [d], a reference state is resolved exactly when an
    identifier is given, and the IMA and measured-boot evaluators find
    nothing. *)
Definition example_ext (cq : string + gmap Z string) (d : ClockDict)
    : Collaborators unit unit unit :=
  mkCollaborators unit unit unit
    (example_decoder d)
    (fun _ => Raise "JSONDecodeError")
    example_int
    (fun o => Ret (tt, "policy",
                   match o with
                   | Some _ => DDict [(KStr "refstate", DInt 1)]
                   | None => DDict []
                   end))
    (fun _ _ _ _ _ _ => Ret (failure.new MEASURED_BOOT []))
    (fun _ _ _ _ _ _ _ => Ret (failure.new IMA []))
    tt
    (fun _ => None)
    (fun _ => None)
    (fun _ => None)
    (Raise "ImportError")
    example_hashlib
    (fun _ => Ret [])
    (fun _ _ _ _ _ _ => cq).

Definition example_agent : AgentAttestState :=
  mkAgent "d432fbb3-d2f1-4a97-9ef7-75bd81c00000" (mkClockInfo 100 2 4 1).

Definition example_policy : TpmPolicy :=
  PolicyDict_ [("mask", PStr "0x408000"); ("0", PList ["aa"]); ("1", PList ["bb"])].

Definition example_quote : gmap Z string := {[ 0 := "aa"; 2 := "cc" ]}.

(** The trace of a run that returned. *)
Definition trace_of (run : Exc PcrTrace) : PcrTrace :=
  match run with
  | Ret tr => tr
  | Raise _ =>
      let st := mkPcrState (failure.new PCR_VALIDATION []) ∅ in
      mkPcrTrace ∅ st st st st st st st
  end.

(** Runs of [check_pcrs] for examples: the quoted PCRs [pcrs_dict] against
    [example_policy], with or without bound data and reference state, and
    no IMA or measured boot measurement list. *)
Definition example_run (pcrs_dict : gmap Z string) (data mb_refstate : option string)
    : Exc PcrTrace :=
  check_pcrs_trace example_config (example_ext (inr pcrs_dict) []) "5.4" example_agent
    example_policy pcrs_dict data None tt None None mb_refstate example_hash.

(** ** Predicates used to state further properties *)

(** No character of [s] is [c]. *)
Fixpoint char_free (c : ascii) (s : string) : bool :=
  match s with
  | EmptyString => true
  | String a t => negb (Ascii.eqb a c) && char_free c t
  end.

(** The string is taken for quoted by [recursive_unescape]. *)
Definition quoted (s : string) : bool :=
  Py.startswith_char DQUOTE s && Py.endswith_char DQUOTE s.

(** No string leaf of the document is quoted. *)
Fixpoint no_quoted_leaf (d : Doc) : bool :=
  match d with
  | DStr s => negb (quoted s)
  | DList l => forallb no_quoted_leaf l
  | DDict kv => forallb (fun e => no_quoted_leaf (snd e)) kv
  | _ => true
  end.

Definition is_str_key (k : Key) : bool :=
  match k with
  | KStr _ => true
  | KInt _ => false
  end.

(** Every PCR index key under [pcrs.<alg>] is a string. *)
Definition pcr_keys_are_strings (log : Doc) : Prop :=
  forall kv by_alg alg cells,
    log = DDict kv ->
    dict_get (KStr "pcrs") kv = Some (DDict by_alg) ->
    In (alg, DDict cells) by_alg ->
    forallb (fun e => is_str_key (fst e)) cells = true.

(** What [__stringify_pcr_keys] makes of the value under one algorithm. *)
Definition stringify_cells (cells : Doc) : Doc :=
  match cells with
  | DDict cs =>
      DDict (fold_left (fun d '(index, val) => dict_set (KStr (key_str index)) val d) cs [])
  | _ => cells
  end.

(** The events of [parse_binary_bootlog] and [_parse_mb_bootlog]. *)
Definition parser_event_ids : list string :=
  ["tpm2_eventlog"; "tpm2_eventlog.warning"; "yaml"; "bootlog_enrich"; "log.base64decode"].

(** A parser result is a document with no failure, or no document with one
    event, flagged True, of the measured boot parser. *)
Definition parser_result_ok (f : Failure) (r : option Doc) : Prop :=
  (exists d, r = Some d /\ f = failure.new MEASURED_BOOT ["parser"])
  \/ (r = None
      /\ exists name ctx,
           In name parser_event_ids
           /\ f = add_event (failure.new MEASURED_BOOT ["parser"]) name ctx true).

(** The [pcrs] entry of a document is absent or a dict. *)
Definition pcrs_entry_ok (d : Doc) : Prop :=
  forall kv, d = DDict kv ->
    dict_get (KStr "pcrs") kv = None
    \/ exists by_alg, dict_get (KStr "pcrs") kv = Some (DDict by_alg).

(** The event the residual pass adds for index [n], if any. *)
Definition residual_event (pcrs_dict : gmap Z string) (pcr_allowlist : gmap Z PolicyVal)
    (c : Component) (sub : list string) (n : Z) : option Event :=
  match pcr_allowlist !! n, pcrs_dict !! n with
  | Some allowed, Some quoted =>
      if policy_contains allowed quoted then None
      else Some (mkEvent c sub (pcr_name "invalid_pcr_" n)
                   (CtxDict [("context", VStr "PCR value is not in allowlist");
                             ("got", VStr quoted);
                             ("expected", policy_ctx allowed)]) true)
  | _, _ => None
  end.

(** What the measured boot loop asks of PCR [n] to add no event: the value
    of the log, zero when the log has none, and the quoted value agree up to
    leading zeros, and the quoted value is allowed when [n] is in the
    allowlist. *)
Definition mb_pcr_accepted (pcrs_dict : gmap Z string) (pcr_allowlist : gmap Z PolicyVal)
    (hashes : list (Key * Doc)) (n : Z) : Prop :=
  exists v q,
    as_int (default (DInt 0) (dict_get (KStr (Py.str_int n)) hashes)) = Some v
    /\ pcrs_dict !! n = Some q
    /\ Py.lstrip "0"%char (Py.drop2 (Py.hex v)) = Py.lstrip "0"%char q
    /\ forall allowed, pcr_allowlist !! n = Some allowed -> policy_contains allowed q = true.

(** ** More examples *)

(** The value of a run that returned. *)
Definition ret_or {A : Type} (d : A) (run : Exc A) : A :=
  match run with
  | Ret a => a
  | Raise _ => d
  end.

(** A decoder for examples whose clock info extraction raises. *)
Definition example_failing_decoder : ClockDecoder :=
  mkClockDecoder (fun _ => Some []) (fun b => Some b) (fun _ => None) example_from_dict.

(** Collaborators for examples whose log parser works: every measurement
    list decodes to the document [doc], which is enriched as it is. *)
Definition example_parser_ext (doc : Doc) : Collaborators unit unit unit :=
  mkCollaborators unit unit unit
    (example_decoder [])
    (fun _ => Raise "JSONDecodeError")
    example_int
    (fun o => Ret (tt, "policy",
                   match o with
                   | Some _ => DDict [(KStr "refstate", DInt 1)]
                   | None => DDict []
                   end))
    (fun _ _ _ _ _ _ => Ret (failure.new MEASURED_BOOT []))
    (fun _ _ _ _ _ _ _ => Ret (failure.new IMA []))
    tt
    (fun _ => Some [])
    (fun _ => Some (EmptyString, EmptyString))
    (fun _ => Some doc)
    (Ret (fun d => d))
    example_hashlib
    (fun _ => Ret [])
    (fun _ _ _ _ _ _ => inr ∅).

(** Collaborators for examples whose evaluators report: the IMA evaluation
    and the measured boot policy each hand back one event, and a measurement
    list decodes to the document [log], or is not valid YAML when there is
    none. *)
Definition example_reporting_ext (log : option Doc) : Collaborators unit unit unit :=
  mkCollaborators unit unit unit
    (example_decoder [])
    (fun _ => Raise "JSONDecodeError")
    example_int
    (fun o => Ret (tt, "policy",
                   match o with
                   | Some _ => DDict [(KStr "refstate", DInt 1)]
                   | None => DDict []
                   end))
    (fun _ _ _ _ _ _ =>
       Ret (add_event (failure.new MEASURED_BOOT []) "policy_violation"
              (CtxStr "boot event log does not match the reference state") true))
    (fun _ _ _ _ _ _ _ =>
       Ret (add_event (failure.new IMA []) "ima.validation.ima-ng.not_in_allowlist"
              (CtxStr "file not found in the runtime policy") true))
    tt
    (fun _ => Some [])
    (fun _ => Some (EmptyString, EmptyString))
    (fun _ => log)
    (Ret (fun d => d))
    example_hashlib
    (fun _ => Ret [])
    (fun _ _ _ _ _ _ => inr ∅).

(** A quote for examples that passes every check against [example_policy]
    with the bound data "nonce123". *)
Definition example_good_quote : gmap Z string :=
  {[ 0 := "aa"; 1 := "bb"; 16 := sim_extend "nonce123" example_hash ]}.

(** A run of [check_quote] for examples: the quote check answers the PCRs
    [pcrs_dict], the clock of the quote is at 500 against a stored 100. *)
Definition example_quote_run (pcrs_dict : gmap Z string) : Exc QuoteOutcome :=
  check_quote example_config (example_ext (inr pcrs_dict) (example_clock 500 2 4 1)) "5.4"
    example_agent "nonce" (Some "nonce123") "rAA:BB:CC" "aik" (Some example_policy) None None
    (Some example_hash) None None None false.

Definition example_outcome (pcrs_dict : gmap Z string) : QuoteOutcome :=
  ret_or (mkOutcome (failure.new QUOTE_VALIDATION []) example_agent received)
         (example_quote_run pcrs_dict).

(* ================================================================== *)
(** * Properties *)
(* ================================================================== *)

(** ** Clock monotonicity checker *)

Section ClockCheckerFacts.

Context (dec : ClockDecoder).

(** What [check_quote_timing] computes once extraction has produced [cur]. *)
Lemma check_quote_timing_extracted prev quote compressed cur :
  extracted dec quote compressed cur ->
  check_quote_timing dec prev quote compressed =
    if resetcount cur - resetcount prev <? 0 then
      Ret (Some "resetCount value decreased on TPM between two consecutive quotes", None)
    else if restartcount cur - restartcount prev <? 0 then
      Ret (Some "restartCount value decreased on TPM between two consecutive quotes", None)
    else if negb (safe cur =? 1) then
      Ret (Some "clock safe flag is disabled", None)
    else if negb (Py.truth (Py.and_ (resetcount cur - resetcount prev)
                                    (restartcount cur - restartcount prev))) then
      if clock cur - clock prev <=? 0 then
        Ret (Some "clock timestamp did issued by TPM did not increase between two consecutive quotes", None)
      else Ret (None, Some cur)
    else Ret (None, None).
Proof.
  intros (d & Hd & Hne & <-). unfold check_quote_timing. rewrite Hd. cbn.
  destruct d as [|kv d]; [congruence|]. reflexivity.
Qed.

(** C3. Whenever the reset counter or the restart counter of the current
    clock info is below the previous one, [check_quote_timing] rejects: it
    returns a non-empty error string and no updated clock info. *)
Theorem check_quote_timing_counter_decrease prev cur quote compressed :
  extracted dec quote compressed cur ->
  resetcount cur < resetcount prev \/ restartcount cur < restartcount prev ->
  rejects (check_quote_timing dec prev quote compressed).
Proof.
  intros Hex Hdec. rewrite (check_quote_timing_extracted _ _ _ _ Hex).
  unfold rejects.
  destruct (Z.ltb_spec (resetcount cur - resetcount prev) 0).
  - eexists; split; [reflexivity | discriminate].
  - destruct (Z.ltb_spec (restartcount cur - restartcount prev) 0).
    + eexists; split; [reflexivity | discriminate].
    + lia.
Qed.

(** C4. With extraction succeeded, safe = 1 and both counters unchanged,
    [check_quote_timing] rejects when the clock did not strictly increase and
    otherwise accepts, handing back the current clock info. *)
Theorem check_quote_timing_same_counters prev cur quote compressed :
  extracted dec quote compressed cur ->
  safe cur = 1 ->
  resetcount cur - resetcount prev = 0 ->
  restartcount cur - restartcount prev = 0 ->
  (clock cur <= clock prev -> rejects (check_quote_timing dec prev quote compressed))
  /\ (clock cur > clock prev ->
      check_quote_timing dec prev quote compressed = Ret (None, Some cur)).
Proof.
  intros Hex Hsafe Hrs Hrt. rewrite (check_quote_timing_extracted _ _ _ _ Hex).
  rewrite Hrs, Hrt, Hsafe. cbn.
  split; intros Hc.
  - destruct (Z.leb_spec (clock cur - clock prev) 0); [|lia].
    eexists; split; [reflexivity | discriminate].
  - destruct (Z.leb_spec (clock cur - clock prev) 0); [lia|]. reflexivity.
Qed.

(** C2 (amended). With extraction succeeded, safe = 1 and BOTH counters
    strictly increased, [check_quote_timing] accepts whatever the clocks are,
    and hands back no clock info. *)
Theorem check_quote_timing_both_counters_advanced prev cur quote compressed :
  extracted dec quote compressed cur ->
  safe cur = 1 ->
  0 < resetcount cur - resetcount prev ->
  0 < restartcount cur - restartcount prev ->
  check_quote_timing dec prev quote compressed = Ret (None, None).
Proof.
  intros Hex Hsafe Hrs Hrt. rewrite (check_quote_timing_extracted _ _ _ _ Hex).
  rewrite Hsafe. cbn.
  destruct (Z.ltb_spec (resetcount cur - resetcount prev) 0); [lia|].
  destruct (Z.ltb_spec (restartcount cur - restartcount prev) 0); [lia|].
  unfold Py.and_, Py.truth.
  destruct (Z.eqb_spec (resetcount cur - resetcount prev) 0); [lia|].
  destruct (Z.eqb_spec (restartcount cur - restartcount prev) 0); [lia|].
  reflexivity.
Qed.

(** When only one of the two counters advanced, the clock comparison is
    still made. *)
Lemma check_quote_timing_one_counter_advanced prev cur quote compressed :
  extracted dec quote compressed cur ->
  safe cur = 1 ->
  0 <= resetcount cur - resetcount prev ->
  0 <= restartcount cur - restartcount prev ->
  resetcount cur - resetcount prev = 0 \/ restartcount cur - restartcount prev = 0 ->
  (clock cur <= clock prev -> rejects (check_quote_timing dec prev quote compressed))
  /\ (clock cur > clock prev ->
      check_quote_timing dec prev quote compressed = Ret (None, Some cur)).
Proof.
  intros Hex Hsafe Hrs Hrt Hz. rewrite (check_quote_timing_extracted _ _ _ _ Hex).
  rewrite Hsafe. cbn.
  destruct (Z.ltb_spec (resetcount cur - resetcount prev) 0); [lia|].
  destruct (Z.ltb_spec (restartcount cur - restartcount prev) 0); [lia|].
  assert (Py.truth (Py.and_ (resetcount cur - resetcount prev)
                            (restartcount cur - restartcount prev)) = false) as ->.
  { unfold Py.and_, Py.truth.
    destruct (Z.eqb_spec (resetcount cur - resetcount prev) 0) as [-> | ]; [reflexivity|].
    destruct Hz as [ | ->]; [lia | reflexivity]. }
  cbn. split; intros Hc.
  - destruct (Z.leb_spec (clock cur - clock prev) 0); [|lia].
    eexists; split; [reflexivity | discriminate].
  - destruct (Z.leb_spec (clock cur - clock prev) 0); [lia|]. reflexivity.
Qed.

End ClockCheckerFacts.

Lemma example_extracted c rs rt sf :
  extracted (example_decoder (example_clock c rs rt sf)) "rAA:BB:CC" false
            (mkClockInfo c rs rt sf).
Proof. eexists; split; [reflexivity | split; [discriminate | reflexivity]]. Qed.

Lemma check_quote_timing_counter_decrease_witness :
  rejects (check_quote_timing (example_decoder (example_clock 500 1 4 1))
             (mkClockInfo 100 2 4 1) "rAA:BB:CC" false).
Proof.
  apply (check_quote_timing_counter_decrease _ (mkClockInfo 100 2 4 1)
           (mkClockInfo 500 1 4 1) "rAA:BB:CC" false).
  - apply example_extracted.
  - left; cbn; lia.
Defined.

Lemma check_quote_timing_same_counters_witness :
  (100 <= 100 ->
   rejects (check_quote_timing (example_decoder (example_clock 100 2 4 1))
              (mkClockInfo 100 2 4 1) "rAA:BB:CC" false))
  /\ (100 > 100 ->
      check_quote_timing (example_decoder (example_clock 100 2 4 1))
        (mkClockInfo 100 2 4 1) "rAA:BB:CC" false
      = Ret (None, Some (mkClockInfo 100 2 4 1))).
Proof.
  apply (check_quote_timing_same_counters _ (mkClockInfo 100 2 4 1)
           (mkClockInfo 100 2 4 1) "rAA:BB:CC" false).
  - apply example_extracted.
  - reflexivity.
  - reflexivity.
  - reflexivity.
Defined.

Lemma check_quote_timing_both_counters_advanced_witness :
  check_quote_timing (example_decoder (example_clock 7 3 5 1))
    (mkClockInfo 100 2 4 1) "rAA:BB:CC" false = Ret (None, None).
Proof.
  apply (check_quote_timing_both_counters_advanced _ (mkClockInfo 100 2 4 1)
           (mkClockInfo 7 3 5 1) "rAA:BB:CC" false).
  - apply example_extracted.
  - reflexivity.
  - cbn; lia.
  - cbn; lia.
Defined.

(** C2 as stated fails: the reset counter advanced, the restart counter did
    not, safe = 1, and a clock that went backwards is rejected. *)
Lemma check_quote_timing_skip_counterexample :
  ~ (forall dec prev cur quote compressed,
       extracted dec quote compressed cur ->
       resetcount prev <= resetcount cur ->
       restartcount prev <= restartcount cur ->
       safe cur = 1 ->
       0 < resetcount cur - resetcount prev \/ 0 < restartcount cur - restartcount prev ->
       accepts (check_quote_timing dec prev quote compressed)).
Proof.
  intros H.
  destruct (H (example_decoder (example_clock 50 3 4 1)) (mkClockInfo 100 2 4 1)
              (mkClockInfo 50 3 4 1) "rAA:BB:CC" false) as [ci Hci].
  - apply example_extracted.
  - cbn; lia.
  - cbn; lia.
  - reflexivity.
  - left; cbn; lia.
  - discriminate Hci.
Qed.

(** ** Event-log enrichment: the unescape pass *)

Lemma in_escape_set_cases c :
  in_escape_set c = true ->
  c = "000"%char \/ c = "007"%char \/ c = "008"%char \/ c = "009"%char \/
  c = "011"%char \/ c = "012"%char \/ c = "013"%char \/ c = "027"%char \/
  c = "039"%char \/ c = "092"%char.
Proof.
  destruct c as [[] [] [] [] [] [] [] []]; cbv; intros H; try discriminate H;
    repeat (first [left; reflexivity | right; try reflexivity]).
Qed.

Ltac escape_cases H :=
  apply in_escape_set_cases in H;
  destruct H as [-> | [-> | [-> | [-> | [-> | [-> | [-> | [-> | [-> | ->]]]]]]]]].

Lemma replace_from_emit old new c t :
  Py.startswith old (String c t) = false ->
  Py.replace_from old new 0 (String c t) = String c (Py.replace_from old new 0 t).
Proof. intros H. cbn [Py.replace_from]. rewrite H. reflexivity. Qed.

Lemma replace_from_match2 a b new t :
  Py.replace_from (String a (String b EmptyString)) new 0 (String a (String b t))
  = new +:+ Py.replace_from (String a (String b EmptyString)) new 0 t.
Proof.
  cbn [Py.replace_from Py.startswith String.length Nat.sub].
  rewrite !Ascii.eqb_refl. reflexivity.
Qed.

Lemma partly_unescaped_cons k c t :
  partly_unescaped k (String c t) =
  (if (escape_rank c <=? k)%nat then chr c else escape_char c) +:+ partly_unescaped k t.
Proof. reflexivity. Qed.

Lemma append_cons c a b : String c a +:+ b = String c (a +:+ b).
Proof. reflexivity. Qed.

Lemma append_nil b : EmptyString +:+ b = b.
Proof. reflexivity. Qed.

Ltac eval_tokens :=
  repeat match goal with
  | |- context [if (escape_rank ?c <=? ?k)%nat then ?x else ?y] =>
      let v := eval vm_compute in (if (escape_rank c <=? k)%nat then x else y) in
      change (if (escape_rank c <=? k)%nat then x else y) with v
  end;
  rewrite ?append_cons, ?append_nil.

Ltac replace_step :=
  rewrite ?append_cons, ?append_nil;
  first [ rewrite replace_from_match2
        | rewrite replace_from_emit by reflexivity ].

Lemma unescape_pass k orig escaped s :
  (k < 10)%nat ->
  nth_error escaped_chars k = Some (orig, escaped) ->
  over_escape_set s = true ->
  Py.replace_from escaped orig 0 (partly_unescaped k s) = partly_unescaped (S k) s.
Proof.
  intros Hk Hnth.
  destruct k as [|[|[|[|[|[|[|[|[|[|k]]]]]]]]]]; [..|lia]; injection Hnth as <- <-; clear Hk.
  all: induction s as [|c s IH]; [reflexivity|].
  all: cbn [over_escape_set]; intros [Hc Hs]%andb_prop; specialize (IH Hs).
  all: escape_cases Hc.
  all: rewrite !partly_unescaped_cons; eval_tokens.
  all: unfold esc, chr, NUL, BACKSLASH in *.
  all: try (repeat replace_step; rewrite IH; reflexivity).
  all: destruct s as [|c' s']; [reflexivity|].
  all: cbn [over_escape_set] in Hs; apply andb_prop in Hs as [Hc' _]; escape_cases Hc'.
  all: do 2 (rewrite replace_from_emit by reflexivity); rewrite IH; reflexivity.
Qed.

Lemma partly_unescaped_0 s : partly_unescaped 0 s = escape_body s.
Proof.
  induction s as [|c s IH]; [reflexivity|]. cbn [partly_unescaped escape_body].
  rewrite IH. f_equal.
  destruct c as [[] [] [] [] [] [] [] []]; reflexivity.
Qed.

Lemma partly_unescaped_10 s : partly_unescaped 10 s = s.
Proof.
  induction s as [|c s IH]; [reflexivity|]. cbn [partly_unescaped].
  rewrite IH.
  destruct c as [[] [] [] [] [] [] [] []]; reflexivity.
Qed.

Lemma endswith_char_snoc c s : Py.endswith_char c (s +:+ chr c) = true.
Proof.
  induction s as [|a s IH]; cbn.
  - apply Ascii.eqb_refl.
  - rewrite append_cons in *. destruct (s +:+ chr c) eqn:E; [|exact IH].
    destruct s; discriminate.
Qed.

Lemma drop_last_snoc c s : Py.drop_last (s +:+ chr c) = s.
Proof.
  induction s as [|a s IH]; [reflexivity|].
  rewrite append_cons. cbn [Py.drop_last]. rewrite IH.
  destruct (s +:+ chr c) eqn:E; [destruct s; discriminate|reflexivity].
Qed.

Lemma replace_esc x o d : Py.replace (esc x) o d = Py.replace_from (esc x) o 0 d.
Proof. reflexivity. Qed.

Lemma unescape_str_escape s :
  over_escape_set s = true ->
  unescape_str (escape s) = Py.rstrip NUL s.
Proof.
  intros Hs. unfold unescape_str, escape.
  cbn [Py.startswith_char]. rewrite Ascii.eqb_refl.
  change (String DQUOTE (escape_body s +:+ chr DQUOTE))
    with (String DQUOTE (escape_body s) +:+ chr DQUOTE) at 1.
  rewrite endswith_char_snoc. cbn [andb].
  unfold Py.slice_1_m1. cbn [Py.tail]. rewrite drop_last_snoc.
  rewrite <- partly_unescaped_0.
  unfold escaped_chars. cbn [fold_left]. rewrite !replace_esc.
  rewrite (unescape_pass 0 _ _ s ltac:(lia) eq_refl Hs).
  rewrite (unescape_pass 1 _ _ s ltac:(lia) eq_refl Hs).
  rewrite (unescape_pass 2 _ _ s ltac:(lia) eq_refl Hs).
  rewrite (unescape_pass 3 _ _ s ltac:(lia) eq_refl Hs).
  rewrite (unescape_pass 4 _ _ s ltac:(lia) eq_refl Hs).
  rewrite (unescape_pass 5 _ _ s ltac:(lia) eq_refl Hs).
  rewrite (unescape_pass 6 _ _ s ltac:(lia) eq_refl Hs).
  rewrite (unescape_pass 7 _ _ s ltac:(lia) eq_refl Hs).
  rewrite (unescape_pass 8 _ _ s ltac:(lia) eq_refl Hs).
  rewrite (unescape_pass 9 _ _ s ltac:(lia) eq_refl Hs).
  rewrite partly_unescaped_10. reflexivity.
Qed.


Lemma rstrip_not_ending c s : Py.endswith_char c s = false -> Py.rstrip c s = s.
Proof.
  induction s as [|a t IH]; [reflexivity|].
  destruct t as [|b t'].
  - cbn. intros ->. reflexivity.
  - intros H. change (Py.endswith_char c (String b t') = false) in H.
    cbn [Py.rstrip] in *. rewrite (IH H). reflexivity.
Qed.

(** C9 (amended). For a string [s] over the escape set, the unescape pass
    turns the escaped form of [s] (its escapes between double quotes) into
    [s] without its trailing NUL characters, hence into [s] itself when [s]
    does not end in NUL, whenever the version attribute read by the gate is
    none of 3.2, 4.0 and 4.2; when it is one of them, the pass leaves every
    log document unchanged. *)
Theorem unescape_eventlog_roundtrip (tools_version : string) (key : Key) (s : string) :
  over_escape_set s = true ->
  (existsb (String.eqb tools_version) ["3.2"; "4.0"; "4.2"] = false ->
     __unescape_eventlog tools_version (DDict [(key, DStr (escape s))])
     = DDict [(key, DStr (Py.rstrip NUL s))]
     /\ (Py.endswith_char NUL s = false ->
         __unescape_eventlog tools_version (DDict [(key, DStr (escape s))])
         = DDict [(key, DStr s)]))
  /\ (existsb (String.eqb tools_version) ["3.2"; "4.0"; "4.2"] = true ->
      forall log, __unescape_eventlog tools_version log = log).
Proof.
  intros Hs. split.
  - intros Hgate. unfold __unescape_eventlog. rewrite Hgate.
    cbn [recursive_unescape map]. rewrite (unescape_str_escape s Hs).
    split; [reflexivity|]. intros Hend. rewrite (rstrip_not_ending _ _ Hend). reflexivity.
  - intros Hgate log. unfold __unescape_eventlog. rewrite Hgate. reflexivity.
Qed.

Lemma unescape_eventlog_roundtrip_witness :
  (existsb (String.eqb "5.4") ["3.2"; "4.0"; "4.2"] = false ->
     __unescape_eventlog "5.4"
       (DDict [(KStr "String", DStr (escape (String BACKSLASH (String "039" (String "009" EmptyString)))))])
     = DDict [(KStr "String",
               DStr (Py.rstrip NUL (String BACKSLASH (String "039" (String "009" EmptyString)))))]
     /\ (Py.endswith_char NUL (String BACKSLASH (String "039" (String "009" EmptyString))) = false ->
         __unescape_eventlog "5.4"
           (DDict [(KStr "String", DStr (escape (String BACKSLASH (String "039" (String "009" EmptyString)))))])
         = DDict [(KStr "String", DStr (String BACKSLASH (String "039" (String "009" EmptyString))))]))
  /\ (existsb (String.eqb "5.4") ["3.2"; "4.0"; "4.2"] = true ->
      forall log, __unescape_eventlog "5.4" log = log).
Proof.
  apply (unescape_eventlog_roundtrip "5.4" (KStr "String")
           (String BACKSLASH (String "039" (String "009" EmptyString)))).
  reflexivity.
Defined.

(** C9 as stated fails: the single NUL character belongs to the escape set,
    and its escaped form unescapes to the empty string. *)
Lemma unescape_eventlog_roundtrip_counterexample :
  ~ (forall (tools_version : string) (key : Key) (s : string),
       over_escape_set s = true ->
       existsb (String.eqb tools_version) ["3.2"; "4.0"; "4.2"] = false ->
       __unescape_eventlog tools_version (DDict [(key, DStr (escape s))])
       = DDict [(key, DStr s)]).
Proof.
  intros H.
  specialize (H "5.4" (KStr "String") (String NUL EmptyString) eq_refl eq_refl).
  vm_compute in H. discriminate H.
Qed.

(** ** Event-log enrichment: boot aggregates *)

Lemma append_assoc (a b c : string) : (a +:+ b) +:+ c = a +:+ (b +:+ c).
Proof. induction a as [|x a IH]; [reflexivity|]. rewrite !append_cons, IH. reflexivity. Qed.
Lemma append_nil_r (a : string) : a +:+ EmptyString = a.
Proof. induction a as [|x a IH]; [reflexivity|]. rewrite append_cons, IH. reflexivity. Qed.
Lemma length_append (a b : string) :
  String.length (a +:+ b) = (String.length a + String.length b)%nat.
Proof. induction a as [|x a IH]; [reflexivity|]. rewrite append_cons. cbn. rewrite IH. reflexivity. Qed.

Lemma hexval_hex_digit d : 0 <= d < 16 -> Py.hexval (Py.hex_digit d) = Some d.
Proof.
  intros H.
  assert (d = 0 \/ d = 1 \/ d = 2 \/ d = 3 \/ d = 4 \/ d = 5 \/ d = 6 \/ d = 7 \/
          d = 8 \/ d = 9 \/ d = 10 \/ d = 11 \/ d = 12 \/ d = 13 \/ d = 14 \/ d = 15)
    as Hd by lia.
  repeat (destruct Hd as [-> | Hd]; [reflexivity|]). subst. reflexivity.
Qed.

Lemma is_space_hex_digit d : 0 <= d < 16 -> Py.is_space (Py.hex_digit d) = false.
Proof.
  intros H.
  assert (d = 0 \/ d = 1 \/ d = 2 \/ d = 3 \/ d = 4 \/ d = 5 \/ d = 6 \/ d = 7 \/
          d = 8 \/ d = 9 \/ d = 10 \/ d = 11 \/ d = 12 \/ d = 13 \/ d = 14 \/ d = 15)
    as Hd by lia.
  repeat (destruct Hd as [-> | Hd]; [reflexivity|]). subst. reflexivity.
Qed.

Lemma zeros_length n : String.length (Py.zeros n) = n.
Proof. induction n; cbn; congruence. Qed.

Lemma hex_fixed_length w v : String.length (hex_fixed w v) = w.
Proof.
  revert v. induction w as [|w IH]; intros v; [reflexivity|].
  cbn [hex_fixed]. rewrite length_append, IH. cbn. lia.
Qed.

Lemma hex_fixed_zero w : hex_fixed w 0 = Py.zeros w.
Proof.
  induction w as [|w IH]; [reflexivity|].
  cbn [hex_fixed]. change (0 / 16) with 0. rewrite IH.
  clear IH. induction w as [|w IH]; [reflexivity|].
  cbn [Py.zeros]. rewrite append_cons, IH. reflexivity.
Qed.

(** The digits [hex_digits_from] puts in front of its accumulator, padded with
    zeros to [w] places, are the [w]-digit spelling. *)
Lemma hex_digits_from_fixed fuel : forall n acc w,
  0 <= n < 16 ^ Z.of_nat w -> n < 16 ^ Z.of_nat fuel -> (1 <= w)%nat ->
  exists D, Py.hex_digits_from fuel n acc = D +:+ acc
            /\ (String.length D <= w)%nat
            /\ Py.zeros (w - String.length D) +:+ D = hex_fixed w n.
Proof.
  induction fuel as [|fuel IH]; intros n acc w Hn Hf Hw.
  - change (16 ^ Z.of_nat 0) with 1 in Hf. assert (n = 0) as -> by lia.
    exists EmptyString. cbn [Py.hex_digits_from String.length].
    rewrite append_nil, append_nil_r, Nat.sub_0_r, hex_fixed_zero. auto with lia.
  - cbn [Py.hex_digits_from].
    destruct w as [|w]; [lia|].
    destruct (Z.eqb_spec (n / 16) 0) as [Hz|Hz].
    + exists (String (Py.hex_digit (n mod 16)) EmptyString).
      split; [reflexivity|]. split; [cbn; lia|].
      cbn [String.length hex_fixed]. rewrite Hz, hex_fixed_zero.
      replace (S w - 1)%nat with w by lia. reflexivity.
    + assert (16 <= n) by (destruct (Z.lt_ge_cases n 16) as [Hlt|]; [|lia];
                            rewrite Z.div_small in Hz; lia).
      assert (1 <= w)%nat.
      { destruct w; [|lia]. change (16 ^ Z.of_nat 1) with 16 in Hn. lia. }
      rewrite Nat2Z.inj_succ, Z.pow_succ_r in Hn, Hf by lia.
      destruct (IH (n / 16) (String (Py.hex_digit (n mod 16)) acc) w)
        as (D & HD & Hlen & Hpad).
      { split; [apply Z.div_pos; lia|]. apply Z.div_lt_upper_bound; lia. }
      { apply Z.div_lt_upper_bound; lia. }
      { assumption. }
      exists (D +:+ String (Py.hex_digit (n mod 16)) EmptyString).
      rewrite HD, append_assoc. split; [reflexivity|].
      rewrite length_append. cbn [String.length]. split; [lia|].
      cbn [hex_fixed]. rewrite <- Hpad, append_assoc.
      replace (S w - (String.length D + 1))%nat with (w - String.length D)%nat by lia.
      reflexivity.
Qed.

Lemma log2_fuel n : 0 <= n -> n < 16 ^ Z.of_nat (S (Z.to_nat (Z.log2 n))).
Proof.
  intros Hn. destruct (Z.eq_dec n 0) as [->|Hne]; [reflexivity|].
  assert (0 <= Z.log2 n) by apply Z.log2_nonneg.
  rewrite Nat2Z.inj_succ, Z2Nat.id by lia.
  assert (n < 2 ^ Z.succ (Z.log2 n)) by (apply Z.log2_spec; lia).
  assert (2 ^ Z.succ (Z.log2 n) <= 16 ^ Z.succ (Z.log2 n)).
  { apply Z.pow_le_mono_l; lia. }
  lia.
Qed.

Lemma fromhex_pair d1 d0 t :
  0 <= d1 < 16 -> 0 <= d0 < 16 ->
  Py.fromhex (String (Py.hex_digit d1) (String (Py.hex_digit d0) t))
  = (rest ← Py.fromhex t; Some (Py.byte_of_Z (16 * d1 + d0) :: rest)).
Proof.
  intros H1 H0. cbn [Py.fromhex].
  rewrite is_space_hex_digit, !hexval_hex_digit by assumption. reflexivity.
Qed.

Lemma fromhex_hex_fixed k : forall a t,
  Py.fromhex (hex_fixed (2 * k) a +:+ t)
  = (rest ← Py.fromhex t; Some (be_bytes k a ++ rest)%list).
Proof.
  induction k as [|k IH]; intros a t.
  - cbn [Nat.mul hex_fixed be_bytes]. rewrite append_nil.
    destruct (Py.fromhex t); reflexivity.
  - replace (2 * S k)%nat with (S (S (2 * k))) by lia.
    cbn [hex_fixed be_bytes]. rewrite !append_assoc, !append_cons, !append_nil.
    rewrite Z.div_div by lia. change (16 * 16) with 256.
    rewrite IH, fromhex_pair by (apply Z.mod_pos_bound; lia).
    replace (16 * (a / 16 mod 16) + a mod 16) with (a mod 256).
    2:{ change 256 with (16 * 16). rewrite Z.rem_mul_r by lia. lia. }
    destruct (Py.fromhex t) as [rest|]; [|reflexivity].
    cbn. rewrite <- app_assoc. reflexivity.
Qed.

Lemma key_eqb_eq a b : key_eqb a b = true <-> a = b.
Proof.
  destruct a, b; cbn; try (split; [discriminate | congruence]).
  - rewrite String.eqb_eq. split; congruence.
  - rewrite Z.eqb_eq. split; congruence.
Qed.

Lemma key_eqb_refl a : key_eqb a a = true.
Proof. apply key_eqb_eq. reflexivity. Qed.

Lemma key_eqb_neq a b : a <> b -> key_eqb a b = false.
Proof. intros H. destruct (key_eqb a b) eqn:E; [|reflexivity]. apply key_eqb_eq in E. contradiction. Qed.

Lemma dict_get_set_eq k v kv : dict_get k (dict_set k v kv) = Some v.
Proof.
  induction kv as [|[k' v'] kv IH]; cbn.
  - rewrite key_eqb_refl. reflexivity.
  - destruct (key_eqb k' k) eqn:E; cbn; rewrite E; [reflexivity | exact IH].
Qed.

Lemma dict_get_set_ne k k' v kv : k <> k' -> dict_get k (dict_set k' v kv) = dict_get k kv.
Proof.
  intros Hne. induction kv as [|[k0 v0] kv IH]; cbn.
  - rewrite key_eqb_neq by congruence. reflexivity.
  - destruct (key_eqb k0 k') eqn:E; cbn.
    + apply key_eqb_eq in E. subst k0. rewrite key_eqb_neq by congruence. reflexivity.
    + destruct (key_eqb k0 k); [reflexivity | exact IH].
Qed.

Lemma dict_get_fold_set (f : Key -> Doc) k keys : forall init,
  In k keys \/ dict_get k init = Some (f k) ->
  dict_get k (fold_left (fun aggs h => dict_set h (f h) aggs) keys init) = Some (f k).
Proof.
  induction keys as [|h keys IH]; intros init H; cbn [fold_left].
  - destruct H as [[]|H]; exact H.
  - apply IH. destruct (key_eqb k h) eqn:E.
    + apply key_eqb_eq in E. subst h. right. apply dict_get_set_eq.
    + destruct H as [[->|H]|H].
      * rewrite key_eqb_refl in E. discriminate.
      * left; exact H.
      * right. rewrite dict_get_set_ne; [exact H|].
        intros ->. rewrite key_eqb_refl in E. discriminate.
Qed.

Lemma byte_of_value_agree n : 0 <= n < 256 -> Py.byte_of_Z n = byte_of_value n.
Proof.
  intros Hn.
  assert (forallb (fun k => Byte.eqb (Py.byte_of_Z (Z.of_nat k)) (byte_of_value (Z.of_nat k)))
                  (seq 0 256) = true) as Hall by (vm_compute; reflexivity).
  rewrite forallb_forall in Hall.
  specialize (Hall (Z.to_nat n)). rewrite Z2Nat.id in Hall by lia.
  apply Byte.byte_dec_bl, Hall, in_seq. lia.
Qed.

Lemma big_endian_be_bytes k : forall v, be_bytes k v = big_endian k v.
Proof.
  induction k as [|k IH]; intros v; [reflexivity|].
  cbn [be_bytes big_endian]. rewrite IH, byte_of_value_agree; [reflexivity|].
  apply Z.mod_pos_bound. lia.
Qed.

Lemma hex_length_small n : 0 <= n < 16 -> hex_length n = 1%nat.
Proof.
  intros Hn. unfold hex_length. f_equal.
  destruct (Z.eq_dec n 0) as [->|Hne]; [reflexivity|].
  assert (Z.log2 n < 4) by (apply Z.log2_lt_pow2; lia).
  assert (0 <= Z.log2 n) by apply Z.log2_nonneg.
  rewrite Z.div_small by lia. reflexivity.
Qed.

Lemma hex_length_step n : 16 <= n -> hex_length n = S (hex_length (n / 16)).
Proof.
  intros Hn. unfold hex_length. f_equal.
  change 16 with (2 ^ 4) at 1. rewrite <- Z.shiftr_div_pow2 by lia.
  rewrite Z.log2_shiftr by lia.
  assert (4 <= Z.log2 n) by (apply Z.log2_le_pow2; lia).
  rewrite Z.max_r by lia.
  replace (Z.log2 n) with ((Z.log2 n - 4) + 1 * 4) at 1 by lia.
  rewrite Z.div_add by lia.
  assert (0 <= (Z.log2 n - 4) / 4) by (apply Z.div_pos; lia).
  rewrite Z2Nat.inj_add by lia. change (Z.to_nat 1) with 1%nat. lia.
Qed.

Lemma hex_length_bound n : 0 <= n -> n < 16 ^ Z.of_nat (hex_length n).
Proof.
  intros Hn. unfold hex_length.
  destruct (Z.eq_dec n 0) as [->|Hne]; [reflexivity|].
  assert (0 <= Z.log2 n) by apply Z.log2_nonneg.
  assert (0 <= Z.log2 n / 4) by (apply Z.div_pos; lia).
  rewrite Nat2Z.inj_succ, Z2Nat.id by lia.
  assert (n < 2 ^ Z.succ (Z.log2 n)) by (apply Z.log2_spec; lia).
  assert (2 ^ Z.succ (Z.log2 n) <= 2 ^ (4 * Z.succ (Z.log2 n / 4))).
  { apply Z.pow_le_mono_r; [lia|].
    pose proof (Z.mul_succ_div_gt (Z.log2 n) 4). lia. }
  replace (16 ^ Z.succ (Z.log2 n / 4)) with (2 ^ (4 * Z.succ (Z.log2 n / 4))); [lia|].
  rewrite Z.pow_mul_r by lia. reflexivity.
Qed.

Lemma hex_digits_from_length fuel : forall n acc,
  0 <= n -> (hex_length n <= fuel)%nat ->
  String.length (Py.hex_digits_from fuel n acc)
  = (hex_length n + String.length acc)%nat.
Proof.
  induction fuel as [|fuel IH]; intros n acc Hn Hf; [unfold hex_length in Hf; lia|].
  cbn [Py.hex_digits_from].
  destruct (Z.eqb_spec (n / 16) 0) as [Hz|Hz].
  - assert (n < 16).
    { destruct (Z.lt_ge_cases n 16) as [Hlt|Hge]; [exact Hlt|].
      assert (1 <= n / 16) by (apply Z.div_le_lower_bound; lia). lia. }
    rewrite hex_length_small by lia. reflexivity.
  - assert (16 <= n).
    { destruct (Z.lt_ge_cases n 16) as [Hlt|Hge]; [|exact Hge].
      rewrite Z.div_small in Hz by lia. contradiction. }
    rewrite hex_length_step in Hf |- * by assumption.
    rewrite IH.
    + cbn [String.length]. lia.
    + apply Z.div_pos; lia.
    + lia.
Qed.

Lemma hex_digits_length n : 0 <= n -> String.length (Py.hex_digits n) = hex_length n.
Proof.
  intros Hn. unfold Py.hex_digits. rewrite hex_digits_from_length; [cbn [String.length]; lia | exact Hn |].
  unfold hex_length. apply le_n_S, Z2Nat.inj_le.
  - apply Z.div_pos; [apply Z.log2_nonneg | lia].
  - apply Z.log2_nonneg.
  - apply Z.div_le_upper_bound; [lia|]. pose proof (Z.log2_nonneg n). lia.
Qed.

(** The padded spelling of a non-negative value, as the format gives it. *)
Lemma format_0x_hex_fixed w n :
  0 <= n -> Py.format_0x w n = hex_fixed (Nat.max w (hex_length n)) n.
Proof.
  intros Hn. unfold Py.format_0x.
  destruct (Z.ltb_spec n 0); [lia|].
  unfold Py.zfill. rewrite hex_digits_length by exact Hn.
  unfold Py.hex_digits.
  destruct (hex_digits_from_fixed (S (Z.to_nat (Z.log2 n))) n EmptyString
              (Nat.max w (hex_length n))) as (D & HD & Hlen & Hpad).
  { split; [exact Hn|]. eapply Z.lt_le_trans; [apply hex_length_bound; exact Hn|].
    apply Z.pow_le_mono_r; lia. }
  { apply log2_fuel. exact Hn. }
  { unfold hex_length. lia. }
  assert (String.length D = hex_length n) as HL.
  { rewrite <- (hex_digits_length n Hn). unfold Py.hex_digits. rewrite HD, append_nil_r.
    reflexivity. }
  rewrite HD, append_nil_r, <- Hpad, HL.
  replace (Nat.max w (hex_length n) - hex_length n)%nat with (w - hex_length n)%nat by lia.
  reflexivity.
Qed.

Lemma zfill_nonempty k s : s <> EmptyString -> Py.zfill k s <> EmptyString.
Proof.
  intros Hs H. apply (f_equal String.length) in H. unfold Py.zfill in H.
  rewrite length_append in H. destruct s; [contradiction|]. cbn in H. lia.
Qed.

Lemma hex_digits_nonempty n : 0 <= n -> Py.hex_digits n <> EmptyString.
Proof.
  intros Hn H. apply (f_equal String.length) in H.
  rewrite hex_digits_length in H by exact Hn. discriminate H.
Qed.

(** [bytes.fromhex] of the padded hex spelling of an integer. *)
Lemma fromhex_format_0x_any ds v :
  Py.fromhex (Py.format_0x (ds * 2) v) = pcr_value_bytes ds v.
Proof.
  unfold pcr_value_bytes. destruct (Z.ltb_spec v 0) as [Hneg|Hpos].
  - unfold Py.format_0x. destruct (Z.ltb_spec v 0); [|lia].
    pose proof (zfill_nonempty (ds * 2 - 1) (Py.hex_digits (- v))) as Hne.
    destruct (Py.zfill (ds * 2 - 1) (Py.hex_digits (- v))) as [|c t].
    + exfalso. apply Hne; [apply hex_digits_nonempty; lia | reflexivity].
    + reflexivity.
  - rewrite format_0x_hex_fixed by exact Hpos.
    replace (2 * ds)%nat with (ds * 2)%nat by lia.
    cbv zeta. destruct (Nat.even (Nat.max (ds * 2) (hex_length v))) eqn:E.
    + apply Nat.even_spec in E as [k Hk]. rewrite Hk, Nat.div2_double.
      rewrite <- (append_nil_r (hex_fixed (2 * k) v)), fromhex_hex_fixed.
      cbn. rewrite app_nil_r, big_endian_be_bytes. reflexivity.
    + assert (Nat.odd (Nat.max (ds * 2) (hex_length v)) = true) as O
        by (rewrite <- Nat.negb_even, E; reflexivity).
      apply Nat.odd_spec in O as [k Hk]. rewrite Hk.
      replace (2 * k + 1)%nat with (S (2 * k)) by lia.
      cbn [hex_fixed]. rewrite fromhex_hex_fixed.
      cbn [Py.fromhex]. rewrite is_space_hex_digit by (apply Z.mod_pos_bound; lia).
      reflexivity.
Qed.

Lemma dict_get_of_In k v (cs : list (Key * Doc)) :
  List.NoDup (map fst cs) -> In (k, v) cs -> dict_get k cs = Some v.
Proof.
  induction cs as [|[k0 v0] cs IH]; intros Hnd Hin; [destruct Hin|].
  cbn in Hnd |- *. apply List.NoDup_cons_iff in Hnd as [Hnot Hnd].
  destruct Hin as [[= -> ->] | Hin].
  - rewrite key_eqb_refl. reflexivity.
  - destruct (key_eqb k0 k) eqn:E; [|exact (IH Hnd Hin)].
    apply key_eqb_eq in E. subst k0. exfalso. apply Hnot.
    apply (in_map fst) in Hin. exact Hin.
Qed.

Lemma dict_get_absent k (cs : list (Key * Doc)) :
  ~ In k (map fst cs) -> dict_get k cs = None.
Proof.
  induction cs as [|[k0 v0] cs IH]; intros Hnot; [reflexivity|]. cbn.
  destruct (key_eqb k0 k) eqn:E.
  - apply key_eqb_eq in E. subst k0. exfalso. apply Hnot. left; reflexivity.
  - apply IH. intros Hin. apply Hnot. right; exact Hin.
Qed.

Section BootAggregateFacts.

Context (hashlib : Hashlib).

Lemma boot_aggregate_update_None hc pcrs hashalg l :
  fold_left (boot_aggregate_update hc pcrs hashalg) l None = None.
Proof. induction l as [|i l IH]; [reflexivity | exact IH]. Qed.

(** One pass of the loop on a PCR held as an integer. *)
Lemma boot_aggregate_update_int hc by_alg name cs h i v :
  dict_get (KStr name) by_alg = Some (DDict cs) ->
  dict_get (KStr (Py.str_int (Z.of_nat i))) cs = Some (DInt v) ->
  boot_aggregate_update hc (DDict by_alg) (KStr name) (Some h) i
  = (b ← pcr_value_bytes (hc_digest_size hc) v; Some (hc_update hc h b)).
Proof.
  intros Hcells Hv. unfold boot_aggregate_update.
  cbn [mbind option_bind subscript]. rewrite Hcells. cbn [mbind option_bind subscript].
  rewrite Hv. cbn [mbind option_bind as_int]. rewrite fromhex_format_0x_any. reflexivity.
Qed.

Lemma boot_aggregate_update_bad hc by_alg name cs h i :
  dict_get (KStr name) by_alg = Some (DDict cs) ->
  List.NoDup (map fst cs) ->
  pcr_missing_or_malformed (hc_digest_size hc) cs i ->
  boot_aggregate_update hc (DDict by_alg) (KStr name) h i = None.
Proof.
  intros Hcells Hnd Hbad. destruct h as [h|]; [|reflexivity].
  destruct Hbad as [Habs | (d & Hin & Hd)].
  - unfold boot_aggregate_update. cbn [mbind option_bind subscript]. rewrite Hcells.
    cbn [mbind option_bind subscript]. rewrite (dict_get_absent _ _ Habs). reflexivity.
  - pose proof (dict_get_of_In _ _ _ Hnd Hin) as Hget.
    destruct d as [|b|v|s|l|kv]; try contradiction;
      try (unfold boot_aggregate_update; cbn [mbind option_bind subscript]; rewrite Hcells;
           cbn [mbind option_bind subscript]; rewrite Hget; reflexivity).
    rewrite (boot_aggregate_update_int hc by_alg name cs h i v Hcells Hget), Hd. reflexivity.
Qed.

Lemma boot_aggregate_fold_values hc by_alg name cs :
  dict_get (KStr name) by_alg = Some (DDict cs) ->
  List.NoDup (map fst cs) ->
  forall vals bs, Forall2 (fun v b => pcr_value_bytes (hc_digest_size hc) v = Some b) vals bs ->
  forall a h,
  (forall j v, vals !! j = Some v -> In (KStr (Py.str_int (Z.of_nat (a + j))), DInt v) cs) ->
  fold_left (boot_aggregate_update hc (DDict by_alg) (KStr name))
            (seq a (List.length vals)) (Some h)
  = Some (fold_left (hc_update hc) bs h).
Proof.
  intros Hcells Hnd vals bs HF. induction HF as [|v b vals bs Hb HF IH]; intros a h Hall;
    [reflexivity|].
  cbn [List.length seq fold_left].
  assert (In (KStr (Py.str_int (Z.of_nat a)), DInt v) cs) as Hin.
  { specialize (Hall 0%nat v eq_refl). rewrite Nat.add_0_r in Hall. exact Hall. }
  rewrite (boot_aggregate_update_int hc by_alg name cs h a v Hcells
             (dict_get_of_In _ _ _ Hnd Hin)), Hb.
  cbn [mbind option_bind]. apply IH. intros j w Hj.
  specialize (Hall (S j) w Hj). rewrite Nat.add_succ_r in Hall. exact Hall.
Qed.

(** C8. For a log whose [pcrs] entry holds a dict of cells under a supported
    algorithm, [__add_boot_aggregate] returns and stores under
    [boot_aggregates], for that algorithm, the aggregates of the PCR ranges 8
    and 10 that could be computed. For [maxpcr] in {8, 10}: when PCRs 0 to
    [maxpcr - 1] are all there as integers, the aggregate is the hex digest
    of a fresh hash state updated, PCR after PCR, with the bytes of the value
    zero-padded to twice the digest size in hex characters; when a PCR of the
    range is missing or malformed, the combination is left out and nothing is
    raised. *)
Theorem add_boot_aggregate_combination kv by_alg name cs hc (maxpcr : nat) :
  dict_get (KStr "pcrs") kv = Some (DDict by_alg) ->
  dict_get (KStr name) by_alg = Some (DDict cs) ->
  List.NoDup (map fst cs) ->
  hashlib name = Some hc ->
  maxpcr = 8%nat \/ maxpcr = 10%nat ->
  exists kv' aggs,
    __add_boot_aggregate hashlib (DDict kv) = Ret (DDict kv')
    /\ dict_get (KStr "boot_aggregates") kv' = Some (DDict aggs)
    /\ dict_get (KStr name) aggs
       = Some (DList (omap (fun m => DStr <$> boot_aggregate hashlib (DDict by_alg) (KStr name) m)
                           [8%nat; 10%nat]))
    /\ (forall vals bs,
          List.length vals = maxpcr ->
          (forall i v, vals !! i = Some v -> In (KStr (Py.str_int (Z.of_nat i)), DInt v) cs) ->
          Forall2 (fun v b => pcr_value_bytes (hc_digest_size hc) v = Some b) vals bs ->
          boot_aggregate hashlib (DDict by_alg) (KStr name) maxpcr
          = Some (hc_hexdigest hc (fold_left (hc_update hc) bs (hc_new hc))))
    /\ (forall i, (i < maxpcr)%nat -> pcr_missing_or_malformed (hc_digest_size hc) cs i ->
          boot_aggregate hashlib (DDict by_alg) (KStr name) maxpcr = None).
Proof.
  intros Hpcrs Hcells Hnd Hhc Hmax.
  unfold __add_boot_aggregate. rewrite Hpcrs.
  eexists _, _. split; [reflexivity|].
  split; [apply dict_get_set_eq|].
  split.
  { apply (dict_get_fold_set
             (fun h => DList (omap (fun m => DStr <$> boot_aggregate hashlib (DDict by_alg) h m)
                                   [8%nat; 10%nat]))).
    left. clear -Hcells. induction by_alg as [|[k v] l IH]; [discriminate|].
    cbn in *. destruct (key_eqb k (KStr name)) eqn:E.
    - apply key_eqb_eq in E. left; exact E.
    - right; apply IH; exact Hcells. }
  split.
  - intros vals bs Hlen Hall HF. unfold boot_aggregate.
    rewrite Hhc. cbn [mbind option_bind]. rewrite <- Hlen.
    rewrite (boot_aggregate_fold_values hc by_alg name cs Hcells Hnd vals bs HF 0%nat
               (hc_new hc) Hall).
    reflexivity.
  - intros i Hi Hbad. unfold boot_aggregate. rewrite Hhc. cbn [mbind option_bind].
    replace (seq 0 maxpcr) with (seq 0 i ++ seq i (maxpcr - i))%list.
    2:{ rewrite <- seq_app. f_equal. lia. }
    rewrite fold_left_app.
    destruct (maxpcr - i)%nat as [|n] eqn:E; [lia|]. cbn [seq fold_left].
    rewrite (boot_aggregate_update_bad hc by_alg name cs _ i Hcells Hnd Hbad).
    rewrite boot_aggregate_update_None. reflexivity.
Qed.

End BootAggregateFacts.

Lemma add_boot_aggregate_combination_witness :
  exists kv' aggs,
    __add_boot_aggregate example_hashlib (DDict example_log) = Ret (DDict kv')
    /\ dict_get (KStr "boot_aggregates") kv' = Some (DDict aggs)
    /\ dict_get (KStr "sha256") aggs = Some (DList [DStr "01000101010201030104010501060107"])
    /\ boot_aggregate example_hashlib (DDict example_pcrs) (KStr "sha256") 8
       = Some "01000101010201030104010501060107"
    /\ boot_aggregate example_hashlib (DDict example_pcrs) (KStr "sha256") 10 = None.
Proof.
  assert (List.NoDup (map fst example_cells)) as Hnd.
  { repeat (constructor; [cbn; intuition discriminate|]). constructor. }
  destruct (add_boot_aggregate_combination example_hashlib example_log example_pcrs "sha256"
              example_cells example_sha256 8 eq_refl eq_refl Hnd eq_refl (or_introl eq_refl))
    as (kv' & aggs & Hrun & Hagg & Hlist & Hall & _).
  destruct (add_boot_aggregate_combination example_hashlib example_log example_pcrs "sha256"
              example_cells example_sha256 10 eq_refl eq_refl Hnd eq_refl (or_intror eq_refl))
    as (_ & _ & _ & _ & _ & _ & Hbad).
  assert (boot_aggregate example_hashlib (DDict example_pcrs) (KStr "sha256") 8
          = Some "01000101010201030104010501060107") as H8.
  { rewrite (Hall [256; 257; 258; 259; 260; 261; 262; 263]
               [[Byte.x01; Byte.x00]; [Byte.x01; Byte.x01]; [Byte.x01; Byte.x02];
                [Byte.x01; Byte.x03]; [Byte.x01; Byte.x04]; [Byte.x01; Byte.x05];
                [Byte.x01; Byte.x06]; [Byte.x01; Byte.x07]]).
    - vm_compute. reflexivity.
    - reflexivity.
    - intros i v Hi.
      do 8 (destruct i as [|i]; [injection Hi as <-; vm_compute; tauto|]).
      discriminate Hi.
    - repeat constructor. }
  assert (boot_aggregate example_hashlib (DDict example_pcrs) (KStr "sha256") 10 = None) as H10.
  { apply (Hbad 9%nat); [lia|]. left. cbn. intuition discriminate. }
  exists kv', aggs. split; [exact Hrun|]. split; [exact Hagg|].
  split; [rewrite Hlist; cbn [omap list_omap]; rewrite H8, H10; reflexivity|].
  split; [exact H8 | exact H10].
Defined.


(** ** PCR policy evaluator *)

Lemma bind_Ret_inv {A B} (m : Exc A) (f : A -> Exc B) r :
  (x ← m; f x) = Ret r -> exists a, m = Ret a /\ f a = Ret r.
Proof. destruct m as [a|e]; [eauto | discriminate]. Qed.

Lemma for_each_cons_Ret {A S} (body : S -> A -> Exc S) x l st st1 :
  body st x = Ret st1 -> for_each body (x :: l) st = for_each body l st1.
Proof. intros H. cbn [for_each]. rewrite H. reflexivity. Qed.

Ltac bind_inv H :=
  let a := fresh "a" in
  let Ha := fresh "Hstep" in
  apply bind_Ret_inv in H; destruct H as (a & Ha & H).

Lemma extends_state_refl st : extends_state st st.
Proof.
  split; [exists []; symmetry; apply app_nil_r|]. split; [reflexivity|].
  split; [reflexivity | set_solver].
Qed.

Lemma extends_state_trans a b c :
  extends_state a b -> extends_state b c -> extends_state a c.
Proof.
  intros ([m1 H1] & Hc1 & Hs1 & Hq1) ([m2 H2] & Hc2 & Hs2 & Hq2).
  split; [exists (m1 ++ m2)%list; rewrite H2, H1, app_assoc; reflexivity|].
  split; [congruence|]. split; [congruence | set_solver].
Qed.

Lemma extends_add_event st name ctx flag claimed :
  pcrs_in_quote st ⊆ claimed ->
  extends_state st (mkPcrState (add_event (st_failure st) name ctx flag) claimed).
Proof.
  intros H. split; [eexists; reflexivity|]. split; [reflexivity|].
  split; [reflexivity | exact H].
Qed.

Lemma extends_merge st other claimed :
  pcrs_in_quote st ⊆ claimed ->
  extends_state st (mkPcrState (merge (st_failure st) other) claimed).
Proof.
  intros H. split; [eexists; reflexivity|]. split; [reflexivity|].
  split; [reflexivity | exact H].
Qed.

Lemma extends_claim st claimed :
  pcrs_in_quote st ⊆ claimed ->
  extends_state st (mkPcrState (st_failure st) claimed).
Proof.
  intros H. split; [exists []; symmetry; apply app_nil_r|]. split; [reflexivity|].
  split; [reflexivity | exact H].
Qed.

Lemma extends_event_in st st' e :
  extends_state st st' -> In e (events (st_failure st)) -> In e (events (st_failure st')).
Proof. intros ([m H] & _) Hin. rewrite H. apply in_or_app. left; exact Hin. Qed.

Section PcrEvaluatorFacts.

Context {ImaKeyrings RuntimePolicyType MbPolicy : Type}.
Context (config : Config).
Context (ext : Collaborators ImaKeyrings RuntimePolicyType MbPolicy).
Context (tools_version : string).

Lemma data_pcr_step_extends hash_alg pcrs_dict data st :
  extends_state st (data_pcr_step config hash_alg pcrs_dict data st).
Proof.
  unfold data_pcr_step.
  destruct (pcrs_dict !! TPM_DATA_PCR config) as [quoted|], data as [d|];
    try (apply extends_add_event; set_solver).
  destruct (negb _); [apply extends_add_event | apply extends_claim]; set_solver.
Qed.

Lemma ima_pcr_step_extends agent hash_alg pcrs_dict iml rp kr ba st st' :
  ima_pcr_step config ext agent hash_alg pcrs_dict iml rp kr ba st = Ret st' ->
  extends_state st st'.
Proof.
  unfold ima_pcr_step. intros H.
  destruct (pcrs_dict !! IMA_PCR config) as [pcrval|].
  - bind_inv H. injection H as <-. destruct iml as [l|].
    + bind_inv Hstep. injection Hstep as <-. apply extends_merge; set_solver.
    + injection Hstep as <-. apply extends_add_event; set_solver.
  - injection H as <-. apply extends_state_refl.
Qed.

Lemma mb_pcr_body_extends pcrs_dict allow mbl (ev : MbEvidence MbPolicy) st n st' :
  mb_pcr_body pcrs_dict allow mbl ev st n = Ret st' ->
  (exists more, events (mbl_failure st') = (events (mbl_failure st) ++ more)%list)
  /\ f_component (mbl_failure st') = f_component (mbl_failure st)
  /\ f_sub_components (mbl_failure st') = f_sub_components (mbl_failure st)
  /\ mbl_claimed st ⊆ mbl_claimed st'
  /\ mbl_claimed st' ⊆ {[n]} ∪ mbl_claimed st.
Proof.
  unfold mb_pcr_body. intros H.
  destruct (doc_truthy (mb_refstate_data ev)).
  - destruct (negb (optstr_truthy mbl)).
    + injection H as <-. cbn.
      split; [eexists; reflexivity|]. do 2 (split; [reflexivity|]). split; set_solver.
    + bind_inv H. bind_inv H. injection H as <-. cbn.
      destruct (allow !! n) as [allowed|]; [destruct (negb (policy_contains _ _))|]; cbn.
      all: split; [first [eexists; reflexivity | exists []; symmetry; apply app_nil_r]|].
      all: do 2 (split; [reflexivity|]); split; set_solver.
  - injection H as <-.
    split; [exists []; symmetry; apply app_nil_r|].
    do 2 (split; [reflexivity|]). split; set_solver.
Qed.

Lemma mb_loop_extends pcrs_dict allow mbl (ev : MbEvidence MbPolicy) l : forall st st',
  for_each (mb_pcr_body pcrs_dict allow mbl ev) l st = Ret st' ->
  (exists more, events (mbl_failure st') = (events (mbl_failure st) ++ more)%list)
  /\ f_component (mbl_failure st') = f_component (mbl_failure st)
  /\ f_sub_components (mbl_failure st') = f_sub_components (mbl_failure st)
  /\ mbl_claimed st ⊆ mbl_claimed st'
  /\ mbl_claimed st' ⊆ list_to_set l ∪ mbl_claimed st.
Proof.
  induction l as [|n l IH]; intros st st' H; cbn [for_each] in H.
  - injection H as <-. split; [exists []; symmetry; apply app_nil_r|].
    do 2 (split; [reflexivity|]). split; set_solver.
  - bind_inv H. apply mb_pcr_body_extends in Hstep as ([m1 E1] & C1 & S1 & Q1 & R1).
    apply IH in H as ([m2 E2] & C2 & S2 & Q2 & R2).
    split; [exists (m1 ++ m2)%list; rewrite E2, E1, app_assoc; reflexivity|].
    split; [congruence|]. split; [congruence|].
    clear -Q1 R1 Q2 R2. split; set_solver.
Qed.

Lemma mb_pcrs_step_extends pcrs_dict allow mbl (ev : MbEvidence MbPolicy) st st' :
  mb_pcrs_step config pcrs_dict allow mbl ev st = Ret st' ->
  extends_state st st'
  /\ pcrs_in_quote st' ⊆ (list_to_set (MEASUREDBOOT_PCRS config) ∩ dom pcrs_dict)
                          ∪ pcrs_in_quote st.
Proof.
  unfold mb_pcrs_step. intros H. bind_inv H. injection H as <-.
  destruct (negb (truthy (mb_failure ev))).
  - apply mb_loop_extends in Hstep as ([m E] & C & S & Q & R). cbn in *.
    split.
    + split; [exists (m ++ events (mbl_pcr_failure a))%list; cbn; rewrite E, app_assoc; reflexivity|].
      cbn. split; [exact C|]. split; [exact S | exact Q].
    + cbn. intros x Hx. apply R in Hx. rewrite list_to_set_elements_L in Hx. exact Hx.
  - injection Hstep as <-. cbn. split; [|set_solver].
    split; [exists []; reflexivity|]. cbn. do 2 (split; [reflexivity|]). set_solver.
Qed.

Lemma residual_body_extends pcrs_dict allow st n st' :
  residual_body pcrs_dict allow st n = Ret st' ->
  extends_state st st'
  /\ pcrs_in_quote st' = (if decide (n ∈ dom allow) then {[n]} ∪ pcrs_in_quote st
                          else pcrs_in_quote st).
Proof.
  unfold residual_body. intros H.
  destruct (allow !! n) as [allowed|] eqn:E.
  - bind_inv H. injection H as <-.
    rewrite decide_True by (apply elem_of_dom; eauto).
    split; [|reflexivity].
    destruct (negb _); [apply extends_add_event | apply extends_claim]; set_solver.
  - injection H as <-. rewrite decide_False by (apply not_elem_of_dom; exact E).
    split; [apply extends_state_refl | reflexivity].
Qed.

Lemma residual_loop_extends pcrs_dict allow l : forall st st',
  for_each (residual_body pcrs_dict allow) l st = Ret st' ->
  extends_state st st'
  /\ pcrs_in_quote st' = (list_to_set l ∩ dom allow) ∪ pcrs_in_quote st.
Proof.
  induction l as [|n l IH]; intros st st' H; cbn [for_each] in H.
  - injection H as <-. split; [apply extends_state_refl | set_solver].
  - bind_inv H. apply residual_body_extends in Hstep as [E1 Q1].
    apply IH in H as [E2 Q2]. split; [eapply extends_state_trans; eassumption|].
    rewrite Q2, Q1. destruct (decide (n ∈ dom allow)); set_solver.
Qed.

Lemma residual_step_extends pcrs_dict allow st st' :
  residual_step pcrs_dict allow st = Ret st' ->
  extends_state st st'
  /\ pcrs_in_quote st' = ((dom pcrs_dict ∖ pcrs_in_quote st) ∩ dom allow) ∪ pcrs_in_quote st.
Proof.
  unfold residual_step. intros H. apply residual_loop_extends in H as [E Q].
  split; [exact E|]. rewrite Q. rewrite list_to_set_elements_L. reflexivity.
Qed.

Lemma missing_step_extends allow st : extends_state st (missing_step allow st).
Proof.
  unfold missing_step. destruct (0 <? size _)%nat.
  - apply extends_add_event. set_solver.
  - apply extends_state_refl.
Qed.

Lemma mb_policy_step_extends agent (ev : MbEvidence MbPolicy) st st' :
  mb_policy_step ext agent ev st = Ret st' ->
  extends_state st st' /\ pcrs_in_quote st' = pcrs_in_quote st.
Proof.
  unfold mb_policy_step. intros H. destruct (_ && _).
  - bind_inv H. injection H as <-. split; [apply extends_merge; set_solver | reflexivity].
  - injection H as <-. split; [apply extends_state_refl | reflexivity].
Qed.

Lemma data_pcr_step_claimed hash_alg pcrs_dict data st :
  pcrs_in_quote (data_pcr_step config hash_alg pcrs_dict data st)
  = (if decide (TPM_DATA_PCR config ∈ dom pcrs_dict /\ data <> None)
     then {[TPM_DATA_PCR config]} ∪ pcrs_in_quote st else pcrs_in_quote st).
Proof.
  unfold data_pcr_step.
  destruct (pcrs_dict !! TPM_DATA_PCR config) as [quoted|] eqn:E, data as [d|]; cbn.
  - rewrite decide_True; [reflexivity|]. split; [apply elem_of_dom; eauto | discriminate].
  - rewrite decide_False; [reflexivity|]. intros [_ H]; congruence.
  - rewrite decide_False; [reflexivity|]. intros [H _].
    apply not_elem_of_dom in E. contradiction.
  - rewrite decide_False; [reflexivity|]. intros [_ H]; congruence.
Qed.

Lemma ima_pcr_step_claimed agent hash_alg pcrs_dict iml rp kr ba st st' :
  ima_pcr_step config ext agent hash_alg pcrs_dict iml rp kr ba st = Ret st' ->
  pcrs_in_quote st'
  = (if decide (IMA_PCR config ∈ dom pcrs_dict)
     then {[IMA_PCR config]} ∪ pcrs_in_quote st else pcrs_in_quote st).
Proof.
  unfold ima_pcr_step. intros H.
  destruct (pcrs_dict !! IMA_PCR config) as [pcrval|] eqn:E.
  - bind_inv H. injection H as <-. cbn.
    rewrite decide_True; [reflexivity | apply elem_of_dom; eauto].
  - injection H as <-. rewrite decide_False; [reflexivity | apply not_elem_of_dom; exact E].
Qed.

(** The steps behind a trace of [check_pcrs]. *)
Lemma check_pcrs_trace_steps agent tpm_policy pcrs_dict data iml rp kr mbl mbr hash_alg tr :
  check_pcrs_trace config ext tools_version agent tpm_policy pcrs_dict data iml rp kr
    mbl mbr hash_alg = Ret tr ->
  exists ev : MbEvidence MbPolicy,
    normalize_policy ext tpm_policy = Ret (pcr_allowlist tr)
    /\ get_policy ext mbr = Ret (mb_policy ev, mb_policy_name ev, mb_refstate_data ev)
    /\ parse_mb_bootlog config ext tools_version mbl hash_alg
       = Ret (mb_pcrs_hashes ev, boot_aggregates ev, mb_measurement_data ev, mb_failure ev)
    /\ after_parse tr
       = mkPcrState (merge (failure.new PCR_VALIDATION []) (mb_failure ev)) ∅
    /\ after_data tr = data_pcr_step config hash_alg pcrs_dict data (after_parse tr)
    /\ ima_pcr_step config ext agent hash_alg pcrs_dict iml rp kr (boot_aggregates ev)
         (after_data tr) = Ret (after_ima tr)
    /\ mb_pcrs_step config pcrs_dict (pcr_allowlist tr) mbl ev (after_ima tr)
       = Ret (after_mb tr)
    /\ residual_step pcrs_dict (pcr_allowlist tr) (after_mb tr) = Ret (after_residual tr)
    /\ after_missing tr = missing_step (pcr_allowlist tr) (after_residual tr)
    /\ mb_policy_step ext agent ev (after_missing tr) = Ret (after_policy tr).
Proof.
  unfold check_pcrs_trace. intros H.
  bind_inv H. rename a into allow, Hstep into Hallow.
  bind_inv H. destruct a as [[pol name] refdata]. rename Hstep into Hpol.
  bind_inv H. destruct a as [[[hashes aggs] mdata] mbf]. rename Hstep into Hparse.
  bind_inv H. rename a into st2, Hstep into Hima.
  bind_inv H. rename a into st3, Hstep into Hmb.
  bind_inv H. rename a into st4, Hstep into Hres.
  bind_inv H. rename a into st6, Hstep into Hpolicy.
  injection H as <-. cbn.
  exists (mkMbEvidence pol name refdata hashes aggs mdata mbf). cbn.
  repeat (split; [first [assumption | reflexivity]|]). assumption.
Qed.

Lemma check_pcrs_of_trace agent tpm_policy pcrs_dict data iml rp kr mbl mbr hash_alg tr :
  check_pcrs_trace config ext tools_version agent tpm_policy pcrs_dict data iml rp kr
    mbl mbr hash_alg = Ret tr ->
  check_pcrs config ext tools_version agent tpm_policy pcrs_dict data iml rp kr
    mbl mbr hash_alg = Ret (st_failure (after_policy tr)).
Proof. intros H. unfold check_pcrs. rewrite H. reflexivity. Qed.

(** Along a trace events are only added and indices only claimed. *)
Lemma check_pcrs_trace_extends agent tpm_policy pcrs_dict data iml rp kr mbl mbr hash_alg tr :
  check_pcrs_trace config ext tools_version agent tpm_policy pcrs_dict data iml rp kr
    mbl mbr hash_alg = Ret tr ->
  extends_state (after_parse tr) (after_data tr)
  /\ extends_state (after_data tr) (after_ima tr)
  /\ extends_state (after_ima tr) (after_mb tr)
  /\ extends_state (after_mb tr) (after_residual tr)
  /\ extends_state (after_residual tr) (after_missing tr)
  /\ extends_state (after_missing tr) (after_policy tr).
Proof.
  intros H. apply check_pcrs_trace_steps in H
    as (ev & _ & _ & _ & _ & Hd & Hi & Hm & Hr & Hmi & Hp).
  split; [rewrite Hd; apply data_pcr_step_extends|].
  split; [eapply ima_pcr_step_extends; eassumption|].
  split; [eapply mb_pcrs_step_extends; eassumption|].
  split; [eapply residual_step_extends; eassumption|].
  split; [rewrite Hmi; apply missing_step_extends|].
  eapply mb_policy_step_extends; eassumption.
Qed.

Lemma check_pcrs_trace_component agent tpm_policy pcrs_dict data iml rp kr mbl mbr hash_alg tr :
  check_pcrs_trace config ext tools_version agent tpm_policy pcrs_dict data iml rp kr
    mbl mbr hash_alg = Ret tr ->
  f_component (st_failure (after_parse tr)) = PCR_VALIDATION
  /\ f_sub_components (st_failure (after_parse tr)) = []
  /\ pcrs_in_quote (after_parse tr) = ∅.
Proof.
  intros H. apply check_pcrs_trace_steps in H as (ev & _ & _ & _ & -> & _).
  repeat split.
Qed.

(** Before the residual pass every claimed index is an index of the quote. *)
Lemma claimed_in_quote agent tpm_policy pcrs_dict data iml rp kr mbl mbr hash_alg tr :
  check_pcrs_trace config ext tools_version agent tpm_policy pcrs_dict data iml rp kr
    mbl mbr hash_alg = Ret tr ->
  pcrs_in_quote (after_mb tr) ⊆ dom pcrs_dict.
Proof.
  intros H. apply check_pcrs_trace_steps in H
    as (ev & _ & _ & _ & Hp & Hd & Hi & Hm & _).
  apply mb_pcrs_step_extends in Hm as [_ Hm].
  apply ima_pcr_step_claimed in Hi.
  pose proof (data_pcr_step_claimed hash_alg pcrs_dict data (after_parse tr)) as Hdc.
  rewrite <- Hd in Hdc. rewrite Hp in Hdc. cbn in Hdc.
  intros x Hx. apply Hm in Hx. rewrite Hi, Hdc in Hx.
  clear -Hx. repeat case_decide; set_solver.
Qed.

(** C5 (amended). With the data PCR in the quote and bound data supplied,
    [check_pcrs] compares the quoted value with
    [sim_extend(data, hash_alg) = hex(H(H_start || H(data)))]: on a mismatch
    it adds exactly the event [invalid_pcr_<index>], flagged True, that is
    recoverable, whose context is the dict of [got] and [expected], and that
    event is in the report returned; on a match the step adds no event;
    either way the index is claimed, and stays claimed to the end. *)
Theorem check_pcrs_data_pcr agent tpm_policy pcrs_dict d iml rp kr mbl mbr hash_alg tr quoted :
  check_pcrs_trace config ext tools_version agent tpm_policy pcrs_dict (Some d) iml rp kr
    mbl mbr hash_alg = Ret tr ->
  pcrs_dict !! TPM_DATA_PCR config = Some quoted ->
  let expectedval :=
    Py.bytes_hex (hash hash_alg (get_start_hash hash_alg
                                 ++ hash hash_alg (Py.encode_utf8 d))%list) in
  let ev := mkEvent PCR_VALIDATION [] (pcr_name "invalid_pcr_" (TPM_DATA_PCR config))
              (CtxDict [("got", VStr quoted); ("expected", VStr expectedval)]) true in
  check_pcrs config ext tools_version agent tpm_policy pcrs_dict (Some d) iml rp kr
    mbl mbr hash_alg = Ret (st_failure (after_policy tr))
  /\ sim_extend d hash_alg = expectedval
  /\ TPM_DATA_PCR config ∈ pcrs_in_quote (after_data tr)
  /\ TPM_DATA_PCR config ∈ pcrs_in_quote (after_policy tr)
  /\ (quoted <> expectedval ->
      events (st_failure (after_data tr))
      = (events (st_failure (after_parse tr)) ++ [ev])%list
      /\ In ev (events (st_failure (after_policy tr))))
  /\ (quoted = expectedval -> st_failure (after_data tr) = st_failure (after_parse tr)).
Proof.
  intros Htr Hq expectedval ev.
  pose proof (check_pcrs_of_trace _ _ _ _ _ _ _ _ _ _ _ Htr) as Hres.
  pose proof (check_pcrs_trace_extends _ _ _ _ _ _ _ _ _ _ _ Htr)
    as (E1 & E2 & E3 & E4 & E5 & E6).
  pose proof (check_pcrs_trace_component _ _ _ _ _ _ _ _ _ _ _ Htr) as (Hc & Hs & _).
  apply check_pcrs_trace_steps in Htr as (mbev & _ & _ & _ & _ & Hd & _).
  assert (extends_state (after_data tr) (after_policy tr)) as Eall.
  { repeat (eapply extends_state_trans; [eassumption|]). apply extends_state_refl. }
  assert (TPM_DATA_PCR config ∈ pcrs_in_quote (after_data tr)) as Hclaimed.
  { rewrite Hd, data_pcr_step_claimed. rewrite decide_True; [set_solver|].
    split; [apply elem_of_dom; eauto | discriminate]. }
  split; [exact Hres|]. split; [reflexivity|]. split; [exact Hclaimed|].
  split; [destruct Eall as (_ & _ & _ & Hsub); set_solver|].
  unfold data_pcr_step in Hd. rewrite Hq in Hd.
  change (sim_extend d hash_alg) with expectedval in Hd.
  split.
  - intros Hne.
    assert (String.eqb expectedval quoted = false) as Heq.
    { apply String.eqb_neq. congruence. }
    rewrite Heq in Hd. cbn [negb] in Hd.
    assert (events (st_failure (after_data tr))
            = (events (st_failure (after_parse tr)) ++ [ev])%list) as Hev.
    { rewrite Hd. cbn. rewrite Hc, Hs. reflexivity. }
    split; [exact Hev|].
    apply (extends_event_in _ _ _ Eall). rewrite Hev. apply in_or_app. right. left. reflexivity.
  - intros Heq. assert (String.eqb expectedval quoted = true) as Hb.
    { apply String.eqb_eq. congruence. }
    rewrite Hb in Hd. rewrite Hd. reflexivity.
Qed.

(** C10 (amended). Without bound data (None), [check_pcrs] adds the event
    [missing_pcr_<data index>], flagged True, that is recoverable, whether or
    not the data PCR is in the quote; the step reads neither the quoted value
    nor the hash algorithm, and claims nothing. A data PCR of the quote that is neither
    the IMA PCR nor a measured boot PCR is thus still unclaimed when the
    residual pass starts, which claims it exactly when the allowlist has an
    entry for it. *)
Theorem check_pcrs_no_bound_data agent tpm_policy pcrs_dict iml rp kr mbl mbr hash_alg tr :
  check_pcrs_trace config ext tools_version agent tpm_policy pcrs_dict None iml rp kr
    mbl mbr hash_alg = Ret tr ->
  let name := pcr_name "missing_pcr_" (TPM_DATA_PCR config) in
  let ctx := CtxStr ("Data PCR " +:+ Py.str_int (TPM_DATA_PCR config)
                     +:+ " is missing in quote, but is required") in
  check_pcrs config ext tools_version agent tpm_policy pcrs_dict None iml rp kr
    mbl mbr hash_alg = Ret (st_failure (after_policy tr))
  /\ after_data tr = mkPcrState (add_event (st_failure (after_parse tr)) name ctx true) ∅
  /\ In (mkEvent PCR_VALIDATION [] name ctx true) (events (st_failure (after_policy tr)))
  /\ (forall hash_alg' pcrs_dict' st,
        data_pcr_step config hash_alg' pcrs_dict' None st
        = mkPcrState (add_event (st_failure st) name ctx true) (pcrs_in_quote st))
  /\ (TPM_DATA_PCR config ∈ dom pcrs_dict ->
      TPM_DATA_PCR config <> IMA_PCR config ->
      ~ In (TPM_DATA_PCR config) (MEASUREDBOOT_PCRS config) ->
      TPM_DATA_PCR config ∈ dom pcrs_dict ∖ pcrs_in_quote (after_mb tr)
      /\ (TPM_DATA_PCR config ∈ pcrs_in_quote (after_residual tr)
          <-> TPM_DATA_PCR config ∈ dom (pcr_allowlist tr))).
Proof.
  intros Htr name ctx.
  pose proof (check_pcrs_of_trace _ _ _ _ _ _ _ _ _ _ _ Htr) as Hres.
  pose proof (check_pcrs_trace_extends _ _ _ _ _ _ _ _ _ _ _ Htr)
    as (E1 & E2 & E3 & E4 & E5 & E6).
  pose proof (check_pcrs_trace_component _ _ _ _ _ _ _ _ _ _ _ Htr) as (Hc & Hs & Hq0).
  apply check_pcrs_trace_steps in Htr as (mbev & _ & _ & _ & _ & Hd & Hi & Hm & Hr & _).
  assert (extends_state (after_data tr) (after_policy tr)) as Eall.
  { repeat (eapply extends_state_trans; [eassumption|]). apply extends_state_refl. }
  assert (forall hash_alg' pcrs_dict' st,
            data_pcr_step config hash_alg' pcrs_dict' None st
            = mkPcrState (add_event (st_failure st) name ctx true) (pcrs_in_quote st)) as Hstep.
  { intros h p st. unfold data_pcr_step. destruct (p !! TPM_DATA_PCR config); reflexivity. }
  assert (after_data tr = mkPcrState (add_event (st_failure (after_parse tr)) name ctx true) ∅)
    as Hdata.
  { rewrite Hd, Hstep, Hq0. reflexivity. }
  split; [exact Hres|]. split; [exact Hdata|].
  split.
  { apply (extends_event_in _ _ _ Eall). rewrite Hdata. cbn. rewrite Hc, Hs.
    apply in_or_app. right. left. reflexivity. }
  split; [exact Hstep|].
  intros Hin Hima Hmb.
  apply ima_pcr_step_claimed in Hi. apply mb_pcrs_step_extends in Hm as [_ Hm].
  apply residual_step_extends in Hr as [_ Hr].
  assert (TPM_DATA_PCR config ∉ pcrs_in_quote (after_mb tr)) as Hnot.
  { intros Hx. apply Hm in Hx. rewrite Hi, Hdata in Hx. cbn in Hx.
    assert (TPM_DATA_PCR config ∉ (list_to_set (MEASUREDBOOT_PCRS config) : gset Z)).
    { rewrite elem_of_list_to_set, list_elem_of_In. exact Hmb. }
    clear -Hx Hima H. case_decide; set_solver. }
  split; [set_solver|]. rewrite Hr. clear -Hin Hnot. set_solver.
Qed.

(** C6 (amended). At the end of [check_pcrs] the allowlist indices never
    claimed are exactly the allowlist indices absent from the quote; when
    there are any, the step adds exactly one event [missing_pcrs], flagged
    True, listing each of them once, and the report returned has it; when
    there are none it adds nothing. In the residual pass, a quoted index
    without allowlist entry adds no event and stays unclaimed. *)
Theorem check_pcrs_missing_pcrs agent tpm_policy pcrs_dict data iml rp kr mbl mbr hash_alg tr :
  check_pcrs_trace config ext tools_version agent tpm_policy pcrs_dict data iml rp kr
    mbl mbr hash_alg = Ret tr ->
  let allow := pcr_allowlist tr in
  let missing : gset Z := dom allow ∖ dom pcrs_dict in
  let ev := mkEvent PCR_VALIDATION [] "missing_pcrs"
              (CtxDict [("context", VStr "PCRs are missing in quote");
                        ("data", VInts (elements missing))]) true in
  check_pcrs config ext tools_version agent tpm_policy pcrs_dict data iml rp kr
    mbl mbr hash_alg = Ret (st_failure (after_policy tr))
  /\ dom allow ∖ pcrs_in_quote (after_residual tr) = missing
  /\ (forall n, In n (elements missing) <-> n ∈ dom allow /\ n ∉ dom pcrs_dict)
  /\ List.NoDup (elements missing)
  /\ (missing <> ∅ ->
      events (st_failure (after_missing tr))
      = (events (st_failure (after_residual tr)) ++ [ev])%list
      /\ In ev (events (st_failure (after_policy tr))))
  /\ (missing = ∅ -> after_missing tr = after_residual tr)
  /\ (forall st n, allow !! n = None -> residual_body pcrs_dict allow st n = Ret st).
Proof.
  intros Htr allow missing ev.
  pose proof (check_pcrs_of_trace _ _ _ _ _ _ _ _ _ _ _ Htr) as Hres.
  pose proof (check_pcrs_trace_extends _ _ _ _ _ _ _ _ _ _ _ Htr)
    as (E1 & E2 & E3 & E4 & E5 & E6).
  pose proof (check_pcrs_trace_component _ _ _ _ _ _ _ _ _ _ _ Htr) as (Hc & Hs & _).
  pose proof (claimed_in_quote _ _ _ _ _ _ _ _ _ _ _ Htr) as Hsub.
  apply check_pcrs_trace_steps in Htr as (mbev & _ & _ & _ & _ & _ & _ & _ & Hr & Hmi & _).
  apply residual_step_extends in Hr as [_ Hr]. fold allow in Hr, Hmi.
  assert (dom allow ∖ pcrs_in_quote (after_residual tr) = missing) as Hmissing.
  { rewrite Hr. unfold missing. clear -Hsub. apply set_eq. intros x.
    destruct (decide (x ∈ pcrs_in_quote (after_mb tr))); set_solver. }
  assert (f_component (st_failure (after_residual tr)) = PCR_VALIDATION
          /\ f_sub_components (st_failure (after_residual tr)) = []) as [Hc4 Hs4].
  { destruct E1 as (_ & C1 & S1 & _), E2 as (_ & C2 & S2 & _),
      E3 as (_ & C3 & S3 & _), E4 as (_ & C4 & S4 & _). split; congruence. }
  split; [exact Hres|]. split; [exact Hmissing|].
  split; [intros n; rewrite <- list_elem_of_In, elem_of_elements; unfold missing; set_solver|].
  split; [apply NoDup_ListNoDup, NoDup_elements|].
  unfold missing_step in Hmi. rewrite Hmissing in Hmi.
  split; [|split].
  - intros Hne.
    assert ((0 <? size missing)%nat = true) as Hsz.
    { apply Nat.ltb_lt. destruct (size missing) eqn:E; [|lia].
      apply size_empty_iff in E. apply leibniz_equiv in E. contradiction. }
    rewrite Hsz in Hmi.
    assert (events (st_failure (after_missing tr))
            = (events (st_failure (after_residual tr)) ++ [ev])%list) as Hev.
    { rewrite Hmi. cbn. rewrite Hc4, Hs4. reflexivity. }
    split; [exact Hev|].
    apply (extends_event_in _ _ _ E6). rewrite Hev. apply in_or_app. right. left. reflexivity.
  - intros ->. rewrite Hmi. reflexivity.
  - intros st n Hn. unfold residual_body. rewrite Hn. reflexivity.
Qed.

(** The measured boot loop when a reference state is resolved and no
    measurement list came: one event per index, nothing claimed. *)
Lemma mb_loop_without_log pcrs_dict allow mbl (ev : MbEvidence MbPolicy) l :
  doc_truthy (mb_refstate_data ev) = true ->
  optstr_truthy mbl = false ->
  forall st,
  for_each (mb_pcr_body pcrs_dict allow mbl ev) l st
  = Ret (mkMbLoop
           (mkFailure (f_component (mbl_failure st)) (f_sub_components (mbl_failure st))
              (events (mbl_failure st)
               ++ map (fun n =>
                         mkEvent (f_component (mbl_failure st))
                           (f_sub_components (mbl_failure st))
                           (pcr_name "unused_pcr_" n)
                           (CtxStr ("Measured Boot PCR " +:+ Py.str_int n
                                    +:+ " in policy, but no measurement list provided"))
                           true) l))
           (mbl_pcr_failure st) (mbl_claimed st)).
Proof.
  intros Href Hlist. induction l as [|n l IH]; intros st.
  - cbn [for_each map]. rewrite app_nil_r. destruct st as [[c sub evs] p q]; reflexivity.
  - erewrite for_each_cons_Ret; [|unfold mb_pcr_body; rewrite Href, Hlist; reflexivity].
    rewrite IH. cbn. rewrite <- app_assoc. reflexivity.
Qed.

Lemma mb_loop_without_refstate pcrs_dict allow mbl (ev : MbEvidence MbPolicy) l :
  doc_truthy (mb_refstate_data ev) = false ->
  forall st, for_each (mb_pcr_body pcrs_dict allow mbl ev) l st = Ret st.
Proof.
  intros Href. induction l as [|n l IH]; intros st; [reflexivity|].
  erewrite for_each_cons_Ret; [apply IH|]. unfold mb_pcr_body. rewrite Href. reflexivity.
Qed.

Lemma parse_mb_bootlog_without_log mbl hash_alg :
  optstr_truthy mbl = false ->
  parse_mb_bootlog config ext tools_version mbl hash_alg
  = Ret ([], None, DDict [], failure.new MEASURED_BOOT ["parser"]).
Proof. destruct mbl as [[|c l]|]; [reflexivity | discriminate | reflexivity]. Qed.

(** C7 (amended). When no measurement list is supplied (so that log parsing
    reports no failure) and a measured boot reference state IS resolved,
    [check_pcrs] records, for each measured boot PCR index of the quote, an
    event [unused_pcr_<index>] flagged True, which the report returned has;
    when no reference state is resolved, the measured boot step records
    nothing and claims nothing. *)
Theorem check_pcrs_mb_without_log agent tpm_policy pcrs_dict data iml rp kr mbl mbr hash_alg
    tr pol name refdata :
  check_pcrs_trace config ext tools_version agent tpm_policy pcrs_dict data iml rp kr
    mbl mbr hash_alg = Ret tr ->
  get_policy ext mbr = Ret (pol, name, refdata) ->
  optstr_truthy mbl = false ->
  check_pcrs config ext tools_version agent tpm_policy pcrs_dict data iml rp kr
    mbl mbr hash_alg = Ret (st_failure (after_policy tr))
  /\ (doc_truthy refdata = true ->
      forall n, In n (MEASUREDBOOT_PCRS config) -> n ∈ dom pcrs_dict ->
        let ev := mkEvent PCR_VALIDATION [] (pcr_name "unused_pcr_" n)
                    (CtxStr ("Measured Boot PCR " +:+ Py.str_int n
                             +:+ " in policy, but no measurement list provided")) true in
        In ev (events (st_failure (after_mb tr)))
        /\ In ev (events (st_failure (after_policy tr))))
  /\ (doc_truthy refdata = false -> after_mb tr = after_ima tr).
Proof.
  intros Htr Hpol Hlist.
  pose proof (check_pcrs_of_trace _ _ _ _ _ _ _ _ _ _ _ Htr) as Hres.
  pose proof (check_pcrs_trace_extends _ _ _ _ _ _ _ _ _ _ _ Htr)
    as (E1 & E2 & E3 & E4 & E5 & E6).
  pose proof (check_pcrs_trace_component _ _ _ _ _ _ _ _ _ _ _ Htr) as (Hc & Hs & _).
  apply check_pcrs_trace_steps in Htr
    as (mbev & _ & Hpol' & Hparse & _ & _ & _ & Hm & _).
  rewrite Hpol in Hpol'. injection Hpol' as _ _ Href.
  rewrite (parse_mb_bootlog_without_log _ _ Hlist) in Hparse.
  injection Hparse as _ _ _ Hmbf.
  assert (f_component (st_failure (after_ima tr)) = PCR_VALIDATION
          /\ f_sub_components (st_failure (after_ima tr)) = []) as [Hc2 Hs2].
  { destruct E1 as (_ & C1 & S1 & _), E2 as (_ & C2 & S2 & _). split; congruence. }
  unfold mb_pcrs_step in Hm. rewrite <- Hmbf in Hm. cbn [truthy failure.new events negb] in Hm.
  split; [exact Hres|]. split.
  - intros Ht n Hn Hq ev. rewrite Href in Ht.
    rewrite (mb_loop_without_log _ _ _ _ _ Ht Hlist) in Hm.
    cbn in Hm. injection Hm as Hm.
    assert (In ev (events (st_failure (after_mb tr)))) as Hin.
    { rewrite <- Hm. cbn. rewrite Hc2, Hs2, app_nil_r. apply in_or_app. right.
      apply (in_map (fun n => mkEvent PCR_VALIDATION [] (pcr_name "unused_pcr_" n)
                                (CtxStr ("Measured Boot PCR " +:+ Py.str_int n
                                         +:+ " in policy, but no measurement list provided"))
                                true)).
      apply list_elem_of_In, elem_of_elements.
      apply elem_of_intersection. split; [|exact Hq].
      apply elem_of_list_to_set, list_elem_of_In. exact Hn. }
    split; [exact Hin|].
    apply (extends_event_in (after_mb tr)); [|exact Hin].
    repeat (eapply extends_state_trans; [eassumption|]). apply extends_state_refl.
  - intros Hf. rewrite Href in Hf.
    rewrite (mb_loop_without_refstate _ _ _ _ _ Hf) in Hm. cbn in Hm.
    injection Hm as <-. unfold merge. cbn. rewrite app_nil_r.
    destruct (after_ima tr) as [[c sub evs] q]. reflexivity.
Qed.

End PcrEvaluatorFacts.

Lemma check_pcrs_data_pcr_witness :
  In (mkEvent PCR_VALIDATION [] "invalid_pcr_16"
        (CtxDict [("got", VStr "zz"); ("expected", VStr "00006e6f6e63653132330101")]) true)
     (events (st_failure (after_policy
        (trace_of (example_run (<[16 := "zz"]> example_quote) (Some "nonce123") None))))).
Proof.
  assert (example_run (<[16 := "zz"]> example_quote) (Some "nonce123") None
          = Ret (trace_of (example_run (<[16 := "zz"]> example_quote) (Some "nonce123") None)))
    as Hrun by (vm_compute; reflexivity).
  pose proof (check_pcrs_data_pcr example_config
                (example_ext (inr (<[16 := "zz"]> example_quote)) []) "5.4" example_agent
                example_policy (<[16 := "zz"]> example_quote) "nonce123" None tt None None None
                example_hash _ "zz" Hrun eq_refl) as (_ & _ & _ & _ & Hne & _).
  assert ("zz" <> Py.bytes_hex (hash example_hash
                                  (get_start_hash example_hash
                                   ++ hash example_hash (Py.encode_utf8 "nonce123"))%list))
    as Hx by (vm_compute; discriminate).
  destruct (Hne Hx) as [_ Hin].
  vm_compute in Hin. vm_compute. exact Hin.
Defined.

Lemma check_pcrs_no_bound_data_witness :
  In (mkEvent PCR_VALIDATION [] "missing_pcr_16"
        (CtxStr "Data PCR 16 is missing in quote, but is required") true)
     (events (st_failure (after_policy
        (trace_of (example_run (<[16 := "zz"]> example_quote) None None))))).
Proof.
  assert (example_run (<[16 := "zz"]> example_quote) None None
          = Ret (trace_of (example_run (<[16 := "zz"]> example_quote) None None))) as Hrun
    by (vm_compute; reflexivity).
  pose proof (check_pcrs_no_bound_data example_config
                (example_ext (inr (<[16 := "zz"]> example_quote)) []) "5.4" example_agent
                example_policy (<[16 := "zz"]> example_quote) None tt None None None
                example_hash _ Hrun) as (_ & _ & Hin & _).
  vm_compute in Hin. vm_compute. exact Hin.
Defined.

(** C5 as stated fails on the word fatal: the event [invalid_pcr_16] of a
    mismatching data PCR is recoverable. *)
Lemma check_pcrs_data_pcr_fatal_counterexample :
  ~ (forall (config : Config) (ext : Collaborators unit unit unit) tools_version agent
            tpm_policy pcrs_dict d iml rp kr mbl mbr hash_alg tr quoted,
       check_pcrs_trace config ext tools_version agent tpm_policy pcrs_dict (Some d) iml rp kr
         mbl mbr hash_alg = Ret tr ->
       pcrs_dict !! TPM_DATA_PCR config = Some quoted ->
       quoted <> sim_extend d hash_alg ->
       exists e, In e (events (st_failure (after_policy tr)))
                 /\ event_id e = pcr_name "invalid_pcr_" (TPM_DATA_PCR config)
                 /\ fatal e = true).
Proof.
  intros H.
  assert (example_run (<[16 := "zz"]> example_quote) (Some "nonce123") None
          = Ret (trace_of (example_run (<[16 := "zz"]> example_quote) (Some "nonce123") None)))
    as Hrun by (vm_compute; reflexivity).
  assert ("zz" <> sim_extend "nonce123" example_hash) as Hne by (vm_compute; discriminate).
  destruct (H example_config (example_ext (inr (<[16 := "zz"]> example_quote)) []) "5.4"
              example_agent example_policy (<[16 := "zz"]> example_quote) "nonce123" None tt
              None None None example_hash _ "zz" Hrun eq_refl Hne)
    as (e & Hin & _ & Hfatal).
  vm_compute in Hin. destruct Hin as [<- | [<- | []]]; discriminate Hfatal.
Qed.

(** C10 as stated fails on the word fatal: the event [missing_pcr_16] added
    without bound data is recoverable. *)
Lemma check_pcrs_no_bound_data_fatal_counterexample :
  ~ (forall (config : Config) (ext : Collaborators unit unit unit) tools_version agent
            tpm_policy pcrs_dict iml rp kr mbl mbr hash_alg tr,
       check_pcrs_trace config ext tools_version agent tpm_policy pcrs_dict None iml rp kr
         mbl mbr hash_alg = Ret tr ->
       exists e, In e (events (st_failure (after_policy tr)))
                 /\ event_id e = pcr_name "missing_pcr_" (TPM_DATA_PCR config)
                 /\ fatal e = true).
Proof.
  intros H.
  assert (example_run (<[16 := "zz"]> example_quote) None None
          = Ret (trace_of (example_run (<[16 := "zz"]> example_quote) None None))) as Hrun
    by (vm_compute; reflexivity).
  destruct (H example_config (example_ext (inr (<[16 := "zz"]> example_quote)) []) "5.4"
              example_agent example_policy (<[16 := "zz"]> example_quote) None tt
              None None None example_hash _ Hrun)
    as (e & Hin & _ & Hfatal).
  vm_compute in Hin. destruct Hin as [<- | [<- | []]]; discriminate Hfatal.
Qed.

Lemma check_pcrs_missing_pcrs_witness :
  In (mkEvent PCR_VALIDATION [] "missing_pcrs"
        (CtxDict [("context", VStr "PCRs are missing in quote"); ("data", VInts [1])]) true)
     (events (st_failure (after_policy
        (trace_of (example_run example_quote (Some "nonce123") None))))).
Proof.
  assert (example_run example_quote (Some "nonce123") None
          = Ret (trace_of (example_run example_quote (Some "nonce123") None))) as Hrun
    by (vm_compute; reflexivity).
  pose proof (check_pcrs_missing_pcrs example_config (example_ext (inr example_quote) [])
                "5.4" example_agent example_policy example_quote (Some "nonce123") None tt
                None None None example_hash _ Hrun) as (_ & _ & _ & _ & Hne & _).
  assert (dom (pcr_allowlist (trace_of (example_run example_quote (Some "nonce123") None)))
          ∖ dom example_quote <> (∅ : gset Z)) as Hx by (vm_compute; discriminate).
  destruct (Hne Hx) as [_ Hin].
  vm_compute in Hin. vm_compute. exact Hin.
Defined.

Lemma check_pcrs_mb_without_log_witness :
  In (mkEvent PCR_VALIDATION [] "unused_pcr_2"
        (CtxStr "Measured Boot PCR 2 in policy, but no measurement list provided") true)
     (events (st_failure (after_policy
        (trace_of (example_run example_quote (Some "nonce123") (Some "refstate")))))).
Proof.
  assert (example_run example_quote (Some "nonce123") (Some "refstate")
          = Ret (trace_of (example_run example_quote (Some "nonce123") (Some "refstate"))))
    as Hrun by (vm_compute; reflexivity).
  pose proof (check_pcrs_mb_without_log example_config (example_ext (inr example_quote) [])
                "5.4" example_agent example_policy example_quote (Some "nonce123") None tt
                None None (Some "refstate") example_hash _ tt "policy"
                (DDict [(KStr "refstate", DInt 1)]) Hrun eq_refl eq_refl) as (_ & Hev & _).
  assert (In 2 (MEASUREDBOOT_PCRS example_config)) as H2 by (cbn; tauto).
  assert (2 ∈ dom example_quote) as Hq by (vm_compute; reflexivity).
  destruct (Hev eq_refl 2 H2 Hq) as [_ Hin].
  vm_compute in Hin. vm_compute. exact Hin.
Defined.

(** C6 as stated fails in its last clause: the IMA PCR in the quote, with
    no allowlist entry and no IMA measurement list, gets the event
    [unused_pcr_10]. *)
Lemma check_pcrs_unlisted_index_counterexample :
  ~ (forall (config : Config) (ext : Collaborators unit unit unit) tools_version agent
            tpm_policy pcrs_dict data iml rp kr mbl mbr hash_alg tr n,
       check_pcrs_trace config ext tools_version agent tpm_policy pcrs_dict data iml rp kr
         mbl mbr hash_alg = Ret tr ->
       n ∈ dom pcrs_dict ->
       pcr_allowlist tr !! n = None ->
       forall e, In e (events (st_failure (after_policy tr))) -> ~ names_index e n).
Proof.
  intros H.
  assert (example_run (<[10 := "ii"]> example_quote) (Some "nonce123") None
          = Ret (trace_of (example_run (<[10 := "ii"]> example_quote) (Some "nonce123") None)))
    as Hrun by (vm_compute; reflexivity).
  assert (10 ∈ dom (<[10 := "ii"]> example_quote)) as Hq by (vm_compute; reflexivity).
  assert (pcr_allowlist (trace_of (example_run (<[10 := "ii"]> example_quote)
                                     (Some "nonce123") None)) !! 10 = None)
    as Hallow by (vm_compute; reflexivity).
  assert (In (mkEvent PCR_VALIDATION [] "unused_pcr_10"
                (CtxStr "IMA PCR in policy, but no measurement list provided") true)
             (events (st_failure (after_policy
                (trace_of (example_run (<[10 := "ii"]> example_quote)
                             (Some "nonce123") None)))))) as Hin
    by (vm_compute; tauto).
  apply (H _ _ _ _ _ _ _ _ _ _ _ _ _ _ 10 Hrun Hq Hallow _ Hin).
  exists "unused_pcr_". reflexivity.
Qed.

(** C7 as stated fails: with no reference state resolved and no measurement
    list, measured boot PCR 2 of the quote gets no [unused_pcr_2] event. *)
Lemma check_pcrs_mb_without_refstate_counterexample :
  ~ (forall (config : Config) (ext : Collaborators unit unit unit) tools_version agent
            tpm_policy pcrs_dict data iml rp kr mbl mbr hash_alg tr pol name refdata n,
       check_pcrs_trace config ext tools_version agent tpm_policy pcrs_dict data iml rp kr
         mbl mbr hash_alg = Ret tr ->
       get_policy ext mbr = Ret (pol, name, refdata) ->
       doc_truthy refdata = false ->
       optstr_truthy mbl = false ->
       In n (MEASUREDBOOT_PCRS config) ->
       n ∈ dom pcrs_dict ->
       (exists e, In e (events (st_failure (after_policy tr)))
                  /\ event_id e = pcr_name "unused_pcr_" n /\ recoverable e = true)
       /\ n ∈ pcrs_in_quote (after_mb tr)).
Proof.
  intros H.
  assert (example_run example_quote (Some "nonce123") None
          = Ret (trace_of (example_run example_quote (Some "nonce123") None)))
    as Hrun by (vm_compute; reflexivity).
  assert (In 2 (MEASUREDBOOT_PCRS example_config)) as H2 by (cbn; tauto).
  assert (2 ∈ dom example_quote) as Hq by (vm_compute; reflexivity).
  destruct (H example_config (example_ext (inr example_quote) []) "5.4" example_agent
              example_policy example_quote (Some "nonce123") None tt None None None
              example_hash _ tt "policy" (DDict []) 2 Hrun eq_refl eq_refl eq_refl H2 Hq)
    as [(e & Hin & Hid & _) _].
  vm_compute in Hin. destruct Hin as [<- | [<- | []]]; vm_compute in Hid; discriminate Hid.
Qed.

(** ** Quote verification orchestrator *)

Section OrchestratorFacts.

Context {ImaKeyrings RuntimePolicyType MbPolicy : Type}.
Context (config : Config).
Context (ext : Collaborators ImaKeyrings RuntimePolicyType MbPolicy).
Context (tools_version : string).


(** Past the three checks, [check_quote] stores the clock info handed back
    (if any) and returns the report of [check_pcrs]. *)
Lemma check_quote_evaluates_pcrs agent nonce data quote aik tpm_policy iml rp h
    kr mbl mbr compressed pcrs ci result :
  _tpm2_checkquote ext aik quote nonce (hash_name h) compressed = Ret (pcrs, EmptyString) ->
  check_quote_timing (clock_decoder ext) (get_tpm_clockinfo agent) quote compressed
  = Ret (None, ci) ->
  let agent' := match ci with Some c => set_tpm_clockinfo agent c | None => agent end in
  check_pcrs config ext tools_version agent' (default (PolicyDict_ []) tpm_policy) pcrs data
    iml (default (EMPTY_RUNTIME_POLICY ext) rp) kr mbl mbr h = Ret result ->
  check_quote config ext tools_version agent nonce data quote aik tpm_policy iml rp
    (Some h) kr mbl mbr compressed = Ret (mkOutcome result agent' pcr_evaluated).
Proof.
  intros Hq Ht agent' Hp. unfold check_quote. rewrite Hq. cbn [mbind Exc_bind].
  rewrite Ht. cbn [mbind Exc_bind]. fold agent'. rewrite Hp. reflexivity.
Qed.

End OrchestratorFacts.


(** ** More on the clock checker *)

Section ClockCheckerMore.

Context (dec : ClockDecoder).

(** What [check_quote_timing] computes from the result of the extraction. *)
Lemma check_quote_timing_cases prev quote compressed r :
  check_quote_timing dec prev quote compressed = Ret r ->
  (_tpm2_clock_info_from_quote dec quote compressed = Ret []
   /\ r = (Some "_tpm2_clock_info_from_quote failed ", None))
  \/ (exists cur, extracted dec quote compressed cur).
Proof.
  unfold check_quote_timing. intros H.
  destruct (_tpm2_clock_info_from_quote dec quote compressed) as [d|e] eqn:E; [|discriminate].
  cbn [mbind Exc_bind] in H. destruct d as [|kv d].
  - left. injection H as <-. split; reflexivity.
  - right. exists (from_dict dec (kv :: d)). unfold extracted. exists (kv :: d).
    split; [exact E|]. split; [discriminate | reflexivity].
Qed.

(** A verdict is an error with no clock info, or no error; an error is never
    the empty string. *)
Lemma check_quote_timing_verdict prev quote compressed o ci :
  check_quote_timing dec prev quote compressed = Ret (o, ci) ->
  o = None \/ (exists msg, o = Some msg /\ msg <> EmptyString /\ ci = None).
Proof.
  intros H. destruct (check_quote_timing_cases _ _ _ _ H) as [[_ Hr] | [cur Hex]].
  - injection Hr as -> ->. right. eexists. split; [reflexivity|]. split; [discriminate | reflexivity].
  - rewrite (check_quote_timing_extracted dec prev quote compressed cur Hex) in H.
    repeat match type of H with
           | (if ?b then _ else _) = _ => destruct b
           end; injection H as <- <-;
      first [ left; reflexivity
            | right; eexists; split; [reflexivity|]; split; [discriminate | reflexivity] ].
Qed.

(** X1. When [check_quote_timing] accepts, the clock info was extracted, no
    counter decreased and the safe flag is 1. A clock info handed back is the
    extracted one, its clock is strictly greater than the stored one and one of
    the counters is unchanged; none is handed back exactly when both counters
    advanced, and then the clock was not looked at. *)
Theorem check_quote_timing_accept_sound prev quote compressed ci :
  check_quote_timing dec prev quote compressed = Ret (None, ci) ->
  exists cur,
    extracted dec quote compressed cur
    /\ resetcount prev <= resetcount cur
    /\ restartcount prev <= restartcount cur
    /\ safe cur = 1
    /\ match ci with
       | Some c =>
           c = cur /\ clock prev < clock cur
           /\ (resetcount cur = resetcount prev \/ restartcount cur = restartcount prev)
       | None => resetcount prev < resetcount cur /\ restartcount prev < restartcount cur
       end.
Proof.
  intros H. destruct (check_quote_timing_cases _ _ _ _ H) as [[_ Hr] | [cur Hex]];
    [discriminate Hr|].
  exists cur. split; [exact Hex|].
  rewrite (check_quote_timing_extracted dec prev quote compressed cur Hex) in H.
  destruct (Z.ltb_spec (resetcount cur - resetcount prev) 0); [discriminate|].
  destruct (Z.ltb_spec (restartcount cur - restartcount prev) 0); [discriminate|].
  destruct (Z.eqb_spec (safe cur) 1); [|discriminate]. cbn [negb] in H.
  unfold Py.truth, Py.and_ in H.
  split; [lia|]. split; [lia|]. split; [assumption|].
  destruct (Z.eqb_spec (resetcount cur - resetcount prev) 0).
  - rewrite e0 in H. cbn in H.
    destruct (Z.leb_spec (clock cur - clock prev) 0); [discriminate|].
    injection H as <-. split; [reflexivity|]. split; [lia|]. left; lia.
  - destruct (Z.eqb_spec (restartcount cur - restartcount prev) 0).
    + cbn in H. destruct (Z.leb_spec (clock cur - clock prev) 0); [discriminate|].
      injection H as <-. split; [reflexivity|]. split; [lia|]. right; lia.
    + cbn in H. injection H as <-. lia.
Qed.

(** The clock info handed back with an accepting verdict. *)
Lemma check_quote_timing_stored_clock prev quote compressed c :
  check_quote_timing dec prev quote compressed = Ret (None, Some c) ->
  clock prev < clock c /\ resetcount prev <= resetcount c
  /\ restartcount prev <= restartcount c /\ safe c = 1.
Proof.
  intros H. destruct (check_quote_timing_cases _ _ _ _ H) as [[_ Hr] | [cur Hex]];
    [discriminate Hr|].
  rewrite (check_quote_timing_extracted dec prev quote compressed cur Hex) in H.
  destruct (Z.ltb_spec (resetcount cur - resetcount prev) 0); [discriminate|].
  destruct (Z.ltb_spec (restartcount cur - restartcount prev) 0); [discriminate|].
  destruct (Z.eqb_spec (safe cur) 1); [|discriminate]. cbn [negb] in H.
  destruct (negb _); [|discriminate].
  destruct (Z.leb_spec (clock cur - clock prev) 0); [discriminate|].
  injection H as <-. repeat split; [lia | lia | lia | assumption].
Qed.

(** X2. When no counter decreased, a clock info whose safe flag is not 1 is
    rejected with the message of the safe flag, whatever the clock is. *)
Theorem check_quote_timing_unsafe_clock prev cur quote compressed :
  extracted dec quote compressed cur ->
  resetcount prev <= resetcount cur ->
  restartcount prev <= restartcount cur ->
  safe cur <> 1 ->
  check_quote_timing dec prev quote compressed
  = Ret (Some "clock safe flag is disabled", None).
Proof.
  intros Hex Hrs Hrt Hsafe.
  rewrite (check_quote_timing_extracted dec prev quote compressed cur Hex).
  destruct (Z.ltb_spec (resetcount cur - resetcount prev) 0); [lia|].
  destruct (Z.ltb_spec (restartcount cur - restartcount prev) 0); [lia|].
  destruct (Z.eqb_spec (safe cur) 1); [contradiction | reflexivity].
Qed.

(** X3. When the quote is well formed but the decoder of the clock info
    raises, nothing is raised: the quote is rejected with the extraction
    message. *)
Theorem check_quote_timing_decoder_raises prev quote (compressed : bool) rest blob blob' :
  quote = String "r"%char rest ->
  (3 <= List.length (Py.split ":"%char rest))%nat ->
  b64decode dec (List.nth 0 (Py.split ":"%char rest) EmptyString) = Some blob ->
  (if compressed then zlib_decompress dec blob = Some blob' else blob' = blob) ->
  get_tpms_attest_clock_info dec blob' = None ->
  check_quote_timing dec prev quote compressed
  = Ret (Some "_tpm2_clock_info_from_quote failed ", None).
Proof.
  intros -> Hlen Hb Hz Hd. unfold check_quote_timing, _tpm2_clock_info_from_quote.
  cbn [Py.index0 Py.tail mbind Exc_bind Ascii.eqb Bool.eqb negb].
  destruct (Z.ltb_spec (Z.of_nat (List.length (Py.split ":"%char rest))) 3); [lia|].
  rewrite Hb. cbn [of_option mbind Exc_bind].
  destruct compressed.
  - rewrite Hz. cbn [of_option mbind Exc_bind]. rewrite Hd. reflexivity.
  - subst blob'. cbn [mbind Exc_bind]. rewrite Hd. reflexivity.
Qed.

(** X4. A quote that is empty, does not start with r, or has fewer than three
    segments makes the check raise. *)
Theorem check_quote_timing_malformed_quote prev quote compressed :
  (quote = EmptyString
   \/ (exists c rest, quote = String c rest /\ c <> "r"%char)
   \/ (exists rest, quote = String "r"%char rest /\ (List.length (Py.split ":"%char rest) < 3)%nat)) ->
  exists e, check_quote_timing dec prev quote compressed = Raise e.
Proof.
  unfold check_quote_timing, _tpm2_clock_info_from_quote.
  intros [-> | [(c & rest & -> & Hc) | (rest & -> & Hlen)]].
  - eexists; reflexivity.
  - cbn [Py.index0 mbind Exc_bind].
    destruct (Ascii.eqb_spec c "r"%char); [contradiction|]. eexists; reflexivity.
  - cbn [Py.index0 Py.tail mbind Exc_bind Ascii.eqb Bool.eqb negb].
    destruct (Z.ltb_spec (Z.of_nat (List.length (Py.split ":"%char rest))) 3); [|lia].
    eexists; reflexivity.
Qed.

End ClockCheckerMore.

Lemma check_quote_timing_accept_sound_witness :
  exists cur,
    extracted (example_decoder (example_clock 500 2 4 1)) "rAA:BB:CC" false cur
    /\ 2 <= resetcount cur
    /\ 4 <= restartcount cur
    /\ safe cur = 1
    /\ mkClockInfo 500 2 4 1 = cur /\ 100 < clock cur
    /\ (resetcount cur = 2 \/ restartcount cur = 4).
Proof.
  apply (check_quote_timing_accept_sound (example_decoder (example_clock 500 2 4 1))
           (mkClockInfo 100 2 4 1) "rAA:BB:CC" false (Some (mkClockInfo 500 2 4 1))).
  reflexivity.
Defined.

Lemma check_quote_timing_unsafe_clock_witness :
  check_quote_timing (example_decoder (example_clock 500 2 4 0)) (mkClockInfo 100 2 4 1)
    "rAA:BB:CC" false
  = Ret (Some "clock safe flag is disabled", None).
Proof.
  apply (check_quote_timing_unsafe_clock (example_decoder (example_clock 500 2 4 0))
           (mkClockInfo 100 2 4 1) (mkClockInfo 500 2 4 0) "rAA:BB:CC" false).
  - apply example_extracted.
  - cbn; lia.
  - cbn; lia.
  - cbn; lia.
Defined.

Lemma check_quote_timing_decoder_raises_witness :
  check_quote_timing example_failing_decoder (mkClockInfo 100 2 4 1) "rAA:BB:CC" false
  = Ret (Some "_tpm2_clock_info_from_quote failed ", None).
Proof.
  apply (check_quote_timing_decoder_raises example_failing_decoder (mkClockInfo 100 2 4 1)
           "rAA:BB:CC" false "AA:BB:CC" [] []).
  - reflexivity.
  - cbn; lia.
  - reflexivity.
  - reflexivity.
  - reflexivity.
Defined.

Lemma check_quote_timing_malformed_quote_witness :
  exists e,
    check_quote_timing (example_decoder (example_clock 500 2 4 1)) (mkClockInfo 100 2 4 1)
      "rAA:BB" false = Raise e.
Proof.
  apply (check_quote_timing_malformed_quote (example_decoder (example_clock 500 2 4 1))
           (mkClockInfo 100 2 4 1) "rAA:BB" false).
  right; right. exists "AA:BB". split; [reflexivity | cbn; lia].
Defined.

(** ** More on the orchestrator *)

Section OrchestratorMore.

Context {ImaKeyrings RuntimePolicyType MbPolicy : Type}.
Context (config : Config).
Context (ext : Collaborators ImaKeyrings RuntimePolicyType MbPolicy).
Context (tools_version : string).

(** X5. The PCR evaluation is reached only with a hash algorithm, a quote
    check without error and an accepted clock; the report is then the one of
    [check_pcrs] on the PCRs of the quote check, run with the agent state in
    which the clock info handed back, if any, is stored. *)
Theorem check_quote_pcr_evaluation_guarded agent nonce data quote aik tpm_policy iml rp
    hash_alg kr mbl mbr compressed out :
  check_quote config ext tools_version agent nonce data quote aik tpm_policy iml rp
    hash_alg kr mbl mbr compressed = Ret out ->
  stage out = pcr_evaluated ->
  exists h pcrs ci,
    hash_alg = Some h
    /\ _tpm2_checkquote ext aik quote nonce (hash_name h) compressed = Ret (pcrs, EmptyString)
    /\ check_quote_timing (clock_decoder ext) (get_tpm_clockinfo agent) quote compressed
       = Ret (None, ci)
    /\ agent_after out = match ci with
                         | Some c => set_tpm_clockinfo agent c
                         | None => agent
                         end
    /\ check_pcrs config ext tools_version (agent_after out)
         (default (PolicyDict_ []) tpm_policy) pcrs data iml
         (default (EMPTY_RUNTIME_POLICY ext) rp) kr mbl mbr h = Ret (report out).
Proof.
  unfold check_quote. intros H Hstage.
  destruct hash_alg as [h|]; [|injection H as <-; discriminate Hstage].
  destruct (_tpm2_checkquote ext aik quote nonce (hash_name h) compressed)
    as [[pcrs err]|e] eqn:Hq; [|discriminate].
  cbn [mbind Exc_bind] in H.
  destruct err as [|c err]; [|injection H as <-; discriminate Hstage].
  destruct (check_quote_timing (clock_decoder ext) (get_tpm_clockinfo agent) quote compressed)
    as [[o ci]|e] eqn:Ht; [|discriminate].
  cbn [mbind Exc_bind] in H.
  destruct (check_quote_timing_verdict _ _ _ _ _ _ Ht) as [-> | (msg & -> & Hmsg & ->)].
  - match type of H with
    | context [check_pcrs ?c ?e ?t ?a ?p ?q ?d ?i ?r ?k ?l ?m ?hh] =>
        destruct (check_pcrs c e t a p q d i r k l m hh) as [res|e'] eqn:Hp; [|discriminate]
    end.
    cbn [mbind Exc_bind] in H. injection H as <-. cbn [agent_after report].
    exists h, pcrs, ci. split; [reflexivity|]. split; [first [exact Hq | reflexivity]|].
    split; [first [exact Ht | reflexivity]|]. split; [reflexivity | first [exact Hp | reflexivity]].
  - destruct msg as [|c msg]; [congruence|]. injection H as <-. discriminate Hstage.
Qed.

(** X6. [check_quote] keeps the agent identity and never moves the stored
    clock info backwards: the agent state comes back unchanged, or, after a
    PCR evaluation, with a clock info whose clock is strictly greater, whose
    counters are not smaller and whose safe flag is 1. *)
Theorem check_quote_clock_never_regresses agent nonce data quote aik tpm_policy iml rp
    hash_alg kr mbl mbr compressed out :
  check_quote config ext tools_version agent nonce data quote aik tpm_policy iml rp
    hash_alg kr mbl mbr compressed = Ret out ->
  agent_id (agent_after out) = agent_id agent
  /\ (agent_after out = agent
      \/ (stage out = pcr_evaluated
          /\ clock (tpm_clockinfo agent) < clock (tpm_clockinfo (agent_after out))
          /\ resetcount (tpm_clockinfo agent) <= resetcount (tpm_clockinfo (agent_after out))
          /\ restartcount (tpm_clockinfo agent)
             <= restartcount (tpm_clockinfo (agent_after out))
          /\ safe (tpm_clockinfo (agent_after out)) = 1)).
Proof.
  unfold check_quote. intros H.
  destruct hash_alg as [h|]; [|injection H as <-; split; [reflexivity | left; reflexivity]].
  destruct (_tpm2_checkquote ext aik quote nonce (hash_name h) compressed)
    as [[pcrs err]|e]; [|discriminate]. cbn [mbind Exc_bind] in H.
  destruct err as [|c err]; [|injection H as <-; split; [reflexivity | left; reflexivity]].
  destruct (check_quote_timing (clock_decoder ext) (get_tpm_clockinfo agent) quote compressed)
    as [[o ci]|e] eqn:Ht; [|discriminate]. cbn [mbind Exc_bind] in H.
  destruct (check_quote_timing_verdict _ _ _ _ _ _ Ht) as [-> | (msg & -> & Hmsg & ->)].
  - match type of H with
    | context [check_pcrs ?c ?e ?t ?a ?p ?q ?d ?i ?r ?k ?l ?m ?hh] =>
        destruct (check_pcrs c e t a p q d i r k l m hh) as [res|e']; [|discriminate]
    end.
    cbn [mbind Exc_bind] in H. injection H as <-. cbn [agent_after stage].
    destruct ci as [c|]; [|split; [reflexivity | left; reflexivity]].
    apply check_quote_timing_stored_clock in Ht as (Hclock & Hrs & Hrt & Hsafe).
    split; [reflexivity|]. right. cbn. unfold get_tpm_clockinfo in *.
    split; [reflexivity|]. repeat split; assumption.
  - destruct msg as [|c msg]; [congruence|]. injection H as <-.
    split; [reflexivity | left; reflexivity].
Qed.

(** X7. With a hash algorithm and a readable AIK, a quote that is empty, does
    not start with r, or has fewer than three segments makes [check_quote]
    raise: no report comes back. *)
Theorem check_quote_malformed_quote agent nonce data quote aik tpm_policy iml rp h
    kr mbl mbr compressed pem :
  aik_public_bytes ext aik = Ret pem ->
  (quote = EmptyString
   \/ (exists c rest, quote = String c rest /\ c <> "r"%char)
   \/ (exists rest, quote = String "r"%char rest
                    /\ (List.length (Py.split ":"%char rest) < 3)%nat)) ->
  exists e,
    check_quote config ext tools_version agent nonce data quote aik tpm_policy iml rp
      (Some h) kr mbl mbr compressed = Raise e.
Proof.
  intros Haik Hq. unfold check_quote, _tpm2_checkquote. rewrite Haik.
  cbn [mbind Exc_bind].
  destruct Hq as [-> | [(c & rest & -> & Hc) | (rest & -> & Hlen)]].
  - eexists; reflexivity.
  - cbn [Py.index0 mbind Exc_bind].
    destruct (Ascii.eqb_spec c "r"%char); [contradiction|]. eexists; reflexivity.
  - cbn [Py.index0 Py.tail mbind Exc_bind Ascii.eqb Bool.eqb negb].
    destruct (Z.ltb_spec (Z.of_nat (List.length (Py.split ":"%char rest))) 3); [|lia].
    eexists; reflexivity.
Qed.

(** X8. An exception of [tpm_util.checkquote] whose message is empty is not
    taken for an error: [_tpm2_checkquote] hands back no PCRs and an empty
    error, as for a verified quote without PCRs, and [check_quote] goes on to
    the clock check and the PCR evaluation. *)
Theorem check_quote_empty_error_message agent nonce data quote aik tpm_policy iml rp h
    kr mbl mbr rest pem qb sb pb ci result :
  aik_public_bytes ext aik = Ret pem ->
  quote = String "r"%char rest ->
  (3 <= List.length (Py.split ":"%char rest))%nat ->
  b64decode (clock_decoder ext) (List.nth 0 (Py.split ":"%char rest) EmptyString) = Some qb ->
  b64decode (clock_decoder ext) (List.nth 1 (Py.split ":"%char rest) EmptyString) = Some sb ->
  b64decode (clock_decoder ext) (List.nth 2 (Py.split ":"%char rest) EmptyString) = Some pb ->
  checkquote ext pem nonce sb qb pb (hash_name h) = inl EmptyString ->
  check_quote_timing (clock_decoder ext) (get_tpm_clockinfo agent) quote false
  = Ret (None, ci) ->
  let agent' := match ci with Some c => set_tpm_clockinfo agent c | None => agent end in
  check_pcrs config ext tools_version agent' (default (PolicyDict_ []) tpm_policy) ∅ data
    iml (default (EMPTY_RUNTIME_POLICY ext) rp) kr mbl mbr h = Ret result ->
  _tpm2_checkquote ext aik quote nonce (hash_name h) false = Ret (∅, EmptyString)
  /\ check_quote config ext tools_version agent nonce data quote aik tpm_policy iml rp
       (Some h) kr mbl mbr false = Ret (mkOutcome result agent' pcr_evaluated).
Proof.
  intros Haik -> Hlen Hqb Hsb Hpb Hcq Ht agent' Hp.
  assert (_tpm2_checkquote ext aik (String "r"%char rest) nonce (hash_name h) false
          = Ret (∅, EmptyString)) as Hq.
  { unfold _tpm2_checkquote. rewrite Haik.
    cbn [Py.index0 Py.tail mbind Exc_bind Ascii.eqb Bool.eqb negb].
    destruct (Z.ltb_spec (Z.of_nat (List.length (Py.split ":"%char rest))) 3); [lia|].
    rewrite Hqb, Hsb, Hpb. cbn [of_option mbind Exc_bind]. rewrite Hcq. reflexivity. }
  split; [exact Hq|].
  apply (check_quote_evaluates_pcrs config ext tools_version agent nonce data
           (String "r"%char rest) aik tpm_policy iml rp h kr mbl mbr false ∅ ci result Hq Ht Hp).
Qed.

End OrchestratorMore.

Lemma check_quote_pcr_evaluation_guarded_witness :
  exists h pcrs ci,
    Some example_hash = Some h
    /\ _tpm2_checkquote (example_ext (inr example_quote) (example_clock 500 2 4 1))
         "aik" "rAA:BB:CC" "nonce" (hash_name h) false = Ret (pcrs, EmptyString)
    /\ check_quote_timing
         (clock_decoder (example_ext (inr example_quote) (example_clock 500 2 4 1)))
         (get_tpm_clockinfo example_agent) "rAA:BB:CC" false
       = Ret (None, ci)
    /\ agent_after (example_outcome example_quote)
       = match ci with
         | Some c => set_tpm_clockinfo example_agent c
         | None => example_agent
         end
    /\ check_pcrs example_config (example_ext (inr example_quote) (example_clock 500 2 4 1))
         "5.4" (agent_after (example_outcome example_quote))
         (default (PolicyDict_ []) (Some example_policy)) pcrs (Some "nonce123") None
         (default (EMPTY_RUNTIME_POLICY
                     (example_ext (inr example_quote) (example_clock 500 2 4 1))) None)
         None None None h
       = Ret (report (example_outcome example_quote)).
Proof.
  apply (check_quote_pcr_evaluation_guarded example_config
           (example_ext (inr example_quote) (example_clock 500 2 4 1)) "5.4" example_agent
           "nonce" (Some "nonce123") "rAA:BB:CC" "aik" (Some example_policy) None None
           (Some example_hash) None None None false (example_outcome example_quote)).
  - vm_compute. reflexivity.
  - vm_compute. reflexivity.
Defined.

Lemma check_quote_clock_never_regresses_witness :
  agent_id (agent_after (example_outcome example_quote)) = agent_id example_agent
  /\ (agent_after (example_outcome example_quote) = example_agent
      \/ (stage (example_outcome example_quote) = pcr_evaluated
          /\ clock (tpm_clockinfo example_agent)
             < clock (tpm_clockinfo (agent_after (example_outcome example_quote)))
          /\ resetcount (tpm_clockinfo example_agent)
             <= resetcount (tpm_clockinfo (agent_after (example_outcome example_quote)))
          /\ restartcount (tpm_clockinfo example_agent)
             <= restartcount (tpm_clockinfo (agent_after (example_outcome example_quote)))
          /\ safe (tpm_clockinfo (agent_after (example_outcome example_quote))) = 1)).
Proof.
  apply (check_quote_clock_never_regresses example_config
           (example_ext (inr example_quote) (example_clock 500 2 4 1)) "5.4" example_agent
           "nonce" (Some "nonce123") "rAA:BB:CC" "aik" (Some example_policy) None None
           (Some example_hash) None None None false (example_outcome example_quote)).
  vm_compute. reflexivity.
Defined.

Lemma check_quote_malformed_quote_witness :
  exists e,
    check_quote example_config (example_ext (inr example_quote) (example_clock 500 2 4 1))
      "5.4" example_agent "nonce" (Some "nonce123") "xAA:BB:CC" "aik" (Some example_policy)
      None None (Some example_hash) None None None false = Raise e.
Proof.
  apply (check_quote_malformed_quote example_config
           (example_ext (inr example_quote) (example_clock 500 2 4 1)) "5.4" example_agent
           "nonce" (Some "nonce123") "xAA:BB:CC" "aik" (Some example_policy) None None
           example_hash None None None false []).
  - reflexivity.
  - right; left. exists "x"%char, "AA:BB:CC". split; [reflexivity | discriminate].
Defined.

Lemma check_quote_empty_error_message_witness :
  _tpm2_checkquote (example_ext (inl EmptyString) (example_clock 500 2 4 1)) "aik"
    "rAA:BB:CC" "nonce" (hash_name example_hash) false = Ret (∅, EmptyString)
  /\ check_quote example_config (example_ext (inl EmptyString) (example_clock 500 2 4 1))
       "5.4" example_agent "nonce" (Some "nonce123") "rAA:BB:CC" "aik" (Some example_policy)
       None None (Some example_hash) None None None false
     = Ret (mkOutcome
              (ret_or (failure.new PCR_VALIDATION [])
                 (check_pcrs example_config
                    (example_ext (inl EmptyString) (example_clock 500 2 4 1)) "5.4"
                    (set_tpm_clockinfo example_agent (mkClockInfo 500 2 4 1))
                    example_policy ∅ (Some "nonce123") None tt None None None example_hash))
              (set_tpm_clockinfo example_agent (mkClockInfo 500 2 4 1)) pcr_evaluated).
Proof.
  apply (check_quote_empty_error_message example_config
           (example_ext (inl EmptyString) (example_clock 500 2 4 1)) "5.4" example_agent
           "nonce" (Some "nonce123") "rAA:BB:CC" "aik" (Some example_policy) None None
           example_hash None None None "AA:BB:CC" [] [] [] []
           (Some (mkClockInfo 500 2 4 1))).
  - reflexivity.
  - reflexivity.
  - cbn; lia.
  - reflexivity.
  - reflexivity.
  - reflexivity.
  - reflexivity.
  - reflexivity.
  - vm_compute. reflexivity.
Defined.

(** ** More on dicts of log documents *)

Lemma dict_get_In k v kv : dict_get k kv = Some v -> In (k, v) kv.
Proof.
  induction kv as [|[k' v'] kv IH]; cbn; [discriminate|].
  destruct (key_eqb k' k) eqn:E.
  - intros [= ->]. apply key_eqb_eq in E. subst. left; reflexivity.
  - intros H. right. apply IH, H.
Qed.

Lemma dict_get_None_keys k kv : dict_get k kv = None <-> ~ In k (map fst kv).
Proof.
  induction kv as [|[k' v'] kv IH]; cbn; [tauto|].
  destruct (key_eqb k' k) eqn:E.
  - apply key_eqb_eq in E. subst. split; [discriminate | intros H; exfalso; apply H; left; reflexivity].
  - rewrite IH. split; [intros H [->|H']; [rewrite key_eqb_refl in E; discriminate | contradiction]
                        | intros H H'; apply H; right; exact H'].
Qed.

Lemma dict_set_fresh k v kv : dict_get k kv = None -> dict_set k v kv = (kv ++ [(k, v)])%list.
Proof.
  induction kv as [|[k' v'] kv IH]; cbn; [reflexivity|].
  destruct (key_eqb k' k); [discriminate|]. intros H. rewrite (IH H). reflexivity.
Qed.

Lemma dict_set_same k v kv : dict_get k kv = Some v -> dict_set k v kv = kv.
Proof.
  induction kv as [|[k' v'] kv IH]; cbn; [discriminate|].
  destruct (key_eqb k' k); [intros [= ->]; reflexivity|]. intros H. rewrite (IH H). reflexivity.
Qed.

Lemma dict_set_keys k v kv :
  map fst (dict_set k v kv)
  = match dict_get k kv with
    | Some _ => map fst kv
    | None => (map fst kv ++ [k])%list
    end.
Proof.
  induction kv as [|[k' v'] kv IH]; cbn; [reflexivity|].
  destruct (key_eqb k' k); cbn; [reflexivity|]. rewrite IH.
  destruct (dict_get k kv); reflexivity.
Qed.

Lemma dict_set_NoDup k v kv : List.NoDup (map fst kv) -> List.NoDup (map fst (dict_set k v kv)).
Proof.
  intros H. rewrite dict_set_keys. destruct (dict_get k kv) eqn:E; [exact H|].
  apply dict_get_None_keys in E.
  apply NoDup_ListNoDup. apply NoDup_ListNoDup in H.
  apply NoDup_app. split; [exact H|]. split.
  - intros x Hx Hx'. apply list_elem_of_In in Hx. apply list_elem_of_In in Hx'.
    destruct Hx' as [<-|[]]. contradiction.
  - apply NoDup_singleton.
Qed.

Lemma dict_set_Forall (P : Key * Doc -> Prop) k v kv :
  Forall P kv -> P (k, v) -> Forall P (dict_set k v kv).
Proof.
  intros H Hk. induction H as [|[k' v'] kv Hx H IH]; cbn.
  - constructor; [exact Hk | constructor].
  - destruct (key_eqb k' k) eqn:E.
    + apply key_eqb_eq in E. subst. constructor; assumption.
    + constructor; assumption.
Qed.

(** Setting, entry after entry, the entries of a dict with distinct keys
    builds that dict. *)
Lemma fold_dict_set_NoDup (g : Doc -> Doc) l : forall init,
  List.NoDup (map fst (init ++ l)) ->
  fold_left (fun d '(k, v) => dict_set k (g v) d) l init
  = (init ++ map (fun e => (fst e, g (snd e))) l)%list.
Proof.
  induction l as [|[k v] l IH]; intros init H; cbn [fold_left map].
  - rewrite app_nil_r. reflexivity.
  - assert (dict_get k init = None) as Hfresh.
    { apply dict_get_None_keys. rewrite map_app in H. cbn in H.
      apply NoDup_ListNoDup in H. apply NoDup_app in H as (_ & Hdis & _).
      intros Hin. apply (Hdis k); [apply list_elem_of_In; exact Hin|]. left. }
    rewrite (dict_set_fresh _ _ _ Hfresh). rewrite IH.
    + rewrite <- app_assoc. reflexivity.
    + rewrite <- app_assoc. cbn.
      rewrite !map_app in *. cbn in *. exact H.
Qed.

Lemma fold_dict_set_keys_NoDup {A} (f : A -> Key * Doc) l : forall init,
  List.NoDup (map fst init) ->
  List.NoDup (map fst (fold_left (fun d x => dict_set (fst (f x)) (snd (f x)) d) l init)).
Proof.
  induction l as [|x l IH]; intros init H; cbn [fold_left]; [exact H|].
  apply IH, dict_set_NoDup, H.
Qed.

Lemma fold_dict_set_Forall {A} (P : Key * Doc -> Prop) (f : A -> Key * Doc) l : forall init,
  Forall P init -> (forall x, In x l -> P (f x)) ->
  Forall P (fold_left (fun d x => dict_set (fst (f x)) (snd (f x)) d) l init).
Proof.
  induction l as [|x l IH]; intros init H Hl; cbn [fold_left]; [exact H|].
  apply IH.
  - apply dict_set_Forall; [exact H|]. rewrite <- surjective_pairing. apply Hl. left; reflexivity.
  - intros y Hy. apply Hl. right; exact Hy.
Qed.

Lemma fold_left_pointwise {A B} (f g : A -> B -> A) l : forall a,
  (forall a x, f a x = g a x) -> fold_left f l a = fold_left g l a.
Proof.
  induction l as [|x l IH]; intros a H; cbn; [reflexivity|]. rewrite H. apply IH, H.
Qed.

(** ** The key normalization pass *)

Lemma stringify_pcr_keys_eq log :
  __stringify_pcr_keys log
  = match log with
    | DDict kv =>
        match dict_get (KStr "pcrs") kv with
        | Some (DDict old_pcrs) =>
            DDict (dict_set (KStr "pcrs")
                     (DDict (fold_left (fun d '(k, v) => dict_set k (stringify_cells v) d)
                                       old_pcrs []))
                     kv)
        | _ => log
        end
    | _ => log
    end.
Proof.
  destruct log as [| | | | |kv]; try reflexivity. cbn.
  destruct (dict_get (KStr "pcrs") kv) as [[| | | | |old]|]; try reflexivity.
  do 3 f_equal. apply fold_left_pointwise. intros a [k [| | | | |cs]]; reflexivity.
Qed.

Lemma stringify_cells_fold cs :
  fold_left (fun d '(index, val) => dict_set (KStr (key_str index)) val d) cs []
  = fold_left (fun d (x : Key * Doc) =>
                 dict_set (fst (KStr (key_str (fst x)), snd x))
                          (snd (KStr (key_str (fst x)), snd x)) d) cs [].
Proof. apply fold_left_pointwise. intros a [k v]. reflexivity. Qed.

Lemma stringify_outer_fold old :
  fold_left (fun d '(k, v) => dict_set k (stringify_cells v) d) old []
  = fold_left (fun d (x : Key * Doc) =>
                 dict_set (fst (fst x, stringify_cells (snd x)))
                          (snd (fst x, stringify_cells (snd x))) d) old [].
Proof. apply fold_left_pointwise. intros a [k v]. reflexivity. Qed.

Lemma stringify_cells_str_keys cells cs :
  stringify_cells cells = DDict cs -> is_dict cells = true ->
  forallb (fun e => is_str_key (fst e)) cs = true.
Proof.
  destruct cells as [| | | | |old]; try discriminate. cbn [stringify_cells].
  rewrite stringify_cells_fold. intros [= <-] _.
  apply forallb_forall. apply List.Forall_forall.
  apply (fold_dict_set_Forall (fun e => is_str_key (fst e) = true)
           (fun x : Key * Doc => (KStr (key_str (fst x)), snd x))).
  - constructor.
  - intros x _. reflexivity.
Qed.

(** X9. After the pass every PCR index key under an algorithm of [pcrs] is a
    string. *)
Theorem stringify_pcr_keys_strings log :
  pcr_keys_are_strings (__stringify_pcr_keys log).
Proof.
  rewrite stringify_pcr_keys_eq. intros kv' by_alg alg cells Hlog Hpcrs Hin.
  destruct log as [| | | | |kv]; try discriminate.
  destruct (dict_get (KStr "pcrs") kv) as [[| | | | |old]|] eqn:E;
    try (injection Hlog as <-; rewrite E in Hpcrs; discriminate).
  injection Hlog as <-. rewrite dict_get_set_eq in Hpcrs. injection Hpcrs as <-.
  rewrite stringify_outer_fold in Hin.
  assert (Forall (fun e : Key * Doc =>
                    forall cs, snd e = DDict cs ->
                               forallb (fun e => is_str_key (fst e)) cs = true)
                 (fold_left (fun d (x : Key * Doc) =>
                               dict_set (fst (fst x, stringify_cells (snd x)))
                                        (snd (fst x, stringify_cells (snd x))) d) old []))
    as Hall.
  { apply (fold_dict_set_Forall _ (fun x : Key * Doc => (fst x, stringify_cells (snd x))));
      [constructor|]. intros [k v] _ cs Hcs. cbn in Hcs.
    destruct v as [| | | | |c0]; try discriminate.
    apply (stringify_cells_str_keys (DDict c0)); [exact Hcs | reflexivity]. }
  rewrite List.Forall_forall in Hall. apply (Hall _ Hin). reflexivity.
Qed.

Lemma dict_set_set k v kv : dict_set k v (dict_set k v kv) = dict_set k v kv.
Proof. apply dict_set_same, dict_get_set_eq. Qed.

Lemma stringify_cells_NoDup cells cs :
  stringify_cells cells = DDict cs -> is_dict cells = true -> List.NoDup (map fst cs).
Proof.
  destruct cells as [| | | | |old]; try discriminate. cbn [stringify_cells].
  rewrite stringify_cells_fold. intros [= <-] _.
  apply (fold_dict_set_keys_NoDup (fun x : Key * Doc => (KStr (key_str (fst x)), snd x))).
  constructor.
Qed.

(** Cells whose keys are distinct strings are left as they are. *)
Lemma stringify_cells_fixed cs :
  List.NoDup (map fst cs) -> forallb (fun e => is_str_key (fst e)) cs = true ->
  stringify_cells (DDict cs) = DDict cs.
Proof.
  intros Hnd Hstr. cbn [stringify_cells]. f_equal.
  transitivity (fold_left (fun d '(k, v) => dict_set k ((fun v => v) v) d) cs []).
  - rewrite forallb_forall in Hstr. clear Hnd. revert Hstr.
    generalize (@nil (Key * Doc)). induction cs as [|[k v] cs IH]; intros init H; [reflexivity|].
    cbn [fold_left]. assert (is_str_key k = true) as Hk by (apply (H (k, v)); left; reflexivity).
    destruct k as [s|z]; [|discriminate]. cbn [key_str]. apply IH.
    intros x Hx. apply H. right; exact Hx.
  - rewrite (fold_dict_set_NoDup (fun v => v) cs []) by exact Hnd. cbn.
    clear. induction cs as [|[k v] cs IH]; [reflexivity|]. cbn. rewrite IH at 1. reflexivity.
Qed.

Lemma stringify_cells_idem cells : stringify_cells (stringify_cells cells) = stringify_cells cells.
Proof.
  destruct (stringify_cells cells) as [| | | | |cs] eqn:E; try reflexivity.
  destruct cells as [| | | | |old]; try discriminate.
  apply stringify_cells_fixed.
  - apply (stringify_cells_NoDup (DDict old)); [exact E | reflexivity].
  - apply (stringify_cells_str_keys (DDict old)); [exact E | reflexivity].
Qed.

(** X10. [__stringify_pcr_keys] is idempotent: a second pass over its result
    changes nothing. *)
Theorem stringify_pcr_keys_idempotent log :
  __stringify_pcr_keys (__stringify_pcr_keys log) = __stringify_pcr_keys log.
Proof.
  rewrite !stringify_pcr_keys_eq.
  destruct log as [| | | | |kv]; try reflexivity.
  destruct (dict_get (KStr "pcrs") kv) as [[| | | | |old]|] eqn:E; rewrite ?E; try reflexivity.
  rewrite dict_get_set_eq. f_equal.
  set (new := fold_left (fun d '(k, v) => dict_set k (stringify_cells v) d) old []).
  assert (fold_left (fun d '(k, v) => dict_set k (stringify_cells v) d) new [] = new) as ->.
  { assert (List.NoDup (map fst new)) as Hnd.
    { unfold new. rewrite stringify_outer_fold.
      apply (fold_dict_set_keys_NoDup (fun x : Key * Doc => (fst x, stringify_cells (snd x)))).
      constructor. }
    assert (Forall (fun e : Key * Doc => stringify_cells (snd e) = snd e) new) as Hfix.
    { unfold new. rewrite stringify_outer_fold.
      apply (fold_dict_set_Forall _ (fun x : Key * Doc => (fst x, stringify_cells (snd x))));
        [constructor|].
      intros [k v] _. cbn. apply stringify_cells_idem. }
    rewrite (fold_dict_set_NoDup stringify_cells new []) by exact Hnd. cbn.
    clear -Hfix. induction Hfix as [|[k v] l Hx _ IH]; [reflexivity|].
    cbn in *. rewrite Hx, IH. reflexivity. }
  apply dict_set_set.
Qed.

(** ** More on the boot aggregates *)

Lemma dict_get_fold_set_other (f : Key -> Doc) k keys : forall init,
  ~ In k keys ->
  dict_get k (fold_left (fun aggs h => dict_set h (f h) aggs) keys init) = dict_get k init.
Proof.
  induction keys as [|h keys IH]; intros init H; cbn [fold_left]; [reflexivity|].
  rewrite IH by (intros Hin; apply H; right; exact Hin).
  apply dict_get_set_ne. intros ->. apply H. left; reflexivity.
Qed.

Section BootAggregateMore.

Context (hashlib : Hashlib).

(** The aggregate over ten PCRs needs the one over eight. *)
Lemma boot_aggregate_8_of_10 pcrs hashalg :
  boot_aggregate hashlib pcrs hashalg 8 = None ->
  boot_aggregate hashlib pcrs hashalg 10 = None.
Proof.
  unfold boot_aggregate. destruct hashalg as [name|z]; [|reflexivity].
  destruct (hashlib name) as [hc|]; [|reflexivity]. cbn [mbind option_bind].
  change (seq 0 10) with (seq 0 8 ++ [8%nat; 9%nat])%list. rewrite fold_left_app.
  destruct (fold_left (boot_aggregate_update hc pcrs (KStr name)) (seq 0 8) (Some (hc_new hc)))
    as [h|]; [discriminate|].
  intros _. rewrite boot_aggregate_update_None. reflexivity.
Qed.

(** X11. On a log whose [pcrs] entry is a dict, [__add_boot_aggregate] returns
    the log with the entry [boot_aggregates] set and every other entry as it
    was; [boot_aggregates] has exactly the algorithms of [pcrs] as keys, each
    with the list of its aggregates: none, the one over PCRs 0 to 7, or that
    one followed by the one over PCRs 0 to 9, never the second alone. *)
Theorem add_boot_aggregate_entries kv by_alg :
  dict_get (KStr "pcrs") kv = Some (DDict by_alg) ->
  exists kv' aggs,
    __add_boot_aggregate hashlib (DDict kv) = Ret (DDict kv')
    /\ dict_get (KStr "boot_aggregates") kv' = Some (DDict aggs)
    /\ (forall k, k <> KStr "boot_aggregates" -> dict_get k kv' = dict_get k kv)
    /\ (forall alg, ~ In alg (map fst by_alg) -> dict_get alg aggs = None)
    /\ (forall alg, In alg (map fst by_alg) ->
          dict_get alg aggs
          = Some (DList
                    match boot_aggregate hashlib (DDict by_alg) alg 8,
                          boot_aggregate hashlib (DDict by_alg) alg 10 with
                    | None, _ => []
                    | Some a8, None => [DStr a8]
                    | Some a8, Some a10 => [DStr a8; DStr a10]
                    end)).
Proof.
  intros Hpcrs. unfold __add_boot_aggregate. rewrite Hpcrs.
  eexists _, _. split; [reflexivity|]. split; [apply dict_get_set_eq|].
  split; [|split].
  - intros k Hk. rewrite !dict_get_set_ne by exact Hk. reflexivity.
  - intros alg Hnot.
    apply (dict_get_fold_set_other
             (fun h => DList (omap (fun m => DStr <$> boot_aggregate hashlib (DDict by_alg) h m)
                                   [8%nat; 10%nat]))). exact Hnot.
  - intros alg Hin.
    rewrite (dict_get_fold_set
               (fun h => DList (omap (fun m => DStr <$> boot_aggregate hashlib (DDict by_alg) h m)
                                     [8%nat; 10%nat]))) by (left; exact Hin).
    do 2 f_equal. cbn [omap list_omap].
    destruct (boot_aggregate hashlib (DDict by_alg) alg 8) as [a8|] eqn:E8.
    + destruct (boot_aggregate hashlib (DDict by_alg) alg 10); reflexivity.
    + rewrite (boot_aggregate_8_of_10 _ _ E8). reflexivity.
Qed.

(** An algorithm that hashlib does not know gets the empty list. *)
Lemma boot_aggregate_unsupported pcrs name maxpcr :
  hashlib name = None -> boot_aggregate hashlib pcrs (KStr name) maxpcr = None.
Proof. intros H. unfold boot_aggregate. rewrite H. reflexivity. Qed.


End BootAggregateMore.

Lemma add_boot_aggregate_entries_witness :
  exists kv' aggs,
    __add_boot_aggregate example_hashlib (DDict example_log) = Ret (DDict kv')
    /\ dict_get (KStr "boot_aggregates") kv' = Some (DDict aggs)
    /\ (forall k, k <> KStr "boot_aggregates" -> dict_get k kv' = dict_get k example_log)
    /\ (forall alg, ~ In alg (map fst example_pcrs) -> dict_get alg aggs = None)
    /\ (forall alg, In alg (map fst example_pcrs) ->
          dict_get alg aggs
          = Some (DList
                    match boot_aggregate example_hashlib (DDict example_pcrs) alg 8,
                          boot_aggregate example_hashlib (DDict example_pcrs) alg 10 with
                    | None, _ => []
                    | Some a8, None => [DStr a8]
                    | Some a8, Some a10 => [DStr a8; DStr a10]
                    end)).
Proof.
  apply (add_boot_aggregate_entries example_hashlib example_log example_pcrs).
  reflexivity.
Defined.

(** ** More on the unescape pass *)

Lemma Doc_nested_ind (P : Doc -> Prop) :
  P DNone -> (forall b, P (DBool b)) -> (forall z, P (DInt z)) -> (forall s, P (DStr s)) ->
  (forall l, Forall P l -> P (DList l)) ->
  (forall kv, Forall (fun e => P (snd e)) kv -> P (DDict kv)) ->
  forall d, P d.
Proof.
  intros HN HB HI HS HL HD. fix IH 1. intros [| b | z | s | l | kv].
  - exact HN.
  - apply HB.
  - apply HI.
  - apply HS.
  - apply HL. induction l as [|x l IHl]; constructor; [apply IH | exact IHl].
  - apply HD. induction kv as [|[k v] kv IHkv]; constructor; [apply IH | exact IHkv].
Qed.

Lemma unescape_str_unquoted s : quoted s = false -> unescape_str s = s.
Proof. unfold quoted, unescape_str. intros ->. reflexivity. Qed.

(** X12. A document none of whose strings is quoted goes through the pass
    unchanged, whatever the version attribute is. *)
Theorem unescape_eventlog_unquoted tools_version log :
  no_quoted_leaf log = true -> __unescape_eventlog tools_version log = log.
Proof.
  intros H.
  assert (recursive_unescape log = log) as Hrec.
  { revert H. induction log as [| b | z | s | l IH | kv IH] using Doc_nested_ind;
      intros H; try reflexivity.
    - cbn in *. rewrite unescape_str_unquoted; [reflexivity|].
      destruct (quoted s); [discriminate | reflexivity].
    - cbn [recursive_unescape no_quoted_leaf] in *. f_equal.
      induction IH as [|x l Hx _ IHl]; [reflexivity|].
      cbn in H. apply andb_prop in H as [H1 H2]. cbn. rewrite (Hx H1), (IHl H2). reflexivity.
    - cbn [recursive_unescape no_quoted_leaf] in *. f_equal.
      induction IH as [|[k v] kv Hx _ IHkv]; [reflexivity|].
      cbn in H. apply andb_prop in H as [H1 H2]. cbn in *.
      rewrite (Hx H1), (IHkv H2). reflexivity. }
  unfold __unescape_eventlog. destruct (existsb _ _); [reflexivity|].
  destruct log; try reflexivity; exact Hrec.
Qed.

(** The pass keeps the keys of a dict and acts on the values only. *)
Lemma recursive_unescape_dict_get k kv :
  dict_get k (map (fun e => let '(key, value) := e in (key, recursive_unescape value)) kv)
  = recursive_unescape <$> dict_get k kv.
Proof.
  induction kv as [|[k' v] kv IH]; [reflexivity|]. cbn.
  destruct (key_eqb k' k); [reflexivity | exact IH].
Qed.

(** X13. Looking an entry up in the unescaped log gives the unescaped entry
    of the log: keys are never rewritten, integers, booleans and None are
    left alone. *)
Theorem unescape_eventlog_lookup tools_version kv k :
  existsb (String.eqb tools_version) ["3.2"; "4.0"; "4.2"] = false ->
  exists kv',
    __unescape_eventlog tools_version (DDict kv) = DDict kv'
    /\ map fst kv' = map fst kv
    /\ dict_get k kv' = recursive_unescape <$> dict_get k kv
    /\ (forall z, dict_get k kv = Some (DInt z) -> dict_get k kv' = Some (DInt z)).
Proof.
  intros Hver. unfold __unescape_eventlog. rewrite Hver. cbn [recursive_unescape].
  eexists. split; [reflexivity|]. split; [|split].
  - rewrite map_map. apply map_ext. intros [a b]. reflexivity.
  - apply recursive_unescape_dict_get.
  - intros z Hz. rewrite recursive_unescape_dict_get, Hz. reflexivity.
Qed.

Lemma replace_from_first_char_free a p new s :
  char_free a s = true -> Py.replace_from (String a p) new 0 s = s.
Proof.
  induction s as [|c t IH]; [reflexivity|]. cbn [char_free].
  intros [Hc Ht]%andb_prop. rewrite replace_from_emit.
  - rewrite (IH Ht). reflexivity.
  - cbn [Py.startswith]. rewrite Ascii.eqb_sym.
    destruct (Ascii.eqb c a); [discriminate | reflexivity].
Qed.

(** X14. A quoted string without backslash comes out without its quotes and
    without trailing NUL characters, otherwise as it is. *)
Theorem unescape_str_plain s :
  char_free BACKSLASH s = true ->
  unescape_str (String DQUOTE (s +:+ chr DQUOTE)) = Py.rstrip NUL s.
Proof.
  intros Hs. unfold unescape_str.
  cbn [Py.startswith_char]. rewrite Ascii.eqb_refl.
  change (String DQUOTE (s +:+ chr DQUOTE)) with (String DQUOTE s +:+ chr DQUOTE) at 1.
  rewrite endswith_char_snoc. cbn [andb].
  unfold Py.slice_1_m1. cbn [Py.tail]. rewrite drop_last_snoc.
  unfold escaped_chars. cbn [fold_left]. rewrite !replace_esc. unfold esc.
  repeat rewrite (replace_from_first_char_free BACKSLASH _ _ s Hs). reflexivity.
Qed.

Lemma unescape_eventlog_unquoted_witness :
  __unescape_eventlog "5.4"
    (DDict [(KStr "Event", DList [DStr "Microsoft Corporation"; DInt 7])])
  = DDict [(KStr "Event", DList [DStr "Microsoft Corporation"; DInt 7])].
Proof.
  apply (unescape_eventlog_unquoted "5.4"
           (DDict [(KStr "Event", DList [DStr "Microsoft Corporation"; DInt 7])])).
  reflexivity.
Defined.

Lemma unescape_eventlog_lookup_witness :
  exists kv',
    __unescape_eventlog "5.4" (DDict example_log) = DDict kv'
    /\ map fst kv' = map fst example_log
    /\ dict_get (KStr "EventCount") kv'
       = recursive_unescape <$> dict_get (KStr "EventCount") example_log
    /\ (forall z, dict_get (KStr "EventCount") example_log = Some (DInt z) ->
          dict_get (KStr "EventCount") kv' = Some (DInt z)).
Proof.
  apply (unescape_eventlog_lookup "5.4" example_log (KStr "EventCount")).
  reflexivity.
Defined.

Lemma unescape_str_plain_witness :
  unescape_str (String DQUOTE ("grub" +:+ chr DQUOTE)) = Py.rstrip NUL "grub".
Proof.
  apply (unescape_str_plain "grub"). reflexivity.
Defined.

(** ** Lookups after the key normalization pass *)

Lemma last_cons_match {A} (x : A) l :
  last (x :: l) = match last l with Some y => Some y | None => Some x end.
Proof.
  destruct l as [|y l]; [reflexivity|].
  change (last (x :: y :: l)) with (last (y :: l)).
  destruct (last (y :: l)) eqn:E; [reflexivity|].
  exfalso. revert y E. induction l as [|z l IH]; intros y E; [discriminate|].
  exact (IH z E).
Qed.

(** A dict built by successive assignments answers with the last assignment
    to the key. *)
Lemma fold_dict_set_last {A} (key : A -> Key) (val : A -> Doc) l : forall init k,
  dict_get k (fold_left (fun d x => dict_set (key x) (val x) d) l init)
  = match last (List.filter (fun x => key_eqb (key x) k) l) with
    | Some x => Some (val x)
    | None => dict_get k init
    end.
Proof.
  induction l as [|x l IH]; intros init k; [reflexivity|].
  cbn [fold_left List.filter]. rewrite IH.
  destruct (key_eqb (key x) k) eqn:E.
  - rewrite last_cons_match.
    destruct (last (List.filter (fun x => key_eqb (key x) k) l)); [reflexivity|].
    apply key_eqb_eq in E. subst k. apply dict_get_set_eq.
  - destruct (last (List.filter (fun x => key_eqb (key x) k) l)); [reflexivity|].
    apply dict_get_set_ne. intros ->. rewrite key_eqb_refl in E. discriminate.
Qed.

Lemma filter_key_absent k (l : list (Key * Doc)) :
  ~ In k (map fst l) -> List.filter (fun x => key_eqb (fst x) k) l = [].
Proof.
  induction l as [|[k0 v0] l IH]; intros H; [reflexivity|]. cbn.
  destruct (key_eqb k0 k) eqn:E.
  - apply key_eqb_eq in E. subst k0. exfalso. apply H. left; reflexivity.
  - apply IH. intros Hin. apply H. right; exact Hin.
Qed.

Lemma last_filter_NoDup k v (l : list (Key * Doc)) :
  List.NoDup (map fst l) -> dict_get k l = Some v ->
  exists x, last (List.filter (fun x => key_eqb (fst x) k) l) = Some x /\ snd x = v.
Proof.
  induction l as [|[k0 v0] l IH]; intros Hnd H; [discriminate|].
  cbn in H, Hnd |- *. apply List.NoDup_cons_iff in Hnd as [Hnot Hnd].
  destruct (key_eqb k0 k) eqn:E.
  - injection H as <-. apply key_eqb_eq in E. subst k0.
    rewrite (filter_key_absent k l Hnot). exists (k, v0). split; reflexivity.
  - exact (IH Hnd H).
Qed.

(** X15. What [__stringify_pcr_keys] leaves under an algorithm whose value is
    a dict. Looking up a string gives the value of the last cell whose index,
    as a string, is that string: the indices 1 and "1" fall on one key and
    the later cell wins. No integer key is left. *)
Theorem stringify_pcr_keys_lookup kv by_alg alg cs :
  dict_get (KStr "pcrs") kv = Some (DDict by_alg) ->
  List.NoDup (map fst by_alg) ->
  dict_get alg by_alg = Some (DDict cs) ->
  exists kv' by_alg' cs',
    __stringify_pcr_keys (DDict kv) = DDict kv'
    /\ dict_get (KStr "pcrs") kv' = Some (DDict by_alg')
    /\ dict_get alg by_alg' = Some (DDict cs')
    /\ (forall s,
          dict_get (KStr s) cs'
          = snd <$> last (List.filter (fun e => String.eqb (key_str (fst e)) s) cs))
    /\ (forall i, dict_get (KInt i) cs' = None).
Proof.
  intros Hpcrs Hnd Halg. rewrite stringify_pcr_keys_eq, Hpcrs.
  eexists _, _, _. split; [reflexivity|]. split; [apply dict_get_set_eq|].
  rewrite stringify_outer_fold.
  rewrite (fold_dict_set_last (fun x : Key * Doc => fst (fst x, stringify_cells (snd x)))
             (fun x : Key * Doc => snd (fst x, stringify_cells (snd x)))).
  cbn [fst snd].
  destruct (last_filter_NoDup alg (DDict cs) by_alg Hnd Halg) as (x & -> & Hx).
  rewrite Hx. cbn [stringify_cells]. split; [reflexivity|].
  rewrite stringify_cells_fold. split.
  - intros s.
    rewrite (fold_dict_set_last (fun x : Key * Doc => fst (KStr (key_str (fst x)), snd x))
               (fun x : Key * Doc => snd (KStr (key_str (fst x)), snd x))).
    cbn [fst snd key_eqb dict_get].
    destruct (last _) as [e|]; reflexivity.
  - intros i.
    rewrite (fold_dict_set_last (fun x : Key * Doc => fst (KStr (key_str (fst x)), snd x))
               (fun x : Key * Doc => snd (KStr (key_str (fst x)), snd x))).
    cbn [fst snd key_eqb dict_get].
    assert (forall l : list (Key * Doc), List.filter (fun _ => false) l = []) as Hnil
      by (intros l; induction l as [|c l IHl]; [reflexivity | exact IHl]).
    rewrite Hnil. reflexivity.
Qed.

Lemma stringify_pcr_keys_lookup_witness :
  exists kv' by_alg' cs',
    __stringify_pcr_keys
      (DDict [(KStr "pcrs",
               DDict [(KStr "sha256", DDict [(KInt 0, DInt 256); (KStr "0", DInt 7)])])])
    = DDict kv'
    /\ dict_get (KStr "pcrs") kv' = Some (DDict by_alg')
    /\ dict_get (KStr "sha256") by_alg' = Some (DDict cs')
    /\ (forall s,
          dict_get (KStr s) cs'
          = snd <$> last (List.filter (fun e => String.eqb (key_str (fst e)) s)
                            [(KInt 0, DInt 256); (KStr "0", DInt 7)]))
    /\ (forall i, dict_get (KInt i) cs' = None).
Proof.
  apply (stringify_pcr_keys_lookup
           [(KStr "pcrs",
             DDict [(KStr "sha256", DDict [(KInt 0, DInt 256); (KStr "0", DInt 7)])])]
           [(KStr "sha256", DDict [(KInt 0, DInt 256); (KStr "0", DInt 7)])]
           (KStr "sha256") [(KInt 0, DInt 256); (KStr "0", DInt 7)]).
  - reflexivity.
  - repeat constructor. intros [].
  - reflexivity.
Defined.

(** ** Parsing the measured boot log *)

Section ParseFacts.

Context {ImaKeyrings RuntimePolicyType MbPolicy : Type}.
Context (config : Config).
Context (ext : Collaborators ImaKeyrings RuntimePolicyType MbPolicy).
Context (tools_version : string).

Ltac parser_event :=
  right; split; [reflexivity | eexists _, _; split; [|reflexivity]; cbn; tauto].

Lemma parse_binary_bootlog_result log_bin f r :
  parse_binary_bootlog config ext tools_version log_bin = Ret (f, r) ->
  parser_result_ok f r.
Proof.
  unfold parse_binary_bootlog. intros H.
  destruct (run_tpm2_eventlog ext log_bin) as [[retout reterr]|];
    [|injection H as <- <-; parser_event].
  destruct (0 <? String.length reterr)%nat; [injection H as <- <-; parser_event|].
  destruct (yaml_to_dict ext retout) as [d0|]; [|injection H as <- <-; parser_event].
  destruct (import_enrich ext) as [enrich|e]; [|injection H as <- <-; parser_event].
  destruct (__add_boot_aggregate (hashlib_ ext) (__stringify_pcr_keys (enrich d0)))
    as [d|e]; [|discriminate].
  cbn [mbind Exc_bind] in H. injection H as <- <-. left. eexists. split; reflexivity.
Qed.

Lemma _parse_mb_bootlog_result log_b64 f r :
  _parse_mb_bootlog config ext tools_version log_b64 = Ret (f, r) ->
  parser_result_ok f r.
Proof.
  unfold _parse_mb_bootlog. intros H.
  destruct (b64decode_validate ext log_b64) as [log_bin|];
    [|injection H as <- <-; parser_event].
  destruct (parse_binary_bootlog config ext tools_version log_bin) as [[fmb res]|e] eqn:E;
    [|discriminate].
  cbn [mbind Exc_bind] in H.
  apply parse_binary_bootlog_result in E as [(d & -> & ->) | (-> & name & ctx & Hn & ->)].
  - cbn in H. injection H as <- <-. left. eexists. split; reflexivity.
  - cbn in H. injection H as <- <-. right. split; [reflexivity|]. eexists _, _.
    split; [exact Hn | reflexivity].
Qed.

(** After the enrichment passes the [pcrs] entry is absent or a dict:
    anything else made [__add_boot_aggregate] raise. *)
Lemma add_boot_aggregate_pcrs_entry log log' :
  __add_boot_aggregate (hashlib_ ext) log = Ret log' -> pcrs_entry_ok log'.
Proof.
  unfold __add_boot_aggregate. intros H kv' ->.
  destruct log as [| | | | |kv]; try discriminate H.
  destruct (dict_get (KStr "pcrs") kv) as [p|] eqn:E.
  - destruct p as [| | | | |by_alg]; try discriminate H. injection H as <-.
    right. exists by_alg. rewrite !dict_get_set_ne by discriminate. exact E.
  - injection H as <-. left. exact E.
Qed.

Lemma unescape_eventlog_pcrs_entry log :
  pcrs_entry_ok log -> pcrs_entry_ok (__unescape_eventlog tools_version log).
Proof.
  unfold __unescape_eventlog. destruct (existsb _ _); [auto|].
  destruct log as [| | | | l|kv]; auto.
  { intros _ kv' Heq. cbn in Heq. discriminate Heq. }
  intros H kv' Heq. cbn [recursive_unescape] in Heq. injection Heq as <-.
  rewrite recursive_unescape_dict_get.
  destruct (H kv eq_refl) as [-> | (by_alg & ->)]; [left; reflexivity|].
  right. eexists. reflexivity.
Qed.

Lemma parse_binary_bootlog_pcrs_entry log_bin f d :
  parse_binary_bootlog config ext tools_version log_bin = Ret (f, Some d) ->
  pcrs_entry_ok d.
Proof.
  unfold parse_binary_bootlog. intros H.
  destruct (run_tpm2_eventlog ext log_bin) as [[retout reterr]|]; [|discriminate].
  destruct (0 <? String.length reterr)%nat; [discriminate|].
  destruct (yaml_to_dict ext retout) as [d0|]; [|discriminate].
  destruct (import_enrich ext) as [enrich|e]; [|discriminate].
  destruct (__add_boot_aggregate (hashlib_ ext) (__stringify_pcr_keys (enrich d0)))
    as [d1|e] eqn:E; [|discriminate].
  cbn [mbind Exc_bind] in H. injection H as _ <-.
  apply unescape_eventlog_pcrs_entry. eapply add_boot_aggregate_pcrs_entry. exact E.
Qed.

Lemma _parse_mb_bootlog_pcrs_entry log_b64 f d :
  _parse_mb_bootlog config ext tools_version log_b64 = Ret (f, Some d) ->
  pcrs_entry_ok d.
Proof.
  unfold _parse_mb_bootlog. intros H.
  destruct (b64decode_validate ext log_b64) as [log_bin|]; [|discriminate].
  destruct (parse_binary_bootlog config ext tools_version log_bin) as [[fmb res]|e] eqn:E;
    [|discriminate].
  cbn [mbind Exc_bind] in H. destruct (truthy fmb); [discriminate|].
  injection H as _ ->. eapply parse_binary_bootlog_pcrs_entry. exact E.
Qed.

(** X16. What [parse_mb_bootlog] hands back. Its failure belongs to the
    measured boot parser and holds at most one event, flagged True. With a
    failure there is no evidence: no PCR hashes, no boot aggregates, an empty
    document. PCR hashes come back only without failure, and then they are
    the non-empty dict [pcrs.<hash_alg>] of the document returned, together
    with its non-empty [boot_aggregates] dict. *)
Theorem parse_mb_bootlog_evidence mbl hash_alg hashes ba md f :
  parse_mb_bootlog config ext tools_version mbl hash_alg = Ret (hashes, ba, md, f) ->
  f_component f = MEASURED_BOOT
  /\ f_sub_components f = ["parser"]
  /\ (events f = []
      \/ exists e, events f = [e] /\ recoverable e = true /\ component e = MEASURED_BOOT
                   /\ sub_components e = ["parser"])
  /\ (truthy f = true -> hashes = [] /\ ba = None /\ md = DDict [])
  /\ (hashes <> [] ->
      events f = []
      /\ exists kv by_alg aggs,
           md = DDict kv
           /\ dict_get (KStr "pcrs") kv = Some (DDict by_alg)
           /\ dict_get (KStr (hash_name hash_alg)) by_alg = Some (DDict hashes)
           /\ ba = Some (DDict aggs) /\ aggs <> []
           /\ dict_get (KStr "boot_aggregates") kv = Some (DDict aggs)).
Proof.
  unfold parse_mb_bootlog. intros H.
  set (shape := fun g : Failure =>
         f_component g = MEASURED_BOOT /\ f_sub_components g = ["parser"]
         /\ (events g = []
             \/ exists e, events g = [e] /\ recoverable e = true /\ component e = MEASURED_BOOT
                          /\ sub_components e = ["parser"])).
  assert (shape (failure.new MEASURED_BOOT ["parser"])) as Hnew.
  { repeat split. left; reflexivity. }
  assert (forall name ctx,
            shape (add_event (failure.new MEASURED_BOOT ["parser"]) name ctx true)) as Hone.
  { intros name ctx. repeat split. right. eexists. repeat split. }
  assert (forall g r, parser_result_ok g r ->
            shape (merge (failure.new MEASURED_BOOT ["parser"]) g)) as Hmerge.
  { intros g r [(d & _ & ->) | (_ & name & ctx & _ & ->)]; [apply Hnew | apply Hone]. }
  assert (forall g, shape g ->
            Ret ([], None, DDict [], g) = Ret (hashes, ba, md, f) ->
            f_component f = MEASURED_BOOT
            /\ f_sub_components f = ["parser"]
            /\ (events f = []
                \/ exists e, events f = [e] /\ recoverable e = true /\ component e = MEASURED_BOOT
                             /\ sub_components e = ["parser"])
            /\ (truthy f = true -> hashes = [] /\ ba = None /\ md = DDict [])
            /\ (hashes <> [] ->
                events f = []
                /\ exists kv by_alg aggs,
                     md = DDict kv
                     /\ dict_get (KStr "pcrs") kv = Some (DDict by_alg)
                     /\ dict_get (KStr (hash_name hash_alg)) by_alg = Some (DDict hashes)
                     /\ ba = Some (DDict aggs) /\ aggs <> []
                     /\ dict_get (KStr "boot_aggregates") kv = Some (DDict aggs))) as Hfail.
  { intros g (A & B & C) [= <- <- <- <-]. repeat split; try assumption; congruence. }
  destruct mbl as [[|c l]|]; [exact (Hfail _ Hnew H) | | exact (Hfail _ Hnew H)].
  destruct (_parse_mb_bootlog config ext tools_version (String c l)) as [[fmb res]|e] eqn:E;
    [|discriminate].
  cbn [mbind Exc_bind] in H.
  apply _parse_mb_bootlog_result in E. pose proof (Hmerge _ _ E) as Hm.
  destruct res as [d|]; [|exact (Hfail _ Hm H)].
  destruct (doc_truthy d) eqn:Ht; cbn [negb] in H; [|exact (Hfail _ Hm H)].
  destruct E as [(d' & [= <-] & ->) | ([=] & _)].
  destruct d as [| | | | |kv]; try discriminate H.
  cbn [doc_get mbind Exc_bind] in H.
  destruct (dict_get (KStr "pcrs") kv) as [log_pcrs|] eqn:Epcrs; cbn [default from_option id] in H;
    [|exact (Hfail _ (Hone _ _) H)].
  destruct log_pcrs as [| | | | |by_alg]; cbn [is_dict negb] in H;
    try exact (Hfail _ (Hone _ _) H).
  cbn [doc_get mbind Exc_bind] in H.
  destruct (dict_get (KStr (hash_name hash_alg)) by_alg) as [pcr_hashes|] eqn:Eh;
    cbn [default from_option id] in H; [|exact (Hfail _ (Hone _ _) H)].
  destruct pcr_hashes as [| | | | |[|h0 hs]]; try exact (Hfail _ (Hone _ _) H).
  cbn [mbind Exc_bind] in H.
  destruct (dict_get (KStr "boot_aggregates") kv) as [aggs|] eqn:Ea; cbn [default from_option id] in H;
    [|exact (Hfail _ (Hone _ _) H)].
  destruct aggs as [| | | | |[|a0 as_]]; try exact (Hfail _ (Hone _ _) H).
  injection H as <- <- <- <-. cbn.
  split; [reflexivity|]. split; [reflexivity|]. split; [left; reflexivity|].
  split; [discriminate|]. intros _. split; [reflexivity|].
  exists kv, by_alg, (a0 :: as_). repeat split; try assumption. discriminate.
Qed.

(** X17. The event [invalid_pcrs] always reports [None]. It is only added
    when the document has no [pcrs] entry: an entry that is there and is not a
    dict made [__add_boot_aggregate] raise before, so the check of
    [parse_mb_bootlog] never gets to report such a value. *)
Theorem parse_mb_bootlog_invalid_pcrs_reports_none mbl hash_alg hashes ba md f e :
  parse_mb_bootlog config ext tools_version mbl hash_alg = Ret (hashes, ba, md, f) ->
  In e (events f) ->
  event_id e = "invalid_pcrs" ->
  e = mkEvent MEASURED_BOOT ["parser"] "invalid_pcrs" (CtxDict [("got", VDoc DNone)]) true.
Proof.
  unfold parse_mb_bootlog. intros H Hin Hid.
  destruct mbl as [[|c l]|];
    [injection H as <- <- <- <-; destruct Hin | | injection H as <- <- <- <-; destruct Hin].
  destruct (_parse_mb_bootlog config ext tools_version (String c l)) as [[fmb res]|e0] eqn:E;
    [|discriminate].
  cbn [mbind Exc_bind] in H.
  pose proof (_parse_mb_bootlog_result _ _ _ E) as Hres.
  assert (forall g, Ret ([], None, DDict [],
                         merge (failure.new MEASURED_BOOT ["parser"]) fmb) = Ret g ->
                    g = (hashes, ba, md, f) -> False) as Hparser.
  { intros g [= <-] [= <- <- <- <-].
    destruct Hres as [(d & _ & ->) | (_ & name & ctx & Hn & ->)]; [destruct Hin|].
    destruct Hin as [<- | []]. cbn in Hid. subst name.
    cbn in Hn. intuition discriminate. }
  destruct res as [d|]; [|destruct (Hparser _ H eq_refl)].
  destruct (doc_truthy d) eqn:Ht; cbn [negb] in H; [|destruct (Hparser _ H eq_refl)].
  pose proof (_parse_mb_bootlog_pcrs_entry _ _ _ E) as Hentry.
  destruct d as [| | | | |kv]; try discriminate H.
  cbn [doc_get mbind Exc_bind] in H.
  destruct (Hentry kv eq_refl) as [Hnone | (by_alg & Hsome)].
  - rewrite Hnone in H. cbn in H. injection H as <- <- <- <-.
    destruct Hin as [<- | []]. reflexivity.
  - rewrite Hsome in H. cbn [default from_option id is_dict negb doc_get mbind Exc_bind] in H.
    destruct (default DNone (dict_get (KStr (hash_name hash_alg)) by_alg))
      as [| | | | |[|h0 hs]];
      try (injection H as <- <- <- <-; destruct Hin as [<- | []]; discriminate Hid).
    cbn [mbind Exc_bind] in H.
    destruct (default DNone (dict_get (KStr "boot_aggregates") kv))
      as [| | | | |[|a0 as_]];
      try (injection H as <- <- <- <-; destruct Hin as [<- | []]; discriminate Hid).
    injection H as <- <- <- <-. destruct Hin.
Qed.


(** X19. A measurement list that decodes to an empty document is taken for
    no measurement list at all: the parser hands back what it hands back for
    [None], without any failure. *)
Theorem parse_mb_bootlog_empty_document c l hash_alg log_bin retout d0 enrich :
  b64decode_validate ext (String c l) = Some log_bin ->
  run_tpm2_eventlog ext log_bin = Some (retout, EmptyString) ->
  yaml_to_dict ext retout = Some d0 ->
  import_enrich ext = Ret enrich ->
  doc_truthy (enrich d0) = false ->
  parse_mb_bootlog config ext tools_version (Some (String c l)) hash_alg
  = parse_mb_bootlog config ext tools_version None hash_alg
  /\ parse_mb_bootlog config ext tools_version None hash_alg
     = Ret ([], None, DDict [], failure.new MEASURED_BOOT ["parser"]).
Proof.
  intros Hb Hr Hy Hi Ht. split; [|reflexivity].
  unfold parse_mb_bootlog, _parse_mb_bootlog, parse_binary_bootlog.
  rewrite Hb, Hr. cbn [String.length Nat.ltb Nat.leb]. rewrite Hy, Hi.
  unfold __unescape_eventlog.
  destruct (existsb _ _);
    destruct (enrich d0) as [|b|z|s|[|x xs]|[|x xs]]; try discriminate Ht;
    cbn in *; rewrite ?Ht; try reflexivity;
    destruct s; try discriminate Ht; reflexivity.
Qed.

End ParseFacts.

Lemma parse_mb_bootlog_evidence_witness :
  let r := ret_or ([], None, DDict [], failure.new MEASURED_BOOT ["parser"])
             (parse_mb_bootlog example_config (example_parser_ext (DDict example_log)) "5.4"
                (Some "log") example_hash) in
  f_component r.2 = MEASURED_BOOT
  /\ f_sub_components r.2 = ["parser"]
  /\ (events r.2 = []
      \/ exists e, events r.2 = [e] /\ recoverable e = true /\ component e = MEASURED_BOOT
                   /\ sub_components e = ["parser"])
  /\ (truthy r.2 = true -> r.1.1.1 = [] /\ r.1.1.2 = None /\ r.1.2 = DDict [])
  /\ (r.1.1.1 <> [] ->
      events r.2 = []
      /\ exists kv by_alg aggs,
           r.1.2 = DDict kv
           /\ dict_get (KStr "pcrs") kv = Some (DDict by_alg)
           /\ dict_get (KStr (hash_name example_hash)) by_alg = Some (DDict r.1.1.1)
           /\ r.1.1.2 = Some (DDict aggs) /\ aggs <> []
           /\ dict_get (KStr "boot_aggregates") kv = Some (DDict aggs)).
Proof.
  intros r.
  apply (parse_mb_bootlog_evidence example_config (example_parser_ext (DDict example_log))
           "5.4" (Some "log") example_hash r.1.1.1 r.1.1.2 r.1.2 r.2).
  vm_compute. reflexivity.
Defined.

Lemma parse_mb_bootlog_invalid_pcrs_reports_none_witness :
  let r := ret_or ([], None, DDict [], failure.new MEASURED_BOOT ["parser"])
             (parse_mb_bootlog example_config
                (example_parser_ext (DDict [(KStr "EventCount", DInt 1)])) "5.4"
                (Some "log") example_hash) in
  exists e,
    In e (events r.2)
    /\ e = mkEvent MEASURED_BOOT ["parser"] "invalid_pcrs" (CtxDict [("got", VDoc DNone)]) true.
Proof.
  intros r.
  exists (mkEvent MEASURED_BOOT ["parser"] "invalid_pcrs" (CtxDict [("got", VDoc DNone)]) true).
  assert (In (mkEvent MEASURED_BOOT ["parser"] "invalid_pcrs"
                (CtxDict [("got", VDoc DNone)]) true) (events r.2)) as Hin
    by (vm_compute; left; reflexivity).
  split; [exact Hin|].
  apply (parse_mb_bootlog_invalid_pcrs_reports_none example_config
           (example_parser_ext (DDict [(KStr "EventCount", DInt 1)])) "5.4" (Some "log")
           example_hash r.1.1.1 r.1.1.2 r.1.2 r.2).
  - vm_compute. reflexivity.
  - exact Hin.
  - reflexivity.
Defined.


Lemma parse_mb_bootlog_empty_document_witness :
  parse_mb_bootlog example_config (example_parser_ext (DDict [])) "5.4" (Some "log")
    example_hash
  = parse_mb_bootlog example_config (example_parser_ext (DDict [])) "5.4" None example_hash
  /\ parse_mb_bootlog example_config (example_parser_ext (DDict [])) "5.4" None example_hash
     = Ret ([], None, DDict [], failure.new MEASURED_BOOT ["parser"]).
Proof.
  apply (parse_mb_bootlog_empty_document example_config (example_parser_ext (DDict [])) "5.4"
           "l"%char "og" example_hash [] EmptyString (DDict []) (fun d => d));
    reflexivity.
Defined.

(** ** More on the PCR evaluator *)

Lemma events_add_event_nil f name ctx flag : events (add_event f name ctx flag) <> [].
Proof. cbn. destruct (events f); discriminate. Qed.

Lemma events_merge_nil f g : events (merge f g) = [] -> events f = [] /\ events g = [].
Proof. cbn. destruct (events f); [auto | discriminate]. Qed.

Lemma extends_quiet st st' :
  extends_state st st' -> events (st_failure st') = [] -> events (st_failure st) = [].
Proof.
  intros ([m H] & _) E. rewrite E in H. destruct (events (st_failure st)); [reflexivity|].
  discriminate H.
Qed.

Section PcrEvaluatorMore.

Context {ImaKeyrings RuntimePolicyType MbPolicy : Type}.
Context (config : Config).
Context (ext : Collaborators ImaKeyrings RuntimePolicyType MbPolicy).
Context (tools_version : string).

Lemma check_pcrs_inv agent tpm_policy pcrs_dict data iml rp kr mbl mbr hash_alg f :
  check_pcrs config ext tools_version agent tpm_policy pcrs_dict data iml rp kr
    mbl mbr hash_alg = Ret f ->
  exists tr,
    check_pcrs_trace config ext tools_version agent tpm_policy pcrs_dict data iml rp kr
      mbl mbr hash_alg = Ret tr
    /\ f = st_failure (after_policy tr).
Proof.
  unfold check_pcrs. intros H. bind_inv H. injection H as <-. eauto.
Qed.

Lemma data_pcr_step_quiet hash_alg pcrs_dict data st :
  events (st_failure (data_pcr_step config hash_alg pcrs_dict data st)) = [] ->
  exists q d,
    pcrs_dict !! TPM_DATA_PCR config = Some q /\ data = Some d
    /\ sim_extend d hash_alg = q.
Proof.
  unfold data_pcr_step. intros H.
  destruct (pcrs_dict !! TPM_DATA_PCR config) as [q|], data as [d|];
    try (apply events_add_event_nil in H; destruct H).
  destruct (String.eqb (sim_extend d hash_alg) q) eqn:E; cbn [negb st_failure] in H.
  - apply String.eqb_eq in E. eauto.
  - apply events_add_event_nil in H; destruct H.
Qed.

Lemma ima_pcr_step_quiet agent hash_alg pcrs_dict iml rp kr ba st st' :
  ima_pcr_step config ext agent hash_alg pcrs_dict iml rp kr ba st = Ret st' ->
  events (st_failure st') = [] ->
  forall v, pcrs_dict !! IMA_PCR config = Some v ->
    exists l imaf,
      iml = Some l
      /\ process_measurement_list ext agent (Py.split "010"%char l) rp v kr ba hash_alg
         = Ret imaf
      /\ events imaf = [].
Proof.
  unfold ima_pcr_step. intros H Hq v Hv. rewrite Hv in H.
  bind_inv H. injection H as <-. cbn [st_failure] in Hq.
  destruct iml as [l|].
  - unfold __check_ima in Hstep. bind_inv Hstep. bind_inv Hstep0.
    injection Hstep0 as <-. injection Hstep as <-.
    apply events_merge_nil in Hq as [_ Hq]. apply events_merge_nil in Hq as [_ Hq].
    eauto.
  - injection Hstep as <-. apply events_add_event_nil in Hq; destruct Hq.
Qed.

Lemma mb_pcr_body_pcr_failure pcrs_dict allow mbl (ev : MbEvidence MbPolicy) st n st' :
  mb_pcr_body pcrs_dict allow mbl ev st n = Ret st' ->
  exists more, events (mbl_pcr_failure st') = (events (mbl_pcr_failure st) ++ more)%list.
Proof.
  unfold mb_pcr_body. intros H.
  destruct (doc_truthy _); [|injection H as <-; exists []; symmetry; apply app_nil_r].
  destruct (negb (optstr_truthy mbl));
    [injection H as <-; exists []; symmetry; apply app_nil_r|].
  bind_inv H. bind_inv H. injection H as <-. cbn [mbl_pcr_failure].
  destruct (negb _); [eexists; reflexivity | exists []; symmetry; apply app_nil_r].
Qed.

Lemma mb_loop_pcr_failure pcrs_dict allow mbl (ev : MbEvidence MbPolicy) l : forall st st',
  for_each (mb_pcr_body pcrs_dict allow mbl ev) l st = Ret st' ->
  exists more, events (mbl_pcr_failure st') = (events (mbl_pcr_failure st) ++ more)%list.
Proof.
  induction l as [|n l IH]; intros st st' H; cbn [for_each] in H.
  - injection H as <-. exists []. symmetry; apply app_nil_r.
  - bind_inv H. apply mb_pcr_body_pcr_failure in Hstep as [m1 H1].
    apply IH in H as [m2 H2]. exists (m1 ++ m2)%list. rewrite H2, H1, app_assoc. reflexivity.
Qed.

Lemma mb_pcr_body_quiet pcrs_dict allow mbl (ev : MbEvidence MbPolicy) st n st' :
  mb_pcr_body pcrs_dict allow mbl ev st n = Ret st' ->
  doc_truthy (mb_refstate_data ev) = true ->
  events (mbl_failure st') = [] ->
  events (mbl_pcr_failure st') = [] ->
  optstr_truthy mbl = true
  /\ mb_pcr_accepted pcrs_dict allow (mb_pcrs_hashes ev) n
  /\ mbl_claimed st' = {[n]} ∪ mbl_claimed st.
Proof.
  unfold mb_pcr_body. intros H Href Hf Hp. rewrite Href in H.
  destruct (optstr_truthy mbl); cbn [negb] in H;
    [|injection H as <-; apply events_add_event_nil in Hf; destruct Hf].
  bind_inv H. rename a into v. bind_inv H. rename a into q. injection H as <-.
  cbn [mbl_failure mbl_pcr_failure mbl_claimed] in *.
  split; [reflexivity|]. split; [|reflexivity].
  exists v, q.
  destruct (as_int _) as [v'|]; [|discriminate]. injection Hstep as ->.
  destruct (pcrs_dict !! n) as [q'|]; [|discriminate]. injection Hstep0 as ->.
  split; [reflexivity|]. split; [reflexivity|]. split.
  - destruct (String.eqb _ _) eqn:E; [apply String.eqb_eq in E; exact E|].
    apply events_add_event_nil in Hp; destruct Hp.
  - intros allowed Ha. rewrite Ha in Hf.
    destruct (policy_contains allowed q); [reflexivity|].
    apply events_add_event_nil in Hf; destruct Hf.
Qed.

Lemma mb_loop_quiet pcrs_dict allow mbl (ev : MbEvidence MbPolicy) l : forall st st',
  for_each (mb_pcr_body pcrs_dict allow mbl ev) l st = Ret st' ->
  doc_truthy (mb_refstate_data ev) = true ->
  events (mbl_failure st') = [] ->
  events (mbl_pcr_failure st') = [] ->
  (forall n, In n l ->
     optstr_truthy mbl = true /\ mb_pcr_accepted pcrs_dict allow (mb_pcrs_hashes ev) n)
  /\ mbl_claimed st' = list_to_set l ∪ mbl_claimed st.
Proof.
  induction l as [|n l IH]; intros st st' H Href Hf Hp; cbn [for_each] in H.
  - injection H as <-. split; [intros n []|]. set_solver.
  - bind_inv H. rename a into st1.
    destruct (mb_loop_extends _ _ _ _ _ _ _ H) as ([m1 E1] & _).
    destruct (mb_loop_pcr_failure _ _ _ _ _ _ _ H) as [m2 E2].
    rewrite Hf in E1. rewrite Hp in E2.
    assert (events (mbl_failure st1) = []) as Hf1
      by (destruct (events (mbl_failure st1)); [reflexivity | discriminate]).
    assert (events (mbl_pcr_failure st1) = []) as Hp1
      by (destruct (events (mbl_pcr_failure st1)); [reflexivity | discriminate]).
    destruct (mb_pcr_body_quiet _ _ _ _ _ _ _ Hstep Href Hf1 Hp1) as (Hm & Hacc & Hc).
    destruct (IH _ _ H Href Hf Hp) as (Hall & Hc').
    split.
    + intros n' [<- | Hin]; [split; assumption | apply Hall, Hin].
    + rewrite Hc', Hc. set_solver.
Qed.

Lemma mb_pcrs_step_quiet pcrs_dict allow mbl (ev : MbEvidence MbPolicy) st st' :
  mb_pcrs_step config pcrs_dict allow mbl ev st = Ret st' ->
  events (mb_failure ev) = [] ->
  events (st_failure st') = [] ->
  if doc_truthy (mb_refstate_data ev) then
    (forall n, n ∈ MEASUREDBOOT_PCRS config -> n ∈ dom pcrs_dict ->
       optstr_truthy mbl = true /\ mb_pcr_accepted pcrs_dict allow (mb_pcrs_hashes ev) n)
    /\ pcrs_in_quote st'
       = (list_to_set (MEASUREDBOOT_PCRS config) ∩ dom pcrs_dict) ∪ pcrs_in_quote st
  else pcrs_in_quote st' = pcrs_in_quote st.
Proof.
  unfold mb_pcrs_step. intros H Hmb Hq. unfold truthy in H. rewrite Hmb in H.
  cbn [negb] in H. bind_inv H. rename a into loop. injection H as <-.
  cbn [st_failure pcrs_in_quote] in *. apply events_merge_nil in Hq as [Hf Hp].
  destruct (doc_truthy (mb_refstate_data ev)) eqn:Href.
  - destruct (mb_loop_quiet _ _ _ _ _ _ _ Hstep Href Hf Hp) as (Hall & Hc).
    cbn [mbl_claimed] in Hc. split.
    + intros n Hn Hd. apply Hall. apply list_elem_of_In, elem_of_elements.
      apply elem_of_intersection. split; [apply elem_of_list_to_set; exact Hn | exact Hd].
    + rewrite Hc, list_to_set_elements_L. reflexivity.
  - rewrite mb_loop_without_refstate in Hstep by exact Href. injection Hstep as <-.
    reflexivity.
Qed.

(** The residual pass on a list of indices of the quote: it returns, and
    adds the events of [residual_event] in the order of the list. *)
Lemma residual_loop_events pcrs_dict allow l : forall st,
  (forall n, In n l -> n ∈ dom pcrs_dict) ->
  exists st',
    for_each (residual_body pcrs_dict allow) l st = Ret st'
    /\ events (st_failure st')
       = (events (st_failure st)
          ++ omap (residual_event pcrs_dict allow (f_component (st_failure st))
                     (f_sub_components (st_failure st))) l)%list.
Proof.
  induction l as [|n l IH]; intros st Hin.
  - eexists. split; [reflexivity|]. symmetry; apply app_nil_r.
  - assert (n ∈ dom pcrs_dict) as Hn by (apply Hin; left; reflexivity).
    apply elem_of_dom in Hn as [q Hq].
    assert (forall n, In n l -> n ∈ dom pcrs_dict) as Hin' by (intros m Hm; apply Hin; right; exact Hm).
    destruct (allow !! n) as [allowed|] eqn:Ea.
    + destruct (policy_contains allowed q) eqn:Ec.
      * assert (residual_body pcrs_dict allow st n
                = Ret (mkPcrState (st_failure st) ({[n]} ∪ pcrs_in_quote st))) as Hbody.
        { unfold residual_body. rewrite Ea, Hq. cbn. rewrite Ec. reflexivity. }
        destruct (IH (mkPcrState (st_failure st) ({[n]} ∪ pcrs_in_quote st)) Hin')
          as (st' & Hrun & Hev). exists st'.
        split; [erewrite for_each_cons_Ret by exact Hbody; exact Hrun|].
        rewrite Hev. cbn [st_failure omap list_omap]. unfold residual_event at 2.
        rewrite Ea, Hq, Ec. reflexivity.
      * assert (residual_body pcrs_dict allow st n
                = Ret (mkPcrState
                         (add_event (st_failure st) (pcr_name "invalid_pcr_" n)
                            (CtxDict [("context", VStr "PCR value is not in allowlist");
                                      ("got", VStr q); ("expected", policy_ctx allowed)]) true)
                         ({[n]} ∪ pcrs_in_quote st))) as Hbody.
        { unfold residual_body. rewrite Ea, Hq. cbn. rewrite Ec. reflexivity. }
        destruct (IH (mkPcrState
                        (add_event (st_failure st) (pcr_name "invalid_pcr_" n)
                           (CtxDict [("context", VStr "PCR value is not in allowlist");
                                     ("got", VStr q); ("expected", policy_ctx allowed)]) true)
                        ({[n]} ∪ pcrs_in_quote st)) Hin')
          as (st' & Hrun & Hev). exists st'.
        split; [erewrite for_each_cons_Ret by exact Hbody; exact Hrun|].
        rewrite Hev. cbn [st_failure omap list_omap add_event events f_component
                          f_sub_components].
        unfold residual_event at 2. rewrite Ea, Hq, Ec. rewrite <- app_assoc. reflexivity.
    + assert (residual_body pcrs_dict allow st n = Ret st) as Hbody.
      { unfold residual_body. rewrite Ea. reflexivity. }
      destruct (IH st Hin') as (st' & Hrun & Hev). exists st'.
      split; [erewrite for_each_cons_Ret by exact Hbody; exact Hrun|].
      rewrite Hev. cbn [omap list_omap]. unfold residual_event at 2. rewrite Ea. reflexivity.
Qed.

Lemma missing_step_claimed allow st :
  pcrs_in_quote (missing_step allow st) = pcrs_in_quote st.
Proof. unfold missing_step. destruct (0 <? size _)%nat; reflexivity. Qed.

Lemma missing_step_quiet allow st :
  events (st_failure (missing_step allow st)) = [] -> dom allow ⊆ pcrs_in_quote st.
Proof.
  unfold missing_step. intros H.
  destruct (0 <? size (dom allow ∖ pcrs_in_quote st))%nat eqn:E;
    [apply events_add_event_nil in H; destruct H|].
  apply Nat.ltb_ge in E.
  assert (dom allow ∖ pcrs_in_quote st ≡ ∅) as Hempty by (apply size_empty_iff; lia).
  intros x Hx. destruct (decide (x ∈ pcrs_in_quote st)) as [Hc|Hc]; [exact Hc|].
  exfalso. set_solver.
Qed.

Lemma mb_policy_step_quiet agent (ev : MbEvidence MbPolicy) st st' :
  mb_policy_step ext agent ev st = Ret st' ->
  events (mb_failure ev) = [] ->
  events (st_failure st') = [] ->
  doc_truthy (mb_refstate_data ev) = true ->
  exists mbpf,
    evaluate_policy ext (mb_policy ev) (mb_policy_name ev) (mb_refstate_data ev)
      (mb_measurement_data ev) (pcrs_in_quote st) (agent_id agent) = Ret mbpf
    /\ events mbpf = [].
Proof.
  unfold mb_policy_step. intros H Hmb Hq Href. unfold truthy in H.
  rewrite Hmb, Href in H. cbn [negb andb] in H. bind_inv H. injection H as <-.
  cbn [st_failure] in Hq. apply events_merge_nil in Hq as [_ Hq]. eauto.
Qed.

(** X20. An empty report means that every check was made and passed. The
    policy, the measured boot policy and the log were read, the log without
    failure; the data PCR is quoted and is the extension of the bound data; a
    quoted IMA PCR came with a measurement list in which the IMA evaluation
    found nothing; every index of the allowlist is quoted, with an allowed
    value unless it is the data or IMA PCR; and, with a reference state, every
    quoted measured boot PCR came with a measurement list, agrees with the log
    up to leading zeros and is allowed if listed, and the policy evaluation
    found nothing. *)
Theorem check_pcrs_empty_report agent tpm_policy pcrs_dict data iml rp kr mbl mbr hash_alg f :
  check_pcrs config ext tools_version agent tpm_policy pcrs_dict data iml rp kr
    mbl mbr hash_alg = Ret f ->
  truthy f = false ->
  exists allow pol name refdata hashes ba md mbf,
    normalize_policy ext tpm_policy = Ret allow
    /\ get_policy ext mbr = Ret (pol, name, refdata)
    /\ parse_mb_bootlog config ext tools_version mbl hash_alg = Ret (hashes, ba, md, mbf)
    /\ events mbf = []
    /\ (exists q d, pcrs_dict !! TPM_DATA_PCR config = Some q /\ data = Some d
                    /\ sim_extend d hash_alg = q)
    /\ (forall v, pcrs_dict !! IMA_PCR config = Some v ->
          exists l imaf,
            iml = Some l
            /\ process_measurement_list ext agent (Py.split "010"%char l) rp v kr ba hash_alg
               = Ret imaf
            /\ events imaf = [])
    /\ dom allow ⊆ dom pcrs_dict
    /\ (forall n allowed q,
          allow !! n = Some allowed -> pcrs_dict !! n = Some q ->
          n <> TPM_DATA_PCR config -> n <> IMA_PCR config ->
          policy_contains allowed q = true)
    /\ (doc_truthy refdata = true ->
          (forall n, n ∈ MEASUREDBOOT_PCRS config -> n ∈ dom pcrs_dict ->
             optstr_truthy mbl = true /\ mb_pcr_accepted pcrs_dict allow hashes n)
          /\ exists claimed mbpf,
               evaluate_policy ext pol name refdata md claimed (agent_id agent) = Ret mbpf
               /\ events mbpf = []
               /\ dom allow ⊆ claimed /\ claimed ⊆ dom pcrs_dict).
Proof.
  intros H Hquiet.
  apply check_pcrs_inv in H as (tr & Htr & ->).
  assert (events (st_failure (after_policy tr)) = []) as E6.
  { unfold truthy in Hquiet. destruct (events _); [reflexivity | discriminate]. }
  pose proof (claimed_in_quote _ _ _ _ _ _ _ _ _ _ _ _ _ _ Htr) as Hclaimed3.
  destruct (check_pcrs_trace_extends _ _ _ _ _ _ _ _ _ _ _ _ _ _ Htr)
    as (X1 & X2 & X3 & X4 & X5 & X6).
  pose proof (extends_quiet _ _ X6 E6) as E5.
  pose proof (extends_quiet _ _ X5 E5) as E4.
  pose proof (extends_quiet _ _ X4 E4) as E3.
  pose proof (extends_quiet _ _ X3 E3) as E2.
  pose proof (extends_quiet _ _ X2 E2) as E1.
  pose proof (extends_quiet _ _ X1 E1) as E0.
  apply check_pcrs_trace_steps in Htr
    as ([pol name refdata hashes ba md mbf] & Hallow & Hpol & Hparse & H0 & Hd & Hi & Hm
        & Hr & Hmi & Hp).
  cbn [mb_policy mb_policy_name mb_refstate_data mb_pcrs_hashes boot_aggregates
       mb_measurement_data mb_failure] in *.
  set (allow := pcr_allowlist tr) in *.
  assert (events mbf = []) as Hmbf.
  { rewrite H0 in E0. cbn [st_failure] in E0. apply events_merge_nil in E0. tauto. }
  rewrite Hd in E1. pose proof (data_pcr_step_quiet _ _ _ _ E1) as Hdata.
  pose proof (ima_pcr_step_quiet _ _ _ _ _ _ _ _ _ Hi E2) as Hima.
  pose proof (mb_pcrs_step_quiet _ _ _ _ _ _ Hm Hmbf E3) as Hmbq.
  cbn [mb_refstate_data mb_pcrs_hashes] in Hmbq.
  pose proof (residual_step_extends _ _ _ _ Hr) as [_ Hc4].
  rewrite Hmi in E5. pose proof (missing_step_quiet _ _ E5) as Hmiss.
  assert (pcrs_in_quote (after_residual tr) ⊆ dom pcrs_dict) as Hclaimed4.
  { rewrite Hc4. clear -Hclaimed3. set_solver. }
  (* the indices claimed before the measured boot loop *)
  assert (pcrs_in_quote (after_ima tr) ⊆ {[TPM_DATA_PCR config; IMA_PCR config]}) as Hc2.
  { rewrite (ima_pcr_step_claimed _ _ _ _ _ _ _ _ _ _ _ Hi), Hd, data_pcr_step_claimed, H0.
    cbn [pcrs_in_quote]. clear. repeat case_decide; set_solver. }
  (* the residual pass added no event *)
  assert (forall n, n ∈ dom pcrs_dict -> n ∉ pcrs_in_quote (after_mb tr) ->
                    residual_event pcrs_dict allow
                      (f_component (st_failure (after_mb tr)))
                      (f_sub_components (st_failure (after_mb tr))) n = None) as Hres.
  { intros n Hn Hnot. unfold residual_step in Hr.
    destruct (residual_loop_events pcrs_dict allow
                (elements (dom pcrs_dict ∖ pcrs_in_quote (after_mb tr))) (after_mb tr))
      as (st' & Hrun & Hev).
    { intros m Hm'. apply list_elem_of_In, elem_of_elements, elem_of_difference in Hm'.
      tauto. }
    rewrite Hrun in Hr. injection Hr as ->. rewrite E4, E3 in Hev. cbn [app] in Hev.
    symmetry in Hev.
    destruct (residual_event pcrs_dict allow _ _ n) as [e|] eqn:Ee; [|reflexivity].
    exfalso.
    assert (e ∈ omap (residual_event pcrs_dict allow
                        (f_component (st_failure (after_mb tr)))
                        (f_sub_components (st_failure (after_mb tr))))
                     (elements (dom pcrs_dict ∖ pcrs_in_quote (after_mb tr)))) as Hin.
    { apply list_elem_of_omap. exists n. split; [|exact Ee].
      apply elem_of_elements, elem_of_difference. split; assumption. }
    rewrite Hev in Hin. inversion Hin. }
  exists allow, pol, name, refdata, hashes, ba, md, mbf.
  split; [exact Hallow|]. split; [exact Hpol|]. split; [exact Hparse|].
  split; [exact Hmbf|]. split; [exact Hdata|]. split; [exact Hima|].
  split; [clear -Hmiss Hclaimed4; set_solver|]. split.
  - intros n allowed q Ha Hq Hnd Hni.
    destruct (decide (n ∈ pcrs_in_quote (after_mb tr))) as [Hin|Hnot].
    + destruct (doc_truthy refdata).
      * destruct Hmbq as (Hall & Hc3). rewrite Hc3 in Hin.
        assert (n ∈ MEASUREDBOOT_PCRS config /\ n ∈ dom pcrs_dict) as [Hn1 Hn2].
        { apply elem_of_union in Hin as [Hin|Hin].
          - apply elem_of_intersection in Hin as [Hin1 Hin2].
            apply elem_of_list_to_set in Hin1. tauto.
          - exfalso. clear -Hin Hc2 Hnd Hni. set_solver. }
        destruct (Hall n Hn1 Hn2) as (_ & v & q' & _ & Hq' & _ & Hok).
        rewrite Hq in Hq'. injection Hq' as <-. apply Hok, Ha.
      * exfalso. rewrite Hmbq in Hin. clear -Hin Hc2 Hnd Hni. set_solver.
    + assert (n ∈ dom pcrs_dict) as Hn by (apply elem_of_dom; eauto).
      pose proof (Hres n Hn Hnot) as Hnone. unfold residual_event in Hnone.
      rewrite Ha, Hq in Hnone. destruct (policy_contains allowed q); [reflexivity|].
      discriminate.
  - intros Href. rewrite Href in Hmbq. destruct Hmbq as (Hall & _).
    split; [exact Hall|].
    destruct (mb_policy_step_quiet _ _ _ _ Hp Hmbf E6 Href) as (mbpf & He & Hq).
    cbn in He. exists (pcrs_in_quote (after_missing tr)), mbpf.
    split; [exact He|]. split; [exact Hq|].
    rewrite Hmi, missing_step_claimed. split; assumption.
Qed.


(** X22. What the collaborators report reaches the report of [check_pcrs],
    which stays a failure of PCR validation: the events of the log parser, of
    the IMA evaluation and of the measured boot policy are all in it. *)
Theorem check_pcrs_reports_collaborators agent tpm_policy pcrs_dict data iml rp kr mbl mbr
    hash_alg f pol name refdata hashes ba md mbf :
  check_pcrs config ext tools_version agent tpm_policy pcrs_dict data iml rp kr
    mbl mbr hash_alg = Ret f ->
  get_policy ext mbr = Ret (pol, name, refdata) ->
  parse_mb_bootlog config ext tools_version mbl hash_alg = Ret (hashes, ba, md, mbf) ->
  f_component f = PCR_VALIDATION
  /\ f_sub_components f = []
  /\ (forall e, In e (events mbf) -> In e (events f))
  /\ (forall v l, pcrs_dict !! IMA_PCR config = Some v -> iml = Some l ->
        exists imaf,
          process_measurement_list ext agent (Py.split "010"%char l) rp v kr ba hash_alg
          = Ret imaf
          /\ forall e, In e (events imaf) -> In e (events f))
  /\ (truthy mbf = false -> doc_truthy refdata = true ->
        exists claimed mbpf,
          evaluate_policy ext pol name refdata md claimed (agent_id agent) = Ret mbpf
          /\ forall e, In e (events mbpf) -> In e (events f)).
Proof.
  intros H Hpol Hparse.
  apply check_pcrs_inv in H as (tr & Htr & ->).
  destruct (check_pcrs_trace_extends _ _ _ _ _ _ _ _ _ _ _ _ _ _ Htr)
    as (X1 & X2 & X3 & X4 & X5 & X6).
  destruct (check_pcrs_trace_component _ _ _ _ _ _ _ _ _ _ _ _ _ _ Htr) as (Hc & Hs & _).
  apply check_pcrs_trace_steps in Htr
    as ([pol' name' refdata' hashes' ba' md' mbf'] & Hallow & Hpol' & Hparse' & H0 & Hd & Hi
        & Hm & Hr & Hmi & Hp).
  cbn [mb_policy mb_policy_name mb_refstate_data mb_pcrs_hashes boot_aggregates
       mb_measurement_data mb_failure] in *.
  rewrite Hpol in Hpol'. injection Hpol' as <- <- <-.
  rewrite Hparse in Hparse'. injection Hparse' as <- <- <- <-.
  pose proof (extends_state_trans _ _ _ X1 X2) as Y2.
  pose proof (extends_state_trans _ _ _ X3 (extends_state_trans _ _ _ X4
               (extends_state_trans _ _ _ X5 X6))) as Y6.
  pose proof (extends_state_trans _ _ _ Y2 Y6) as Y.
  split; [destruct Y as (_ & -> & _); exact Hc|].
  split; [destruct Y as (_ & _ & -> & _); exact Hs|].
  split; [|split].
  - intros e He. apply (extends_event_in _ _ _ Y). rewrite H0. cbn. exact He.
  - intros v l Hv ->. unfold ima_pcr_step in Hi. rewrite Hv in Hi.
    bind_inv Hi. injection Hi as Hi. unfold __check_ima in Hstep.
    bind_inv Hstep. bind_inv Hstep0. injection Hstep0 as <-. injection Hstep as <-.
    eexists. split; [eassumption|]. intros e He.
    apply (extends_event_in _ _ _ Y6). rewrite <- Hi. cbn.
    apply in_or_app. right. exact He.
  - intros Hmbf Href. unfold mb_policy_step in Hp. cbn [mb_failure mb_refstate_data] in Hp.
    rewrite Hmbf, Href in Hp. cbn [negb andb] in Hp. bind_inv Hp. injection Hp as <-.
    cbn in Hstep. eexists _, _. split; [exact Hstep|]. intros e He. cbn.
    apply in_or_app. right. exact He.
Qed.

(** X23. When the log cannot be parsed the measured boot PCRs get no
    treatment of their own and the measured boot policy is not evaluated:
    the loop over them and the policy step leave the state as it is, the
    PCRs claimed are the data and IMA PCRs and those of the allowlist, and
    the report is not empty. *)
Theorem check_pcrs_unparsed_log agent tpm_policy pcrs_dict data iml rp kr mbl mbr hash_alg
    tr hashes ba md mbf :
  check_pcrs_trace config ext tools_version agent tpm_policy pcrs_dict data iml rp kr
    mbl mbr hash_alg = Ret tr ->
  parse_mb_bootlog config ext tools_version mbl hash_alg = Ret (hashes, ba, md, mbf) ->
  truthy mbf = true ->
  after_mb tr = after_ima tr
  /\ after_policy tr = after_missing tr
  /\ pcrs_in_quote (after_policy tr)
     ⊆ {[TPM_DATA_PCR config; IMA_PCR config]} ∪ dom (pcr_allowlist tr)
  /\ truthy (st_failure (after_policy tr)) = true.
Proof.
  intros Htr Hparse Hmbf.
  destruct (check_pcrs_trace_extends _ _ _ _ _ _ _ _ _ _ _ _ _ _ Htr)
    as (X1 & X2 & X3 & X4 & X5 & X6).
  apply check_pcrs_trace_steps in Htr
    as ([pol' name' refdata' hashes' ba' md' mbf'] & Hallow & Hpol' & Hparse' & H0 & Hd & Hi
        & Hm & Hr & Hmi & Hp).
  cbn [mb_policy mb_policy_name mb_refstate_data mb_pcrs_hashes boot_aggregates
       mb_measurement_data mb_failure] in *.
  rewrite Hparse in Hparse'. injection Hparse' as <- <- <- <-.
  assert (after_mb tr = after_ima tr) as E3.
  { unfold mb_pcrs_step in Hm. cbn [mb_failure] in Hm. rewrite Hmbf in Hm.
    cbn in Hm. injection Hm as <-.
    destruct (after_ima tr) as [[c s e] cl]. unfold merge. cbn. rewrite app_nil_r.
    reflexivity. }
  assert (after_policy tr = after_missing tr) as E6.
  { unfold mb_policy_step in Hp. cbn [mb_failure] in Hp. rewrite Hmbf in Hp.
    cbn in Hp. injection Hp as <-. reflexivity. }
  split; [exact E3|]. split; [exact E6|]. split.
  - rewrite E6, Hmi, missing_step_claimed.
    rewrite (proj2 (residual_step_extends _ _ _ _ Hr)), E3.
    rewrite (ima_pcr_step_claimed _ _ _ _ _ _ _ _ _ _ _ Hi), Hd, data_pcr_step_claimed, H0.
    cbn [pcrs_in_quote]. clear. repeat case_decide; set_solver.
  - pose proof (extends_state_trans _ _ _ X1 (extends_state_trans _ _ _ X2
                 (extends_state_trans _ _ _ X3 (extends_state_trans _ _ _ X4
                   (extends_state_trans _ _ _ X5 X6))))) as ([more Hev] & _).
    unfold truthy. rewrite Hev, H0. cbn. unfold truthy in Hmbf.
    destruct (events mbf); [discriminate | reflexivity].
Qed.

Lemma mb_loop_raises pcrs_dict allow mbl (ev : MbEvidence MbPolicy) l : forall st e,
  (forall n, In n l -> n ∈ dom pcrs_dict) ->
  for_each (mb_pcr_body pcrs_dict allow mbl ev) l st = Raise e ->
  e = "TypeError"
  /\ doc_truthy (mb_refstate_data ev) = true
  /\ optstr_truthy mbl = true
  /\ exists n d,
       In n l
       /\ dict_get (KStr (Py.str_int n)) (mb_pcrs_hashes ev) = Some d
       /\ as_int d = None.
Proof.
  induction l as [|n l IH]; intros st e Hin H; cbn [for_each] in H; [discriminate|].
  destruct (mb_pcr_body pcrs_dict allow mbl ev st n) as [st1|e1] eqn:Hbody;
    cbn [mbind Exc_bind] in H.
  - destruct (IH st1 e) as (He & Href & Hm & m & d & Hmin & Hd & Hnone);
      [intros m Hm; apply Hin; right; exact Hm | exact H|].
    split; [exact He|]. split; [exact Href|]. split; [exact Hm|].
    exists m, d. split; [right; exact Hmin|]. split; assumption.
  - injection H as <-. unfold mb_pcr_body in Hbody.
    destruct (doc_truthy _); [|discriminate].
    destruct (optstr_truthy mbl); cbn [negb] in Hbody; [|discriminate].
    destruct (dict_get (KStr (Py.str_int n)) (mb_pcrs_hashes ev)) as [d|] eqn:Ed;
      cbn [default from_option id] in Hbody.
    + destruct (as_int d) as [v|] eqn:Ev.
      * exfalso. cbn [of_option mbind Exc_bind] in Hbody.
        assert (n ∈ dom pcrs_dict) as Hn by (apply Hin; left; reflexivity).
        apply elem_of_dom in Hn as [q Hq]. rewrite Hq in Hbody. discriminate Hbody.
      * cbn in Hbody. injection Hbody as <-. split; [reflexivity|].
        split; [reflexivity|]. split; [reflexivity|].
        exists n, d. split; [left; reflexivity|]. split; assumption.
    + exfalso. cbn [as_int of_option mbind Exc_bind] in Hbody.
      assert (n ∈ dom pcrs_dict) as Hn by (apply Hin; left; reflexivity).
      apply elem_of_dom in Hn as [q Hq]. rewrite Hq in Hbody. discriminate Hbody.
Qed.

(** X24. The loop of [check_pcrs] over the quoted measured boot PCRs raises
    in one case only, for a policy whose values are strings or lists of
    strings: the log parsed without failure, the reference state is truthy, a
    measurement list was given, and for a measured boot PCR of the quote the
    log holds a value that is not an integer; the exception is then the
    TypeError of [hex]. The quoted PCRs are only read at indices of the quote:
    the loop never raises a KeyError. *)
Theorem mb_pcrs_step_raise_origin pcrs_dict allow mbl (ev : MbEvidence MbPolicy) st e :
  mb_pcrs_step config pcrs_dict allow mbl ev st = Raise e ->
  e = "TypeError"
  /\ truthy (mb_failure ev) = false
  /\ doc_truthy (mb_refstate_data ev) = true
  /\ optstr_truthy mbl = true
  /\ exists n d,
       n ∈ MEASUREDBOOT_PCRS config /\ n ∈ dom pcrs_dict
       /\ dict_get (KStr (Py.str_int n)) (mb_pcrs_hashes ev) = Some d
       /\ as_int d = None.
Proof.
  unfold mb_pcrs_step. intros H.
  destruct (truthy (mb_failure ev)); cbn [negb] in H; [discriminate|].
  match type of H with
  | context [for_each ?b ?l ?s] => destruct (for_each b l s) as [loop|e1] eqn:Hloop
  end; [discriminate|].
  cbn in H. injection H as <-.
  apply mb_loop_raises in Hloop as (-> & Href & Hm & n & d & Hn & Hd & Hnone).
  - split; [reflexivity|]. split; [reflexivity|]. split; [exact Href|]. split; [exact Hm|].
    exists n, d.
    apply list_elem_of_In, elem_of_elements, elem_of_intersection in Hn as [Hn1 Hn2].
    apply elem_of_list_to_set in Hn1. auto.
  - intros n Hn. apply list_elem_of_In, elem_of_elements in Hn. set_solver.
Qed.

End PcrEvaluatorMore.

Lemma check_pcrs_empty_report_witness :
  exists allow pol name refdata hashes ba md mbf,
    normalize_policy (example_ext (inr example_good_quote) []) example_policy = Ret allow
    /\ get_policy (example_ext (inr example_good_quote) []) None = Ret (pol, name, refdata)
    /\ parse_mb_bootlog example_config (example_ext (inr example_good_quote) []) "5.4" None
         example_hash = Ret (hashes, ba, md, mbf)
    /\ events mbf = []
    /\ (exists q d, example_good_quote !! TPM_DATA_PCR example_config = Some q
                    /\ Some "nonce123" = Some d /\ sim_extend d example_hash = q)
    /\ (forall v, example_good_quote !! IMA_PCR example_config = Some v ->
          exists l imaf,
            None = Some l
            /\ process_measurement_list (example_ext (inr example_good_quote) []) example_agent
                 (Py.split "010"%char l) tt v None ba example_hash = Ret imaf
            /\ events imaf = [])
    /\ dom allow ⊆ dom example_good_quote
    /\ (forall n allowed q,
          allow !! n = Some allowed -> example_good_quote !! n = Some q ->
          n <> TPM_DATA_PCR example_config -> n <> IMA_PCR example_config ->
          policy_contains allowed q = true)
    /\ (doc_truthy refdata = true ->
          (forall n, n ∈ MEASUREDBOOT_PCRS example_config -> n ∈ dom example_good_quote ->
             optstr_truthy None = true /\ mb_pcr_accepted example_good_quote allow hashes n)
          /\ exists claimed mbpf,
               evaluate_policy (example_ext (inr example_good_quote) []) pol name refdata md
                 claimed (agent_id example_agent) = Ret mbpf
               /\ events mbpf = []
               /\ dom allow ⊆ claimed /\ claimed ⊆ dom example_good_quote).
Proof.
  apply (check_pcrs_empty_report example_config (example_ext (inr example_good_quote) [])
           "5.4" example_agent example_policy example_good_quote (Some "nonce123") None tt
           None None None example_hash (failure.new PCR_VALIDATION [])).
  - vm_compute. reflexivity.
  - reflexivity.
Defined.

Lemma check_pcrs_reports_collaborators_witness :
  let f1 := ret_or (failure.new PCR_VALIDATION [])
              (check_pcrs example_config (example_reporting_ext None) "5.4" example_agent
                 example_policy (<[10 := "ii"]> example_quote) (Some "nonce123")
                 (Some "10 line") tt None (Some "log") None example_hash) in
  let f2 := ret_or (failure.new PCR_VALIDATION [])
              (check_pcrs example_config (example_reporting_ext (Some (DDict example_log)))
                 "5.4" example_agent example_policy example_quote (Some "nonce123") None tt
                 None (Some "log") (Some "refstate") example_hash) in
  (f_component f1 = PCR_VALIDATION
   /\ In (mkEvent MEASURED_BOOT ["parser"] "yaml"
            (CtxStr "yaml output of tpm2_eventlog could not be parsed!") true) (events f1)
   /\ In (mkEvent IMA [] "ima.validation.ima-ng.not_in_allowlist"
            (CtxStr "file not found in the runtime policy") true) (events f1))
  /\ (f_component f2 = PCR_VALIDATION
      /\ In (mkEvent MEASURED_BOOT [] "policy_violation"
               (CtxStr "boot event log does not match the reference state") true)
            (events f2)).
Proof.
  intros f1 f2. split.
  - assert (check_pcrs example_config (example_reporting_ext None) "5.4" example_agent
              example_policy (<[10 := "ii"]> example_quote) (Some "nonce123")
              (Some "10 line") tt None (Some "log") None example_hash = Ret f1) as Hrun
      by (vm_compute; reflexivity).
    pose proof (check_pcrs_reports_collaborators example_config (example_reporting_ext None)
                  "5.4" example_agent example_policy (<[10 := "ii"]> example_quote)
                  (Some "nonce123") (Some "10 line") tt None (Some "log") None example_hash
                  f1 tt "policy" (DDict []) [] None (DDict [])
                  (mkFailure MEASURED_BOOT ["parser"]
                     [mkEvent MEASURED_BOOT ["parser"] "yaml"
                        (CtxStr "yaml output of tpm2_eventlog could not be parsed!") true])
                  Hrun eq_refl eq_refl) as (Hc & _ & Hparser & Hima & _).
    split; [exact Hc|]. split.
    + apply Hparser. left. reflexivity.
    + destruct (Hima "ii" "10 line") as (imaf & Himaf & Hin);
        [vm_compute; reflexivity | reflexivity |].
      injection Himaf as <-. apply Hin. left. reflexivity.
  - assert (check_pcrs example_config (example_reporting_ext (Some (DDict example_log))) "5.4"
              example_agent example_policy example_quote (Some "nonce123") None tt None
              (Some "log") (Some "refstate") example_hash = Ret f2) as Hrun
      by (vm_compute; reflexivity).
    pose (r := ret_or ([], None, DDict [], failure.new MEASURED_BOOT ["parser"])
                 (parse_mb_bootlog example_config
                    (example_reporting_ext (Some (DDict example_log))) "5.4" (Some "log")
                    example_hash)).
    assert (parse_mb_bootlog example_config (example_reporting_ext (Some (DDict example_log)))
              "5.4" (Some "log") example_hash = Ret (r.1.1.1, r.1.1.2, r.1.2, r.2)) as Hparse
      by (vm_compute; reflexivity).
    pose proof (check_pcrs_reports_collaborators example_config
                  (example_reporting_ext (Some (DDict example_log))) "5.4" example_agent
                  example_policy example_quote (Some "nonce123") None tt None (Some "log")
                  (Some "refstate") example_hash f2 tt "policy"
                  (DDict [(KStr "refstate", DInt 1)]) r.1.1.1 r.1.1.2 r.1.2 r.2
                  Hrun eq_refl Hparse) as (Hc & _ & _ & _ & Hpolicy).
    split; [exact Hc|].
    destruct Hpolicy as (claimed & mbpf & Hev & Hin);
      [vm_compute; reflexivity | reflexivity |].
    injection Hev as <-. apply Hin. left. reflexivity.
Defined.

Lemma check_pcrs_unparsed_log_witness :
  let tr := trace_of
              (check_pcrs_trace example_config (example_ext (inr example_quote) []) "5.4"
                 example_agent example_policy example_quote (Some "nonce123") None tt None
                 (Some "log") None example_hash) in
  after_mb tr = after_ima tr
  /\ after_policy tr = after_missing tr
  /\ pcrs_in_quote (after_policy tr)
     ⊆ {[TPM_DATA_PCR example_config; IMA_PCR example_config]} ∪ dom (pcr_allowlist tr)
  /\ truthy (st_failure (after_policy tr)) = true.
Proof.
  intros tr.
  pose (r := ret_or ([], None, DDict [], failure.new MEASURED_BOOT ["parser"])
               (parse_mb_bootlog example_config (example_ext (inr example_quote) []) "5.4"
                  (Some "log") example_hash)).
  apply (check_pcrs_unparsed_log example_config (example_ext (inr example_quote) []) "5.4"
           example_agent example_policy example_quote (Some "nonce123") None tt None
           (Some "log") None example_hash tr r.1.1.1 r.1.1.2 r.1.2 r.2).
  - vm_compute. reflexivity.
  - vm_compute. reflexivity.
  - vm_compute. reflexivity.
Defined.

Lemma mb_pcrs_step_raise_origin_witness :
  "TypeError" = "TypeError"
  /\ truthy (failure.new MEASURED_BOOT ["parser"]) = false
  /\ doc_truthy (DDict [(KStr "refstate", DInt 1)]) = true
  /\ optstr_truthy (Some "log") = true
  /\ exists n d,
       n ∈ MEASUREDBOOT_PCRS example_config /\ n ∈ dom example_quote
       /\ dict_get (KStr (Py.str_int n)) [(KStr "0", DStr "0xaa")] = Some d
       /\ as_int d = None.
Proof.
  apply (mb_pcrs_step_raise_origin (MbPolicy := unit) example_config example_quote
           {[ 0 := PList ["aa"]; 1 := PList ["bb"] ]} (Some "log")
           (mkMbEvidence tt "policy" (DDict [(KStr "refstate", DInt 1)])
              [(KStr "0", DStr "0xaa")] None (DDict [])
              (failure.new MEASURED_BOOT ["parser"]))
           (mkPcrState (failure.new PCR_VALIDATION []) ∅) "TypeError").
  vm_compute. reflexivity.
Defined.


Section PcrEvaluatorForward.

Context {ImaKeyrings RuntimePolicyType MbPolicy : Type}.
Context (config : Config).
Context (ext : Collaborators ImaKeyrings RuntimePolicyType MbPolicy).
Context (tools_version : string).

(** ** The allowlist *)

Lemma normalize_loop_keys l : forall m0,
  match for_each (fun (m : gmap Z PolicyVal) '(k, v) =>
                    i ← int_of_str ext k; Ret (<[i := v]> m)) l m0 with
  | Ret m =>
      (forall i, i ∈ dom m <-> i ∈ dom m0 \/ exists k v, In (k, v) l /\ int_of_str ext k = Ret i)
      /\ (forall i v, m !! i = Some v ->
            m0 !! i = Some v \/ exists k, In (k, v) l /\ int_of_str ext k = Ret i)
  | Raise e => exists k v, In (k, v) l /\ int_of_str ext k = Raise e
  end.
Proof.
  induction l as [|[k v] l IH]; intros m0; cbn [for_each].
  - split; [|auto]. intros i. split; [auto|]. intros [H | (k & v & [] & _)]. exact H.
  - destruct (int_of_str ext k) as [i0|e0] eqn:Ek; cbn [mbind Exc_bind].
    + specialize (IH (<[i0 := v]> m0)).
      destruct (for_each _ l (<[i0 := v]> m0)) as [m|e].
      * destruct IH as [Hdom Hval]. split.
        -- intros i. rewrite Hdom, dom_insert. split.
           ++ intros [Hi | (k' & v' & Hin & Hk')].
              ** apply elem_of_union in Hi as [Hi | Hi]; [|left; exact Hi].
                 apply elem_of_singleton in Hi as ->. right. exists k, v.
                 split; [left; reflexivity | exact Ek].
              ** right. exists k', v'. split; [right; exact Hin | exact Hk'].
           ++ intros [Hi | (k' & v' & [[= <- <-] | Hin] & Hk')].
              ** left. set_solver.
              ** left. rewrite Ek in Hk'. injection Hk' as ->. set_solver.
              ** right. eauto.
        -- intros i v' Hv. destruct (Hval i v' Hv) as [H0 | (k' & Hin & Hk')].
           ++ destruct (decide (i0 = i)) as [-> | Hne].
              ** rewrite lookup_insert_eq in H0. injection H0 as <-.
                 right. exists k. split; [left; reflexivity | exact Ek].
              ** rewrite lookup_insert_ne in H0 by exact Hne. left; exact H0.
           ++ right. exists k'. split; [right; exact Hin | exact Hk'].
      * destruct IH as (k' & v' & Hin & Hk'). exists k', v'. split; [right; exact Hin | exact Hk'].
    + exists k, v. split; [left; reflexivity | exact Ek].
Qed.

(** X25. The allowlist of [check_pcrs] has exactly the keys of the policy
    other than [mask], converted to integers, each with a value the policy
    gives to such a key; a mask takes no part in the conversion, and the
    only exception is that of a key other than [mask] that is no integer. *)
Theorem normalize_policy_keys tpm_policy d :
  match tpm_policy with
  | PolicyJson s => json_loads ext s
  | PolicyDict_ d' => Ret d'
  end = Ret d ->
  match normalize_policy ext tpm_policy with
  | Ret allow =>
      (forall i, i ∈ dom allow
                 <-> exists k v, In (k, v) d /\ k <> "mask" /\ int_of_str ext k = Ret i)
      /\ (forall i v, allow !! i = Some v ->
            exists k, In (k, v) d /\ k <> "mask" /\ int_of_str ext k = Ret i)
  | Raise e => exists k v, In (k, v) d /\ k <> "mask" /\ int_of_str ext k = Raise e
  end.
Proof.
  intros Hd. unfold normalize_policy. rewrite Hd. cbn [mbind Exc_bind].
  pose proof (normalize_loop_keys
                (List.filter (fun kv => negb (String.eqb (fst kv) "mask")) d) ∅) as H.
  assert (forall k (v : PolicyVal),
            In (k, v) (List.filter (fun kv => negb (String.eqb (fst kv) "mask")) d)
            <-> In (k, v) d /\ k <> "mask") as Hfilter.
  { intros k v. rewrite filter_In. cbn [fst]. rewrite negb_true_iff, String.eqb_neq. tauto. }
  destruct (for_each _ _ ∅) as [allow|e].
  - destruct H as [Hdom Hval]. split.
    + intros i. rewrite Hdom. split.
      * intros [Hi | (k & v & Hin & Hk)]; [set_solver|].
        apply Hfilter in Hin as [Hin Hne]. eauto.
      * intros (k & v & Hin & Hne & Hk). right. exists k, v.
        split; [apply Hfilter; auto | exact Hk].
    + intros i v Hv. destruct (Hval i v Hv) as [H0 | (k & Hin & Hk)].
      * rewrite lookup_empty in H0. discriminate.
      * apply Hfilter in Hin as [Hin Hne]. eauto.
  - destruct H as (k & v & Hin & Hk). apply Hfilter in Hin as [Hin Hne]. eauto.
Qed.

(** ** All checks pass *)



End PcrEvaluatorForward.

Lemma normalize_policy_keys_witness :
  match normalize_policy (example_ext (inr example_quote) []) example_policy with
  | Ret allow =>
      (forall i, i ∈ dom allow
                 <-> exists k v,
                       In (k, v) [("mask", PStr "0x408000"); ("0", PList ["aa"]);
                                  ("1", PList ["bb"])]
                       /\ k <> "mask"
                       /\ int_of_str (example_ext (inr example_quote) []) k = Ret i)
      /\ (forall i v, allow !! i = Some v ->
            exists k,
              In (k, v) [("mask", PStr "0x408000"); ("0", PList ["aa"]); ("1", PList ["bb"])]
              /\ k <> "mask"
              /\ int_of_str (example_ext (inr example_quote) []) k = Ret i)
  | Raise e =>
      exists k v,
        In (k, v) [("mask", PStr "0x408000"); ("0", PList ["aa"]); ("1", PList ["bb"])]
        /\ k <> "mask"
        /\ int_of_str (example_ext (inr example_quote) []) k = Raise e
  end.
Proof.
  apply (normalize_policy_keys (example_ext (inr example_quote) []) example_policy
           [("mask", PStr "0x408000"); ("0", PList ["aa"]); ("1", PList ["bb"])]).
  reflexivity.
Defined.

